(** * Packit service worker: event data, Testing Farm handlers, comment commands

    A shallow embedding of
    - [packit_service/worker/events/event.py] (classes [EventData], [Event]
      and [AbstractForgeIndependentEvent]),
    - [packit_service/worker/handlers/testing_farm.py]
      (classes [TestingFarmHandler] and [TestingFarmResultsHandler]),
    together with the properties the specification states about them and
    further properties of the same code.

    Python objects are records, [None]-able attributes are [option]s, a method
    that touches a collaborator (database, forge, queue, metrics, logger) is a
    function in the monad [M]: it threads a [World] and either returns or
    raises.  Every call to a collaborator is appended to the world's [trace];
    [logger.debug] lines are left out of it.  A property that caches its
    value returns the object after the read along with the value.

    The comment parser [get_packit_commands_from_comment] is not among the
    sources, only its tests are; module [Comment] models it after the
    specification. *)

From Stdlib Require Import ZArith Lia Ascii String.
From stdpp Require Import base option list strings gmap.

(** ** Python values *)

(** A [datetime] is modelled as the codebase builds it for event data
    ([datetime.fromtimestamp(ts, timezone.utc)]): a timezone-aware instant,
    counted in microseconds since the epoch, which is what [timestamp()]
    gives of it.  Equality of the type is equality of instants, which is
    Python's equality between timezone-aware datetimes.  A naive datetime
    (one without [tzinfo]) never equals an aware one in Python and has no
    value of its own in this type: where two datetimes are compared below,
    the statement is one about timezone-aware datetimes.  Python confines a
    datetime to the years 1 to 9999, which the type does not;
    [datetime_range] says it of a timestamp where a statement depends on
    it. *)
Record datetime := Datetime { since_epoch_us : Z }.

#[global] Instance datetime_eq_dec : EqDecision datetime.
Proof. solve_decision. Defined.

(** [int(t.timestamp())]: [int] truncates toward zero.  [timestamp] goes
    through a float, the seconds since the epoch rounded to a double, so the
    truncation written here is what Python gives only where that rounding
    does not reach the next second: see [float_exact]. *)
Definition int_timestamp (t : datetime) : Z := Z.quot (since_epoch_us t) 1000000.

(** [datetime.fromtimestamp(n, timezone.utc)] for an integer [n] that it
    accepts: see [datetime_range]. *)
Definition fromtimestamp (n : Z) : datetime := Datetime (n * 1000000).

Definition whole_second (t : datetime) : Prop := Z.rem (since_epoch_us t) 1000000 = 0%Z.

(** The timestamps [datetime.fromtimestamp(n, timezone.utc)] accepts, the
    seconds of the years 1 to 9999; outside it raises. *)
Definition datetime_range (n : Z) : Prop := (-62135596800 ≤ n ≤ 253402300799)%Z.

#[global] Instance datetime_range_dec (n : Z) : Decision (datetime_range n).
Proof. unfold datetime_range. apply _. Defined.

(** The instants at which [int(t.timestamp())] is the exact truncation: a
    double has 53 bits, so below 2^34 seconds from the epoch (the year 2514)
    it is less than a microsecond off, and a whole second of a datetime is a
    double itself. *)
Definition float_exact (t : datetime) : Prop :=
  (Z.abs (since_epoch_us t) < 2 ^ 34 * 1000000)%Z ∨
  (whole_second t ∧ datetime_range (int_timestamp t)).

(** [ogr.abstract.GitProject]: the two attributes the code reads. *)
Record GitProject := { namespace : string; repo : string }.

(** The four trigger tables of [packit_service.models]. *)
Inductive TriggerModel := PullRequestModel | GitBranchModel | ProjectReleaseModel | IssueModel.

#[global] Instance TriggerModel_eq_dec : EqDecision TriggerModel.
Proof. solve_decision. Defined.

(** The four [get_or_create] calls of [EventData.db_trigger], with their
    keyword arguments in source order. *)
Inductive DbCall :=
| PullRequestModel_get_or_create
    (pr_id : option Z) (namespace repo_name : string) (project_url : option string)
| GitBranchModel_get_or_create
    (branch_name : option string) (namespace repo_name : string) (project_url : option string)
| ProjectReleaseModel_get_or_create
    (tag_name : option string) (namespace repo_name : string) (project_url : option string)
    (commit_hash : option string)
| IssueModel_get_or_create
    (issue_id : option Z) (namespace repo_name : string) (project_url : option string).

Definition model_of (c : DbCall) : TriggerModel :=
  match c with
  | PullRequestModel_get_or_create _ _ _ _ => PullRequestModel
  | GitBranchModel_get_or_create _ _ _ _ => GitBranchModel
  | ProjectReleaseModel_get_or_create _ _ _ _ _ => ProjectReleaseModel
  | IssueModel_get_or_create _ _ _ _ => IssueModel
  end.

(** A stored trigger record ([AbstractTriggerDbType]): its primary key and the
    call that created it. *)
Record AbstractTriggerDbType := { tr_id : Z; tr_row : DbCall }.

Definition job_trigger_model_type (t : AbstractTriggerDbType) : TriggerModel :=
  model_of (tr_row t).

(** Dictionary values: what [self.__dict__], the event dictionaries and the
    [details] of a result hold. *)
#[local] Unset Elimination Schemes.
Inductive value :=
| VNone
| VBool (b : bool)
| VInt (n : Z)
| VStr (s : string)
| VList (l : list string)
| VSet (s : gset string)
| VDatetime (t : datetime)
| VDict (d : gmap string value)
| VProject (p : GitProject)
| VTrigger (t : AbstractTriggerDbType).
#[local] Set Elimination Schemes.

(** Python's truth test ([if x], [not x], [x or y]). *)
Class Truthy (A : Type) := truthy : A → bool.

#[global] Instance truthy_bool : Truthy bool := λ b, b.
#[global] Instance truthy_Z : Truthy Z := λ n, negb (n =? 0)%Z.
#[global] Instance truthy_string : Truthy string :=
  λ s, match s with EmptyString => false | String _ _ => true end.
#[global] Instance truthy_list {A} : Truthy (list A) :=
  λ l, match l with [] => false | _ :: _ => true end.
#[global] Instance truthy_gset : Truthy (gset string) := λ s, negb (bool_decide (s = ∅)).
#[global] Instance truthy_datetime : Truthy datetime := λ _, true.
#[global] Instance truthy_GitProject : Truthy GitProject := λ _, true.
#[global] Instance truthy_trigger : Truthy AbstractTriggerDbType := λ _, true.
#[global] Instance truthy_option {A} `{Truthy A} : Truthy (option A) :=
  λ o, match o with None => false | Some a => truthy a end.
#[global] Instance truthy_value : Truthy value :=
  λ v, match v with
       | VNone => false
       | VBool b => b
       | VInt n => truthy n
       | VStr s => truthy s
       | VList l => truthy l
       | VSet s => truthy s
       | VDatetime _ => true
       | VDict d => negb (bool_decide (d = ∅))
       | VProject _ => true
       | VTrigger _ => true
       end.

(** [an_optional_attribute] as a dictionary value. *)
Definition of_opt {A} (f : A → value) (o : option A) : value :=
  match o with Some a => f a | None => VNone end.

(** [d.get(key)] read at the type an [EventData] attribute is annotated with;
    a missing key gives [None], as [dict.get] does. *)
Definition get (key : string) (d : gmap string value) : value := default VNone (d !! key).

Definition as_str (v : value) : option string := match v with VStr s => Some s | _ => None end.
Definition as_int (v : value) : option Z := match v with VInt n => Some n | _ => None end.

(** The strings an iterable yields ([set(x)], [list(x)]). *)
Definition as_strs (v : value) : option (list string) :=
  match v with
  | VList l => Some l
  | VSet s => Some (elements s)
  | _ => None
  end.

(** [f"{x}"] of an optional string. *)
Definition fmt (o : option string) : string := default "None" o.

(** ** Collaborator data *)

Module BaseCommitStatus.
Inductive t := pending | running | success | failure | error.
End BaseCommitStatus.

(** Modelled from the spec: the members of the enum [TestingFarmResult]
    (declared in [packit_service.models]) are the statuses of a test run. *)
Module TestingFarmResult.
Inductive t := queued | running | passed | failed | error.

#[global] Instance eq_dec : EqDecision t.
Proof. solve_decision. Defined.
End TestingFarmResult.

(** [CoprBuildModel]: primary key, status and [get_trigger_object()]. *)
Record CoprBuildModel := {
  cb_id : Z;
  cb_status : string;
  cb_trigger : option AbstractTriggerDbType;
}.

(** [TFTTestRunModel]. *)
Record TFTTestRunModel := {
  tft_id : Z;
  tft_status : option TestingFarmResult.t;
  tft_web_url : option string;
  tft_submitted_time : datetime;
  tft_trigger : option AbstractTriggerDbType;
}.

(** Model objects are truthy. *)
#[global] Instance truthy_build : Truthy CoprBuildModel := λ _, true.
#[global] Instance truthy_run : Truthy TFTTestRunModel := λ _, true.

(** [JobTriggerModel]: a row pairing a trigger table with a trigger id. *)
Record JobTriggerModel := { jt_id : Z; jt_type : TriggerModel; jt_trigger_id : Z }.

(** [TaskResults(success=..., details=...)]. *)
Record TaskResults := { success : bool; details : gmap string value }.

(** What [dump_package_config(c)] and [dump_job_config(c)] return for a
    configuration [c].  The two functions are in [packit_service.utils], not
    among the sources at hand; the value they return is kept as the call
    that made it. *)
Inductive Dumped := dump_package_config (c : value) | dump_job_config (c : value).

(** The [kwargs] of a Celery signature. *)
Record Kwargs := {
  kw_package_config : Dumped;
  kw_job_config : Dumped;
  kw_event : gmap string value;
}.

(** The [url] of a status report: either [get_testing_farm_info_url(id)] or a
    plain (possibly missing) string. *)
Inductive Url := testing_farm_info_url (id : Z) | copr_build_info_url (id : Z) | plain_url (u : option string).

Inductive LogLevel := INFO | WARNING.

(** The members of the enum [TaskName] the handlers name. *)
Module TaskName.
Inductive t := copr_build | testing_farm | testing_farm_results.
End TaskName.

(** ** The world and its trace *)

Inductive Effect :=
| Log (level : LogLevel) (msg : string)
| ServiceConfig_get_project (url : string)
| Db (c : DbCall)
| CoprBuildModel_get_by_id (id : Z)
| TFTTestRunModel_get_by_pipeline_id (pipeline_id : option string)
| JobTriggerModel_get_or_create (type : TriggerModel) (trigger_id : Z)
| get_latest_copr_build (target : string) (commit_sha : option string)
| report_status_to_test_for_chroot
    (state : BaseCommitStatus.t) (description : string) (url : Url) (chroot : string)
| inc (counter : string)
| observe (histogram : string) (microseconds : Z)
| apply_async (task_name : TaskName.t) (kwargs : Kwargs)
| run_testing_farm (build : CoprBuildModel) (chroot : string)
| StatusReporter_get_instance
    (commit_sha : option string) (trigger_id : option Z) (pr_id : option Z)
| StatusReporter_report
    (state : BaseCommitStatus.t) (description : string) (url : Url)
    (links_to_external_services : list (string * option string))
    (get_test_check_of : option string).

Record World := {
  service_config : string → option GitProject;
  triggers : list AbstractTriggerDbType;
  copr_builds : gmap Z CoprBuildModel;
  test_runs : gmap string TFTTestRunModel;
  job_triggers : list JobTriggerModel;
  now : datetime;
  trace : list Effect;
}.

Definition emit (e : Effect) (w : World) : World :=
  {| service_config := service_config w; triggers := triggers w;
     copr_builds := copr_builds w; test_runs := test_runs w;
     job_triggers := job_triggers w; now := now w;
     trace := trace w ++ [e] |}.

Definition set_triggers (l : list AbstractTriggerDbType) (w : World) : World :=
  {| service_config := service_config w; triggers := l;
     copr_builds := copr_builds w; test_runs := test_runs w;
     job_triggers := job_triggers w; now := now w; trace := trace w |}.

Definition set_test_runs (m : gmap string TFTTestRunModel) (w : World) : World :=
  {| service_config := service_config w; triggers := triggers w;
     copr_builds := copr_builds w; test_runs := m;
     job_triggers := job_triggers w; now := now w; trace := trace w |}.

Definition set_job_triggers (l : list JobTriggerModel) (w : World) : World :=
  {| service_config := service_config w; triggers := triggers w;
     copr_builds := copr_builds w; test_runs := test_runs w;
     job_triggers := l; now := now w; trace := trace w |}.

(** ** The monad of handler code: state and exceptions *)

Inductive exn := AttributeError (msg : string).

Inductive outcome (A : Type) := Ok (a : A) | Raise (e : exn).
Arguments Ok {A} a.
Arguments Raise {A} e.

Definition M (A : Type) : Type := World → outcome A * World.

#[global] Instance M_ret : MRet M := λ A a w, (Ok a, w).
#[global] Instance M_bind : MBind M :=
  λ A B f m w, match m w with
               | (Ok a, w') => f a w'
               | (Raise e, w') => (Raise e, w')
               end.

Definition raise {A} (e : exn) : M A := λ w, (Raise e, w).
Definition effect (e : Effect) : M unit := λ w, (Ok tt, emit e w).
Definition ask {A} (f : World → A) : M A := λ w, (Ok (f w), w).

(** [o.attr] where [o] may be [None]. *)
Definition getattr {A B} (attr : string) (f : A → B) (o : option A) : M B :=
  match o with
  | Some a => mret (f a)
  | None => raise (AttributeError ("'NoneType' object has no attribute '" +:+ attr +:+ "'"))
  end.

(** [for x in l: body], threading an accumulator. *)
Fixpoint for_each {A S} (l : list A) (body : A → S → M S) (s : S) : M S :=
  match l with
  | [] => mret s
  | x :: l' => s' ← body x s; for_each l' body s'
  end.

(** ** Storage collaborators *)

(** The natural key of an upsert: table, kind-specific key, namespace, repo and
    project url ([commit_hash] of a release is stored, not matched). *)
Definition same_key (a b : DbCall) : bool :=
  match a, b with
  | PullRequestModel_get_or_create k n r u, PullRequestModel_get_or_create k' n' r' u' =>
      bool_decide (k = k' ∧ n = n' ∧ r = r' ∧ u = u')
  | GitBranchModel_get_or_create k n r u, GitBranchModel_get_or_create k' n' r' u' =>
      bool_decide (k = k' ∧ n = n' ∧ r = r' ∧ u = u')
  | ProjectReleaseModel_get_or_create k n r u _, ProjectReleaseModel_get_or_create k' n' r' u' _ =>
      bool_decide (k = k' ∧ n = n' ∧ r = r' ∧ u = u')
  | IssueModel_get_or_create k n r u, IssueModel_get_or_create k' n' r' u' =>
      bool_decide (k = k' ∧ n = n' ∧ r = r' ∧ u = u')
  | _, _ => false
  end.

(** Modelled from the spec: [get_or_create] of the trigger tables
    ([packit_service.models], not part of the sources at hand) is an upsert by
    natural key: the stored record with that key if there is one, else a new
    record with a fresh id. *)
Definition get_or_create (c : DbCall) : M AbstractTriggerDbType :=
  λ w, let w := emit (Db c) w in
       match find (λ r, same_key (tr_row r) c) (triggers w) with
       | Some r => (Ok r, w)
       | None =>
           let r := {| tr_id := Z.of_nat (S (length (triggers w))); tr_row := c |} in
           (Ok r, set_triggers (triggers w ++ [r]) w)
       end.

(** [ServiceConfig.get_service_config().get_project(url=...)]. *)
Definition get_project_of_service (url : string) : M (option GitProject) :=
  λ w, (Ok (service_config w url), emit (ServiceConfig_get_project url) w).

(** ** [class EventData] *)

Record EventData := {
  event_type : option string;
  user_login : option string;
  trigger_id : option Z;
  project_url : option string;
  tag_name : option string;
  git_ref : option string;
  pr_id : option Z;
  commit_sha : option string;
  identifier : option string;
  event_dict : option (gmap string value);
  issue_id : option Z;
  task_accepted_time : option datetime;
  targets_override : option (gset string);
  _project : option GitProject;
  _db_trigger : option AbstractTriggerDbType;
}.

Module EventData.

Definition __init__
    (event_type user_login : option string) (trigger_id : option Z)
    (project_url tag_name git_ref : option string) (pr_id : option Z)
    (commit_sha identifier : option string) (event_dict : option (gmap string value))
    (issue_id : option Z) (task_accepted_time : option datetime)
    (targets_override : option (list string)) : EventData :=
  {| event_type := event_type; user_login := user_login; trigger_id := trigger_id;
     project_url := project_url; tag_name := tag_name; git_ref := git_ref;
     pr_id := pr_id; commit_sha := commit_sha; identifier := identifier;
     event_dict := event_dict; issue_id := issue_id;
     task_accepted_time := task_accepted_time;
     targets_override :=
       if truthy targets_override then list_to_set <$> targets_override else None;
     _project := None;
     _db_trigger := None |}.

Definition from_event_dict (event : gmap string value) : EventData :=
  let event_type := as_str (get "event_type" event) in
  let user_login := as_str (get "user_login" event) in
  let trigger_id := as_int (get "trigger_id" event) in
  let project_url := as_str (get "project_url" event) in
  let tag_name := as_str (get "tag_name" event) in
  let git_ref := as_str (get "git_ref" event) in
  let pr_id :=
    as_int (if truthy (get "_pr_id" event) then get "_pr_id" event else get "pr_id" event) in
  let commit_sha := as_str (get "commit_sha" event) in
  let identifier := as_str (get "identifier" event) in
  let issue_id := as_int (get "issue_id" event) in
  let task_accepted_time :=
    if truthy (get "task_accepted_time" event)
    then fromtimestamp <$> as_int (get "task_accepted_time" event)
    else None in
  let targets_override := as_strs (get "targets_override" event) in
  __init__ event_type user_login trigger_id project_url tag_name git_ref pr_id
    commit_sha identifier (Some event) issue_id task_accepted_time targets_override.

(** [self.__dict__]: every instance attribute under its name. *)
Definition __dict__ (self : EventData) : gmap string value :=
  list_to_map
    [ ("event_type", of_opt VStr (event_type self));
      ("user_login", of_opt VStr (user_login self));
      ("trigger_id", of_opt VInt (trigger_id self));
      ("project_url", of_opt VStr (project_url self));
      ("tag_name", of_opt VStr (tag_name self));
      ("git_ref", of_opt VStr (git_ref self));
      ("pr_id", of_opt VInt (pr_id self));
      ("commit_sha", of_opt VStr (commit_sha self));
      ("identifier", of_opt VStr (identifier self));
      ("event_dict", of_opt VDict (event_dict self));
      ("issue_id", of_opt VInt (issue_id self));
      ("task_accepted_time", of_opt VDatetime (task_accepted_time self));
      ("targets_override", of_opt VSet (targets_override self));
      ("_project", of_opt VProject (_project self));
      ("_db_trigger", of_opt VTrigger (_db_trigger self)) ].

(** [int(x.timestamp())] on a dictionary value. *)
Definition timestamp_value (v : value) : value :=
  match v with VDatetime t => VInt (int_timestamp t) | _ => VNone end.

Definition get_dict (self : EventData) : gmap string value :=
  let d := __dict__ self in
  let task_accepted_time := get "task_accepted_time" d in
  let d :=
    <["task_accepted_time" :=
        if truthy task_accepted_time then timestamp_value task_accepted_time else VNone]> d in
  let targets_override := targets_override self in
  let d :=
    if truthy targets_override
    then <["targets_override" := of_opt (λ s, VList (elements s)) targets_override]> d
    else d in
  let d := delete "_project" d in
  let d := delete "_db_trigger" d in
  d.

Definition set__project (p : option GitProject) (self : EventData) : EventData :=
  {| event_type := event_type self; user_login := user_login self;
     trigger_id := trigger_id self; project_url := project_url self;
     tag_name := tag_name self; git_ref := git_ref self; pr_id := pr_id self;
     commit_sha := commit_sha self; identifier := identifier self;
     event_dict := event_dict self; issue_id := issue_id self;
     task_accepted_time := task_accepted_time self;
     targets_override := targets_override self;
     _project := p; _db_trigger := _db_trigger self |}.

Definition set__db_trigger (t : option AbstractTriggerDbType) (self : EventData) : EventData :=
  {| event_type := event_type self; user_login := user_login self;
     trigger_id := trigger_id self; project_url := project_url self;
     tag_name := tag_name self; git_ref := git_ref self; pr_id := pr_id self;
     commit_sha := commit_sha self; identifier := identifier self;
     event_dict := event_dict self; issue_id := issue_id self;
     task_accepted_time := task_accepted_time self;
     targets_override := targets_override self;
     _project := _project self; _db_trigger := t |}.

(** [get_project]; the url handed to the service is
    [self.project_url or self.db_trigger.project.project_url], whose first
    operand is truthy on this path, so the second is never evaluated. *)
Definition get_project (self : EventData) : M (option GitProject) :=
  match project_url self with
  | Some url => if negb (truthy url) then mret None else get_project_of_service url
  | None => mret None
  end.

(** The property [project]: returns the value read and the object after the
    read. *)
Definition project (self : EventData) : M (option GitProject * EventData) :=
  if negb (truthy (_project self)) then
    p ← get_project self;
    let self := set__project p self in
    mret (_project self, self)
  else mret (_project self, self).

Definition pull_request_events : list string :=
  [ "PullRequestGithubEvent"; "PullRequestPagureEvent"; "MergeRequestGitlabEvent";
    "PullRequestCommentGithubEvent"; "MergeRequestCommentGitlabEvent";
    "PullRequestCommentPagureEvent"; "CheckRerunPullRequestEvent" ].

Definition branch_events : list string :=
  [ "PushGitHubEvent"; "PushGitlabEvent"; "PushPagureEvent"; "CheckRerunCommitEvent" ].

Definition release_events : list string := [ "ReleaseEvent"; "CheckRerunReleaseEvent" ].

Definition issue_events : list string := [ "IssueCommentEvent"; "IssueCommentGitlabEvent" ].

(** [self.event_type in {...}] *)
Definition is_in (o : option string) (names : list string) : bool :=
  match o with Some s => bool_decide (s ∈ names) | None => false end.

(** [self.project.namespace] and [self.project.repo], read in this order as
    the keyword arguments of a [get_or_create] call are evaluated. *)
Definition namespace_and_repo (self : EventData) : M (string * string * EventData) :=
  '(p, self) ← project self;
  ns ← getattr "namespace" namespace p;
  '(p, self) ← project self;
  rp ← getattr "repo" repo p;
  mret (ns, rp, self).

(** The property [db_trigger]. *)
Definition db_trigger (self : EventData) : M (option AbstractTriggerDbType * EventData) :=
  if negb (truthy (_db_trigger self)) then
    if is_in (event_type self) pull_request_events then
      '(ns, rp, self) ← namespace_and_repo self;
      t ← get_or_create (PullRequestModel_get_or_create (pr_id self) ns rp (project_url self));
      let self := set__db_trigger (Some t) self in
      mret (_db_trigger self, self)
    else if is_in (event_type self) branch_events then
      '(ns, rp, self) ← namespace_and_repo self;
      t ← get_or_create (GitBranchModel_get_or_create (git_ref self) ns rp (project_url self));
      let self := set__db_trigger (Some t) self in
      mret (_db_trigger self, self)
    else if is_in (event_type self) release_events then
      '(ns, rp, self) ← namespace_and_repo self;
      t ← get_or_create
            (ProjectReleaseModel_get_or_create (tag_name self) ns rp (project_url self)
               (commit_sha self));
      let self := set__db_trigger (Some t) self in
      mret (_db_trigger self, self)
    else if is_in (event_type self) issue_events then
      '(ns, rp, self) ← namespace_and_repo self;
      t ← get_or_create (IssueModel_get_or_create (issue_id self) ns rp (project_url self));
      let self := set__db_trigger (Some t) self in
      mret (_db_trigger self, self)
    else
      _ ← effect (Log WARNING
                    "We don't know, what to search in the database for this event data.");
      mret (_db_trigger self, self)
  else mret (_db_trigger self, self).

End EventData.

(** ** Dictionaries that are iterated: insertion-ordered association lists *)

(** [d[k] = v] on a [dict] whose iteration order matters. *)
Fixpoint dict_set {V} (k : string) (v : V) (d : list (string * V)) : list (string * V) :=
  match d with
  | [] => [(k, v)]
  | (k', v') :: d' =>
      if decide (k = k') then (k, v) :: d' else (k', v') :: dict_set k v d'
  end.

(** [d.update(other)] into a dictionary that is only looked up. *)
Definition update (d : gmap string value) (other : list (string * value)) : gmap string value :=
  foldl (λ m kv, <[kv.1 := kv.2]> m) d other.

(** More storage collaborators. *)

Definition get_by_id (id : Z) : M (option CoprBuildModel) :=
  λ w, (Ok (copr_builds w !! id), emit (CoprBuildModel_get_by_id id) w).

Definition get_by_pipeline_id (pipeline_id : option string) : M (option TFTTestRunModel) :=
  λ w, (Ok (pipeline_id ≫= λ p, test_runs w !! p),
        emit (TFTTestRunModel_get_by_pipeline_id pipeline_id) w).

(** Modelled from the spec: [JobTriggerModel.get_or_create] (in
    [packit_service.models]) is an upsert on the pair (type, trigger id). *)
Definition JobTriggerModel_upsert (type : TriggerModel) (trigger_id : Z) : M (option JobTriggerModel) :=
  λ w, let w := emit (JobTriggerModel_get_or_create type trigger_id) w in
       match find (λ r, bool_decide (jt_type r = type ∧ jt_trigger_id r = trigger_id))
                  (job_triggers w) with
       | Some r => (Ok (Some r), w)
       | None =>
           let r := {| jt_id := Z.of_nat (S (length (job_triggers w)));
                       jt_type := type; jt_trigger_id := trigger_id |} in
           (Ok (Some r), set_job_triggers (job_triggers w ++ [r]) w)
       end.

(** Modelled from the spec: the constant [PG_COPR_BUILD_STATUS_SUCCESS] (in
    [packit_service.constants]) is the build status the spec calls
    [succeeded]. *)
Definition PG_COPR_BUILD_STATUS_SUCCESS : string := "success".

(** [TestingFarmJobHelper]: what the handler reads from the helper it builds.
    [testing_farm] is what [run_testing_farm(build, chroot)] returns. *)
Record TestingFarmJobHelper := {
  tests_targets : gset string;
  job_owner : option string;
  job_project : option string;
  latest_copr_build : string → option string → option CoprBuildModel;
  testing_farm : CoprBuildModel → string → TaskResults;
}.

(** ** [class TestingFarmHandler] *)

Module TestingFarmHandler.

Record t := {
  data : EventData;
  package_config : value;
  job_config : value;
  chroot : option string;
  build_id : option Z;
  _db_trigger : option AbstractTriggerDbType;
}.

Definition set_data (d : EventData) (self : t) : t :=
  {| data := d; package_config := package_config self; job_config := job_config self;
     chroot := chroot self; build_id := build_id self; _db_trigger := _db_trigger self |}.

Definition set__db_trigger (x : option AbstractTriggerDbType) (self : t) : t :=
  {| data := data self; package_config := package_config self;
     job_config := job_config self; chroot := chroot self; build_id := build_id self;
     _db_trigger := x |}.

(** The property [db_trigger]. *)
Definition db_trigger (self : t) : M (option AbstractTriggerDbType * t) :=
  if negb (truthy (_db_trigger self)) then
    if truthy (build_id self) then
      build ← get_by_id (default 0%Z (build_id self));
      x ← getattr "get_trigger_object" cb_trigger build;
      let self := set__db_trigger x self in
      mret (_db_trigger self, self)
    else
      '(x, d) ← EventData.db_trigger (data self);
      let self := set__db_trigger x (set_data d self) in
      mret (_db_trigger self, self)
  else mret (_db_trigger self, self).

(** The target override handed to the helper: [{self.chroot}] when a chroot
    is given, else the override of the event data. *)
Definition override (self : t) : option (gset string) :=
  if truthy (chroot self) then (λ c, {[c]}) <$> chroot self
  else targets_override (data self).

Section run.

(** The collaborators of [run] that are not part of the sources at hand:
    the constructor of the helper (as a function of the two arguments [run]
    computes for it, the trigger and the target override), [repr] of a list
    of strings and [str] of a build. *)
Variable new_helper :
  option AbstractTriggerDbType → option (gset string) → TestingFarmJobHelper.
Variable repr : list string → string.
Variable str_build : CoprBuildModel → string.

(** Lines 118-129: the partition of the targets. *)
Definition partition_step (self : t) (helper : TestingFarmJobHelper) (target : string)
    (acc : list (string * CoprBuildModel) * list string)
    : M (list (string * CoprBuildModel) * list string) :=
  let '(targets_with_builds, targets_without_build) := acc in
  copr_build ←
    (if truthy (build_id self) then get_by_id (default 0%Z (build_id self))
     else
       _ ← effect (get_latest_copr_build target (commit_sha (data self)));
       mret (latest_copr_build helper target (commit_sha (data self))));
  match copr_build with
  | Some b => mret (dict_set target b targets_with_builds, targets_without_build)
  | None => mret (targets_with_builds, targets_without_build ++ [target])
  end.

(** Lines 134-167: one build for every target that has none. *)
Definition trigger_build (self : t) (helper : TestingFarmJobHelper)
    (targets_without_build : list string) (result_details : gmap string value)
    : M (gmap string value) :=
  if truthy targets_without_build then
    _ ← effect (Log INFO
          ("Missing Copr build for targets " +:+ repr targets_without_build +:+ " in "
           +:+ fmt (job_owner helper) +:+ "/" +:+ fmt (job_project helper)
           +:+ " and commit:" +:+ fmt (commit_sha (data self))
           +:+ ", running a new Copr build."));
    _ ← for_each targets_without_build
          (λ missing_target _,
             effect (report_status_to_test_for_chroot BaseCommitStatus.pending
                       "Missing Copr build for this target, running a new Copr build."
                       (plain_url (Some "")) missing_target)) tt;
    _ ← for_each (seq 0 (length targets_without_build))
          (λ _ _, effect (inc "copr_builds_queued")) tt;
    let event_data := EventData.get_dict (data self) in
    let event_data := <["targets_override" := VList targets_without_build]> event_data in
    _ ← effect (apply_async TaskName.copr_build
                  {| kw_package_config := dump_package_config (package_config self);
                     kw_job_config := dump_job_config (job_config self);
                     kw_event := event_data |});
    mret (<["msg" := VStr ("Build triggered for targets " +:+ repr targets_without_build
                           +:+ " missing a Copr build. ")]> result_details)
  else mret result_details.

(** Lines 170-189: one pass over the targets that have a build. *)
Definition test_step (helper : TestingFarmJobHelper) (item : string * CoprBuildModel)
    (failed : list (string * value)) : M (list (string * value)) :=
  let '(target, copr_build) := item in
  if negb (bool_decide (cb_status copr_build = PG_COPR_BUILD_STATUS_SUCCESS)) then
    _ ← effect (Log INFO "The latest build was not successful, not running tests for it.");
    _ ← effect (report_status_to_test_for_chroot BaseCommitStatus.failure
                  "The latest build was not successful, not running tests for it."
                  (copr_build_info_url (cb_id copr_build)) target);
    mret failed
  else
    _ ← effect (Log INFO ("Running testing farm for " +:+ str_build copr_build +:+ ":"
                          +:+ target +:+ "."));
    _ ← effect (inc "test_runs_queued");
    _ ← effect (run_testing_farm copr_build target);
    let result := testing_farm helper copr_build target in
    if negb (success result)
    then mret (dict_set target (VDict (details result)) failed)
    else mret failed.

(** [result_details.setdefault("msg", "")], as the string it yields. *)
Definition msg_of (result_details : gmap string value) : string :=
  match result_details !! "msg" with Some (VStr m) => m | _ => "" end.

(** Lines 191-200. *)
Definition conclude (failed : list (string * value)) (result_details : gmap string value)
    : TaskResults :=
  if negb (truthy failed) then {| success := true; details := result_details |}
  else
    let result_details :=
      <["msg" := VStr (msg_of result_details +:+ "Failed testing farm targets: 'dict_keys("
                       +:+ repr failed.*1 +:+ ")'.")]> result_details in
    let result_details := update result_details failed in
    {| success := false; details := result_details |}.

(** The body of [run] once the helper is built (lines 111-200).
    [list(tests_targets)] lists a set, in an order left open; [elements] is
    one such order, without repetitions. *)
Definition run_with (self : t) (testing_farm_helper : TestingFarmJobHelper) : M TaskResults :=
  let targets := elements (tests_targets testing_farm_helper) in
  '(targets_with_builds, targets_without_build) ←
    for_each targets (partition_step self testing_farm_helper) ([], []);
  result_details ← trigger_build self testing_farm_helper targets_without_build ∅;
  failed ← for_each targets_with_builds (test_step testing_farm_helper) [];
  mret (conclude failed result_details).

(** [run]: the helper is built from [self.db_trigger] and from the target
    override; building it reads the property [db_trigger].  The other
    arguments of the constructor ([service_config], [package_config],
    [project], [data], [job_config]) are attributes of the handler that the
    base class [JobHandler] provides; they are handed on as they are. *)
Definition run (self : t) : M (TaskResults * t) :=
  '(trigger, self) ← db_trigger self;
  let testing_farm_helper := new_helper trigger (override self) in
  r ← run_with self testing_farm_helper;
  mret (r, self).

End run.

End TestingFarmHandler.

(** ** [class TestingFarmResultsHandler] *)

Module TestingFarmResultsHandler.

Record t := {
  data : EventData;
  result : option TestingFarmResult.t;
  pipeline_id : option string;
  log_url : option string;
  copr_chroot : option string;
  summary : option string;
  _db_trigger : option AbstractTriggerDbType;
}.

Definition set__db_trigger (x : option AbstractTriggerDbType) (self : t) : t :=
  {| data := data self; result := result self; pipeline_id := pipeline_id self;
     log_url := log_url self; copr_chroot := copr_chroot self; summary := summary self;
     _db_trigger := x |}.

(** The property [db_trigger]. *)
Definition db_trigger (self : t) : M (option AbstractTriggerDbType * t) :=
  if negb (truthy (_db_trigger self)) then
    run_model ← get_by_pipeline_id (pipeline_id self);
    match run_model with
    | Some m =>
        let self := set__db_trigger (tft_trigger m) self in
        mret (_db_trigger self, self)
    | None => mret (_db_trigger self, self)
    end
  else mret (_db_trigger self, self).

(** [test_run_model.set_status(result)] and [test_run_model.set_web_url(url)]:
    the record is changed and stored. *)
Definition with_status (s : option TestingFarmResult.t) (m : TFTTestRunModel) : TFTTestRunModel :=
  {| tft_id := tft_id m; tft_status := s; tft_web_url := tft_web_url m;
     tft_submitted_time := tft_submitted_time m; tft_trigger := tft_trigger m |}.

Definition with_web_url (u : option string) (m : TFTTestRunModel) : TFTTestRunModel :=
  {| tft_id := tft_id m; tft_status := tft_status m; tft_web_url := u;
     tft_submitted_time := tft_submitted_time m; tft_trigger := tft_trigger m |}.

Definition store (pipeline_id : option string) (m : TFTTestRunModel) : M unit :=
  λ w, match pipeline_id with
       | Some p => (Ok tt, set_test_runs (<[p := m]> (test_runs w)) w)
       | None => (Ok tt, w)
       end.

(** [self.summary or default] *)
Definition summary_or (summary : option string) (default : string) : string :=
  match summary with
  | Some s => if truthy s then s else default
  | None => default
  end.

(** Lines 251-262: the outward status and its description. *)
Definition status_and_summary (result : option TestingFarmResult.t) (summary : option string)
    : BaseCommitStatus.t * string :=
  if bool_decide (result = Some TestingFarmResult.running) then
    (BaseCommitStatus.running, summary_or summary "Tests are running ...")
  else if bool_decide (result = Some TestingFarmResult.passed) then
    (BaseCommitStatus.success, summary_or summary "Tests passed ...")
  else if bool_decide (result = Some TestingFarmResult.error) then
    (BaseCommitStatus.error, summary_or summary "Error ...")
  else
    (BaseCommitStatus.failure, summary_or summary "Tests failed ...").

Definition run (self : t) : M (TaskResults * t) :=
  test_run_model ← get_by_pipeline_id (pipeline_id self);
  _ ← (if negb (truthy test_run_model) then
         effect (Log WARNING ("Unknown pipeline_id received from the testing-farm: "
                              +:+ fmt (pipeline_id self)))
       else mret tt);
  test_run_model ←
    match test_run_model with
    | Some m =>
        let m := with_status (result self) m in
        _ ← store (pipeline_id self) m; mret (Some m)
    | None => mret None
    end;
  let '(status, summary) := status_and_summary (result self) (summary self) in
  _ ← (if bool_decide (result self = Some TestingFarmResult.running) then
         effect (inc "test_runs_started")
       else
         _ ← effect (inc "test_runs_finished");
         now ← ask now;
         submitted_time ← getattr "submitted_time" tft_submitted_time test_run_model;
         effect (observe "test_run_finished_time"
                   (since_epoch_us now - since_epoch_us submitted_time)));
  test_run_model ←
    match test_run_model with
    | Some m =>
        let m := with_web_url (log_url self) m in
        _ ← store (pipeline_id self) m; mret (Some m)
    | None => mret None
    end;
  '(db, self) ← db_trigger self;
  type ← getattr "job_trigger_model_type" job_trigger_model_type db;
  '(db, self) ← db_trigger self;
  trigger_id ← getattr "id" tr_id db;
  trigger ← JobTriggerModel_upsert type trigger_id;
  _ ← effect (StatusReporter_get_instance (commit_sha (data self)) (jt_id <$> trigger)
                (pr_id (data self)));
  _ ← effect (StatusReporter_report status summary
                (match test_run_model with
                 | Some m => testing_farm_info_url (tft_id m)
                 | None => plain_url (log_url self)
                 end)
                [("Testing Farm", log_url self)]
                (copr_chroot self));
  mret ({| success := true; details := ∅ |}, self).

End TestingFarmResultsHandler.

(** ** Comment commands *)

Module Comment.

(** A command found in a comment: its name and the arguments after it. *)
Record Command := { name : string; arguments : list string }.

Definition text := list ascii.

Definition newline : ascii := "010"%char.

Definition packit_mark : text := list_ascii_of_string "/packit".

(** The lines of a text: the pieces between newline characters. *)
Fixpoint lines (s : text) : list text :=
  match s with
  | [] => [[]]
  | c :: s' =>
      if decide (c = newline) then [] :: lines s'
      else match lines s' with
           | l :: ls => (c :: l) :: ls
           | [] => [[c]]
           end
  end.

(** Trimming: leading whitespace goes, then trailing whitespace. *)
Fixpoint lstrip (s : text) : text :=
  match s with
  | c :: s' => if Ascii.is_space c then lstrip s' else s
  | [] => []
  end.

Definition strip (s : text) : text := rev (lstrip (rev (lstrip s))).

(** The tokens of a text: its maximal runs of non-whitespace characters. *)
Fixpoint tokens (s : text) : list text :=
  match s with
  | [] => []
  | c :: s' =>
      if Ascii.is_space c then tokens s'
      else match s' with
           | [] => [[c]]
           | c' :: _ =>
               if Ascii.is_space c' then [c] :: tokens s'
               else match tokens s' with
                    | w :: ws => (c :: w) :: ws
                    | [] => [[c]]
                    end
           end
  end.

Section parser.

(** The command names a handler is registered for. *)
Variable known : string → bool.

(** Modelled from the spec: a line qualifies when, once trimmed, it consists
    of the token [/packit], whitespace and a command name, and maybe
    arguments; unknown command names are ignored. *)
Definition command_of_line (line : text) : option Command :=
  match tokens (strip line) with
  | mark :: cmd :: args =>
      if bool_decide (mark = packit_mark) && known (string_of_list_ascii cmd)
      then Some {| name := string_of_list_ascii cmd;
                   arguments := string_of_list_ascii <$> args |}
      else None
  | _ => None
  end.

(** Modelled from the spec: [get_packit_commands_from_comment] (in
    [packit_service.worker.jobs], of which only the tests are at hand) scans
    the comment line by line and yields the commands of the qualifying
    lines, in line order. *)
Definition get_packit_commands_from_comment (comment : string) : list Command :=
  omap command_of_line (lines (list_ascii_of_string comment)).

End parser.

End Comment.

(** ** Qualifying lines, declaratively *)

Definition blank (s : Comment.text) : Prop := Forall (λ c, Ascii.is_space c = true) s.

Definition word (s : Comment.text) : Prop :=
  s ≠ [] ∧ Forall (λ c, Ascii.is_space c = false) s.

(** What follows a token: nothing, or something that starts with whitespace. *)
Definition ends_token (rest : Comment.text) : Prop :=
  rest = [] ∨ ∃ c rest', rest = c :: rest' ∧ Ascii.is_space c = true.

(** A line qualifies for the command name [n]: after leading whitespace comes
    the token [/packit], then whitespace, then the command name, a known one,
    as a token of its own. *)
Definition qualifies (known : string → bool) (line : Comment.text) (n : string) : Prop :=
  ∃ lead gap cmd rest,
    line = lead ++ Comment.packit_mark ++ gap ++ cmd ++ rest ∧
    blank lead ∧ blank gap ∧ gap ≠ [] ∧ word cmd ∧ ends_token rest ∧
    n = string_of_list_ascii cmd ∧ known n = true.

(** The command names read off a list of lines: one for each qualifying line,
    in line order, and nothing for the other lines. *)
Inductive scanned (known : string → bool) : list Comment.text → list string → Prop :=
| scanned_nil : scanned known [] []
| scanned_hit line ls n ns :
    qualifies known line n → scanned known ls ns → scanned known (line :: ls) (n :: ns)
| scanned_miss line ls ns :
    (∀ n, ¬ qualifies known line n) → scanned known ls ns → scanned known (line :: ls) ns.

(** A newline and a tab, for writing comments down. *)
Definition nl : string := String Comment.newline "".
Definition tab : string := String "009" "".

(** The command names the spec gives as examples. *)
Definition example_commands (n : string) : bool :=
  bool_decide (n ∈ ["build"; "test"; "production_build"]).

(** ** Reading a trace *)

(** What was appended to the trace between two worlds. *)
Definition since (w w' : World) : list Effect := drop (length (trace w)) (trace w').

(** The worlds reached by appending a list of effects. *)
Definition emit_all (es : list Effect) (w : World) : World := foldl (λ w e, emit e w) w es.

(** The build jobs enqueued: the [kwargs] of each [copr_build] task. *)
Definition build_jobs (es : list Effect) : list Kwargs :=
  omap (λ e, match e with apply_async TaskName.copr_build k => Some k | _ => None end) es.

(** The test jobs submitted: the arguments of each [run_testing_farm] call. *)
Definition test_jobs (es : list Effect) : list (CoprBuildModel * string) :=
  omap (λ e, match e with run_testing_farm b c => Some (b, c) | _ => None end) es.

(** The per-target notifications: state and target of each
    [report_status_to_test_for_chroot] call. *)
Definition notifications (es : list Effect) : list (BaseCommitStatus.t * string) :=
  omap (λ e, match e with
             | report_status_to_test_for_chroot st _ _ c => Some (st, c)
             | _ => None
             end) es.

(** The per-target lookups: the arguments of each [get_latest_copr_build]. *)
Definition lookups (es : list Effect) : list (string * option string) :=
  omap (λ e, match e with get_latest_copr_build t c => Some (t, c) | _ => None end) es.

(** The status reports sent through a [StatusReporter]. *)
Definition reports (es : list Effect) : list Effect :=
  omap (λ e, match e with StatusReporter_report _ _ _ _ _ => Some e | _ => None end) es.

(** Effects of resolving a trigger or a project: logging, the forge, the
    trigger tables, a build read by id.  None of them is a job, a
    notification or a per-target lookup. *)
Definition backstage (e : Effect) : bool :=
  match e with
  | Log _ _ | ServiceConfig_get_project _ | Db _ | CoprBuildModel_get_by_id _ => true
  | _ => false
  end.

(** ** What one pass of [TestingFarmHandler.run] is expected to do *)

(** The build found for a target: the one named by [build_id] when that is
    set, else the one the per-target lookup yields. *)
Definition existing_build (self : TestingFarmHandler.t) (helper : TestingFarmJobHelper)
    (builds : gmap Z CoprBuildModel) (target : string) : option CoprBuildModel :=
  if truthy (TestingFarmHandler.build_id self)
  then builds !! default 0%Z (TestingFarmHandler.build_id self)
  else latest_copr_build helper target (commit_sha (TestingFarmHandler.data self)).

(** The collaborator call that finds it. *)
Definition build_query (self : TestingFarmHandler.t) (target : string) : Effect :=
  if truthy (TestingFarmHandler.build_id self)
  then CoprBuildModel_get_by_id (default 0%Z (TestingFarmHandler.build_id self))
  else get_latest_copr_build target (commit_sha (TestingFarmHandler.data self)).

Definition succeeded (b : CoprBuildModel) : bool :=
  bool_decide (cb_status b = PG_COPR_BUILD_STATUS_SUCCESS).

(** Targets with their builds, and targets without, in target order. *)
Definition with_build_of (find : string → option CoprBuildModel) (targets : list string)
    : list (string * CoprBuildModel) :=
  omap (λ t, pair t <$> find t) targets.

Definition without_build_of (find : string → option CoprBuildModel) (targets : list string)
    : list string :=
  filter (λ t, find t = None) targets.

(** The tests to run: the targets whose build succeeded. *)
Definition tests_of (with_build : list (string * CoprBuildModel))
    : list (CoprBuildModel * string) :=
  omap (λ tb, if succeeded tb.2 then Some (tb.2, tb.1) else None) with_build.

(** The targets skipped because their build did not succeed. *)
Definition skipped_of (with_build : list (string * CoprBuildModel)) : list string :=
  omap (λ tb, if succeeded tb.2 then None else Some tb.1) with_build.

(** The tests that fail, with the details they come back with. *)
Definition failures_of (helper : TestingFarmJobHelper)
    (with_build : list (string * CoprBuildModel)) : list (string * value) :=
  omap (λ tb, if succeeded tb.2 && negb (success (testing_farm helper tb.2 tb.1))
              then Some (tb.1, VDict (details (testing_farm helper tb.2 tb.1)))
              else None) with_build.

(** ** Code that only works backstage *)

(** [quiet m]: whatever [m] does, returning or raising, it appends only
    backstage effects to the trace and leaves the stored builds alone. *)
Definition quiet {A} (m : M A) : Prop :=
  ∀ w, ∃ es, trace (m w).2 = trace w ++ es ∧ Forall (λ e, backstage e = true) es ∧
             copr_builds (m w).2 = copr_builds w.

(** ** The effects one pass is expected to have *)

Section expected.

(** [repr] of a list of strings and [str] of a build, as in
    [TestingFarmHandler.run]. *)
Variable repr : list string → string.
Variable str_build : CoprBuildModel → string.

(** The effects of triggering the build of the targets without one. *)
Definition build_effects (self : TestingFarmHandler.t) (helper : TestingFarmJobHelper)
    (missing : list string) : list Effect :=
  match missing with
  | [] => []
  | _ =>
      [ Log INFO
          ("Missing Copr build for targets " +:+ repr missing +:+ " in "
           +:+ fmt (job_owner helper) +:+ "/" +:+ fmt (job_project helper)
           +:+ " and commit:" +:+ fmt (commit_sha (TestingFarmHandler.data self))
           +:+ ", running a new Copr build.") ]
      ++ ((λ t, report_status_to_test_for_chroot BaseCommitStatus.pending
                  "Missing Copr build for this target, running a new Copr build."
                  (plain_url (Some "")) t) <$> missing)
      ++ ((λ _, inc "copr_builds_queued") <$> seq 0 (length missing))
      ++ [ apply_async TaskName.copr_build
             {| kw_package_config :=
                  dump_package_config (TestingFarmHandler.package_config self);
                kw_job_config := dump_job_config (TestingFarmHandler.job_config self);
                kw_event := <["targets_override" := VList missing]>
                              (EventData.get_dict (TestingFarmHandler.data self)) |} ]
  end.

Definition build_details (missing : list string) : gmap string value :=
  match missing with
  | [] => ∅
  | _ => {[ "msg" := VStr ("Build triggered for targets " +:+ repr missing
                           +:+ " missing a Copr build. ") ]}
  end.

(** The effects of one pass over a target that has a build. *)
Definition test_effects (item : string * CoprBuildModel) : list Effect :=
  if succeeded item.2 then
    [ Log INFO ("Running testing farm for " +:+ str_build item.2 +:+ ":" +:+ item.1 +:+ ".");
      inc "test_runs_queued";
      run_testing_farm item.2 item.1 ]
  else
    [ Log INFO "The latest build was not successful, not running tests for it.";
      report_status_to_test_for_chroot BaseCommitStatus.failure
        "The latest build was not successful, not running tests for it."
        (copr_build_info_url (cb_id item.2)) item.1 ].

End expected.

(** ** Agreement of two event data objects, and sample objects *)

(** The attributes two [EventData] objects are compared on. *)
Definition agree (a b : EventData) : Prop :=
  event_type a = event_type b ∧ user_login a = user_login b ∧
  trigger_id a = trigger_id b ∧ project_url a = project_url b ∧
  tag_name a = tag_name b ∧ git_ref a = git_ref b ∧ pr_id a = pr_id b ∧
  commit_sha a = commit_sha b ∧ identifier a = identifier b ∧
  issue_id a = issue_id b ∧ task_accepted_time a = task_accepted_time b ∧
  targets_override a = targets_override b.

(** A pull-request comment event, accepted at the given time. *)
Definition comment_event (accepted : option datetime) (targets : option (list string))
    : EventData :=
  EventData.__init__ (Some "PullRequestCommentGithubEvent") (Some "phracek") (Some 9%Z)
    (Some "https://github.com/packit-service/hello-world") None None (Some 9%Z)
    (Some "12345") None None None accepted targets.

(** A forge that knows one project, and a world with nothing stored. *)
Definition hello_world : GitProject :=
  {| namespace := "packit-service"; repo := "hello-world" |}.

Definition empty_world : World :=
  {| service_config := λ _, Some hello_world; triggers := []; copr_builds := ∅;
     test_runs := ∅; job_triggers := []; now := fromtimestamp 1630000600; trace := [] |}.

(** An event whose type none of the trigger tables is registered for. *)
Definition unknown_event : EventData :=
  EventData.__init__ (Some "TestingFarmResultsEvent") None None
    (Some "https://github.com/packit-service/hello-world") None None None
    (Some "12345") None None None None None.

(** A callback of the testing farm, and a world that knows its pipeline. *)
Definition callback (r : TestingFarmResult.t) (s : option string) : TestingFarmResultsHandler.t :=
  {| TestingFarmResultsHandler.data := comment_event None None;
     TestingFarmResultsHandler.result := Some r;
     TestingFarmResultsHandler.pipeline_id := Some "id";
     TestingFarmResultsHandler.log_url := Some "some url";
     TestingFarmResultsHandler.copr_chroot := Some "fedora-rawhide-x86_64";
     TestingFarmResultsHandler.summary := s;
     TestingFarmResultsHandler._db_trigger := None |}.

Definition pr9 : AbstractTriggerDbType :=
  {| tr_id := 9;
     tr_row := PullRequestModel_get_or_create (Some 9%Z) "packit-service" "hello-world"
                 (Some "https://github.com/packit-service/hello-world") |}.

Definition stored_run : TFTTestRunModel :=
  {| tft_id := 5; tft_status := Some TestingFarmResult.running; tft_web_url := None;
     tft_submitted_time := fromtimestamp 1630000000; tft_trigger := Some pr9 |}.

Definition world_with_run : World :=
  set_test_runs {[ "id" := stored_run ]} empty_world.

(** A [/packit test] comment on a pull request, and the end of a build. *)
Definition test_comment : TestingFarmHandler.t :=
  {| TestingFarmHandler.data := comment_event None None;
     TestingFarmHandler.package_config := VNone;
     TestingFarmHandler.job_config := VNone;
     TestingFarmHandler.chroot := None;
     TestingFarmHandler.build_id := None;
     TestingFarmHandler._db_trigger := None |}.

Definition build_end (id : Z) : TestingFarmHandler.t :=
  {| TestingFarmHandler.data := comment_event None None;
     TestingFarmHandler.package_config := VNone;
     TestingFarmHandler.job_config := VNone;
     TestingFarmHandler.chroot := None;
     TestingFarmHandler.build_id := Some id;
     TestingFarmHandler._db_trigger := None |}.

Definition a_build (id : Z) (status : string) : CoprBuildModel :=
  {| cb_id := id; cb_status := status; cb_trigger := Some pr9 |}.

Definition world_with_build : World :=
  {| service_config := λ _, Some hello_world; triggers := [];
     copr_builds := {[ 1%Z := a_build 1 "success" ]};
     test_runs := ∅; job_triggers := []; now := fromtimestamp 1630000600; trace := [] |}.

(** A helper with the given targets, builds and test outcomes. *)
Definition a_helper (targets : gset string) (find : string → option CoprBuildModel)
    (passes : string → bool) : TestingFarmJobHelper :=
  {| tests_targets := targets;
     job_owner := Some "packit";
     job_project := Some "packit-service-hello-world-9";
     latest_copr_build := λ t _, find t;
     testing_farm := λ _ t,
       {| success := passes t;
          details := if passes t then ∅
                     else {[ "msg" := VStr "Failed to submit tests." ]} |} |}.

(** A [repr] of lists of plain names, and a [str] of builds. *)
Definition plain_repr (l : list string) : string :=
  "[" +:+ String.concat ", " ((λ s, "'" +:+ s +:+ "'") <$> l) +:+ "]".

Definition plain_str (b : CoprBuildModel) : string := "COPRBuildModel".

(** Helpers for a mixed target set, for one without builds, for one whose
    tests fail, and for a target named like the message entry. *)
Definition mixed_helper : TestingFarmJobHelper :=
  a_helper {[ "fedora-33-x86_64"; "fedora-rawhide-x86_64" ]}
    (λ t, if bool_decide (t = "fedora-33-x86_64") then Some (a_build 1 "success") else None)
    (λ _, true).


Definition failing_helper : TestingFarmJobHelper :=
  a_helper {[ "fedora-33-x86_64"; "fedora-rawhide-x86_64" ]}
    (λ t, if bool_decide (t = "fedora-33-x86_64") then Some (a_build 1 "success")
          else Some (a_build 2 "failed"))
    (λ _, false).

Definition msg_helper : TestingFarmJobHelper :=
  a_helper {[ "msg" ]} (λ _, Some (a_build 1 "success")) (λ _, false).

(** ** [class Event] and [class AbstractForgeIndependentEvent] *)

(** A [dict] is falsy when empty. *)
#[global] Instance truthy_dict : Truthy (gmap string value) :=
  λ d, negb (bool_decide (d = ∅)).

Module Event.

(** What [get_dict] can raise: [d["created_at"]] on a missing key,
    [x.timestamp()] on something that is no [datetime], and what the
    property [db_trigger] of the class raises, which is
    [NotImplementedError] in [AbstractForgeIndependentEvent]. *)
Inductive error :=
| KeyError (key : string)
| no_timestamp (v : value)
| NotImplementedError.

(** An event object: the name of its class, its instance attributes
    ([self.__dict__]), and what its class makes of the two properties that
    [get_dict] reads.  Reading the property [db_trigger] gives a trigger or
    [None], or raises: it returns [None] in [Event] itself, raises in
    [AbstractForgeIndependentEvent], and is overridden in the event classes
    of the service, which are not part of these sources.
    [targets_override] is [None] in [Event] and overridden likewise. *)
Record t := {
  class_name : string;
  __dict__ : gmap string value;
  db_trigger_property : error + option AbstractTriggerDbType;
  targets_override : option (gset string);
}.

(** What [self.db_trigger] is where reading it returns. *)
Definition db_trigger (self : t) : option AbstractTriggerDbType :=
  match db_trigger_property self with inr x => x | inl _ => None end.

(** [self.db_trigger.project.project_url]: the url a trigger record was
    stored with. *)
Definition trigger_project_url (t : AbstractTriggerDbType) : option string :=
  match tr_row t with
  | PullRequestModel_get_or_create _ _ _ u => u
  | GitBranchModel_get_or_create _ _ _ u => u
  | ProjectReleaseModel_get_or_create _ _ _ u _ => u
  | IssueModel_get_or_create _ _ _ u => u
  end.

(** [int(x.timestamp())] *)
Definition int_timestamp_of (v : value) : error + value :=
  match v with
  | VDatetime t => inr (VInt (int_timestamp t))
  | _ => inl (no_timestamp v)
  end.

(** [get_dict].  Line 224 reads the property [db_trigger] before anything
    is looked up in the dictionary, so what the property raises comes
    first. *)
Definition get_dict (self : t) (default_dict : option (gmap string value))
    : error + gmap string value :=
  let d := if truthy default_dict then default ∅ default_dict else __dict__ self in
  let d := <["event_type" := VStr (class_name self)]> d in
  match db_trigger_property self with
  | inl e => inl e
  | inr db_trigger =>
      let d := <["trigger_id" :=
                  if truthy db_trigger then of_opt (λ t, VInt (tr_id t)) db_trigger
                  else VNone]> d in
      match d !! "created_at" with
      | None => inl (KeyError "created_at")
      | Some created_at =>
          match int_timestamp_of created_at with
          | inl e => inl e
          | inr created_at =>
              let d := <["created_at" := created_at]> d in
              let task_accepted_time := get "task_accepted_time" d in
              match (if truthy task_accepted_time then int_timestamp_of task_accepted_time
                     else inr VNone) with
              | inl e => inl e
              | inr task_accepted_time =>
                  let d := <["task_accepted_time" := task_accepted_time]> d in
                  let d :=
                    <["project_url" :=
                        if truthy (get "project_url" d) then get "project_url" d
                        else if truthy db_trigger
                             then of_opt VStr (db_trigger ≫= trigger_project_url)
                             else VNone]> d in
                  let targets_override := targets_override self in
                  let d :=
                    if truthy targets_override
                    then <["targets_override" :=
                            of_opt (λ s, VList (elements s)) targets_override]> d
                    else d in
                  inr d
              end
          end
      end
  end.

(** [isinstance(x, int)]: an [int], or a [bool], which is one. *)
Definition as_isinstance_int (v : value) : option Z :=
  match v with
  | VInt n => Some n
  | VBool b => Some (if b then 1 else 0)%Z
  | _ => None
  end.

Section ts2str.

(** [datetime.fromtimestamp(n).isoformat()], in the local time zone of the
    process; [None] where [fromtimestamp] raises, which depends on that zone
    and on the platform. *)
Variable isoformat : Z → option string.

(** [ts2str]: the dictionary it returns, or [None] where it raises. *)
Definition ts2str (event : gmap string value) : option (gmap string value) :=
  let created_at := get "created_at" event in
  match as_isinstance_int created_at with
  | Some n =>
      match isoformat n with
      | Some s => Some (<["created_at" := VStr s]> event)
      | None => None
      end
  | None => Some event
  end.

End ts2str.

(** The argument [created_at] of [__init__]. *)
Inductive created_at_arg (float : Type) :=
| at_None
| at_int (n : Z)
| at_float (x : float)
| at_str (s : string).
Arguments at_None {float}.
Arguments at_int {float} n.
Arguments at_float {float} x.
Arguments at_str {float} s.

(** [s.replace("Z", "+00:00")] *)
Fixpoint replace_Z (s : string) : string :=
  match s with
  | EmptyString => EmptyString
  | String c s' =>
      if decide (c = "Z"%char) then "+00:00" +:+ replace_Z s' else String c (replace_Z s')
  end.

Section init.

(** Floats and the two conversions of [datetime] that [__init__] uses beside
    the one for integers; they give [None] where Python raises. *)
Variable float : Type.
Variable float_nonzero : float → bool.
Variable fromtimestamp_float : float → option datetime.
Variable fromisoformat : string → option datetime.

(** [__init__]: what [self.created_at] is set to, [now] being what
    [datetime.now()] reads; [None] where it raises. *)
Definition __init__ (now : datetime) (created_at : created_at_arg float) : option datetime :=
  match created_at with
  | at_None => Some now
  | at_int n =>
      if truthy n
      then if decide (datetime_range n) then Some (fromtimestamp n) else None
      else Some now
  | at_float x => if float_nonzero x then fromtimestamp_float x else Some now
  | at_str s => if truthy s then fromisoformat (replace_Z s) else Some now
  end.

End init.

End Event.

Module AbstractForgeIndependentEvent.

(** The instance attributes after [__init__], [created_at] being what
    [Event.__init__] has set. *)
Definition __init__ (created_at : datetime) (project_url : option string) (pr_id : option Z)
    : gmap string value :=
  <["_package_config" := VNone]>
    (<["_base_project" := VNone]>
       (<["_project" := VNone]>
          (<["_pr_id" := of_opt VInt pr_id]>
             (<["project_url" := of_opt VStr project_url]>
                {[ "created_at" := VDatetime created_at ]})))).

(** [d.pop(key)], with no default. *)
Definition pop (key : string) (d : gmap string value) : Event.error + gmap string value :=
  match d !! key with
  | Some _ => inr (delete key d)
  | None => inl (Event.KeyError key)
  end.

(** The property [db_trigger] of the class itself (lines 321-323). *)
Definition db_trigger : Event.error + option AbstractTriggerDbType :=
  inl Event.NotImplementedError.

(** [get_dict]: [super().get_dict()] is called without [default_dict]. *)
Definition get_dict (self : Event.t) (default_dict : option (gmap string value))
    : Event.error + gmap string value :=
  match Event.get_dict self None with
  | inl e => inl e
  | inr result =>
      match pop "_project" result with
      | inl e => inl e
      | inr result =>
          match pop "_base_project" result with
          | inl e => inl e
          | inr result => pop "_package_config" result
          end
      end
  end.

(** The property [pr_id]. *)
Definition pr_id (self : Event.t) : value := get "_pr_id" (Event.__dict__ self).

End AbstractForgeIndependentEvent.

(** ** More ways to read a trace and an object *)

(** How often a counter of the pushgateway was incremented. *)
Definition increments (counter : string) (es : list Effect) : nat :=
  length (omap (λ e, match e with
                     | inc c => if bool_decide (c = counter) then Some tt else None
                     | _ => None
                     end) es).

(** The durations observed on a histogram of the pushgateway. *)
Definition observations (histogram : string) (es : list Effect) : list Z :=
  omap (λ e, match e with
             | observe h v => if bool_decide (h = histogram) then Some v else None
             | _ => None
             end) es.

(** The urls the forge was asked for, and the upserts made on the trigger
    tables. *)
Definition forge_calls (es : list Effect) : list string :=
  omap (λ e, match e with ServiceConfig_get_project url => Some url | _ => None end) es.

Definition db_calls (es : list Effect) : list DbCall :=
  omap (λ e, match e with Db c => Some c | _ => None end) es.

(** The life of an event data object as far as its caches go: a sequence of
    reads of its two lazy attributes, in any order.  No other code of the
    class assigns [_project] or [_db_trigger]; [get_dict] works on a copy. *)
Inductive lazy_attribute := the_project | the_db_trigger.

Inductive read_value :=
| project_read_as (p : option GitProject)
| db_trigger_read_as (t : option AbstractTriggerDbType).

Definition read (a : lazy_attribute) (self : EventData) : M (read_value * EventData) :=
  match a with
  | the_project => '(p, self) ← EventData.project self; mret (project_read_as p, self)
  | the_db_trigger =>
      '(t, self) ← EventData.db_trigger self; mret (db_trigger_read_as t, self)
  end.

Fixpoint reads (l : list lazy_attribute) (self : EventData)
    : M (list read_value * EventData) :=
  match l with
  | [] => mret ([], self)
  | a :: l' =>
      '(v, self) ← read a self;
      '(vs, self) ← reads l' self;
      mret (v :: vs, self)
  end.

(** An event data object with both caches emptied. *)
Definition uncached (e : EventData) : EventData :=
  EventData.set__project None (EventData.set__db_trigger None e).

(** A pull request opened on the forge, as [AbstractForgeIndependentEvent]
    leaves it. *)
Definition opened_pr : Event.t :=
  {| Event.class_name := "PullRequestGithubEvent";
     Event.__dict__ :=
       AbstractForgeIndependentEvent.__init__ (fromtimestamp 1630000000)
         (Some "https://github.com/packit-service/hello-world") (Some 9%Z);
     Event.db_trigger_property := inr (Some pr9);
     Event.targets_override := None |}.

(** ** What a callback on a stored pipeline is expected to do *)

(** The calls of [run] up to the upsert, on a stored pipeline. *)
Definition record_effects (self : TestingFarmResultsHandler.t) (now : datetime)
    (m : TFTTestRunModel) : list Effect :=
  TFTTestRunModel_get_by_pipeline_id (TestingFarmResultsHandler.pipeline_id self)
  :: (if bool_decide (TestingFarmResultsHandler.result self = Some TestingFarmResult.running)
      then [inc "test_runs_started"]
      else [inc "test_runs_finished";
            observe "test_run_finished_time"
              (since_epoch_us now - since_epoch_us (tft_submitted_time m))]).

(** The pipelines whose record was read. *)
Definition record_reads (es : list Effect) : list (option string) :=
  omap (λ e, match e with TFTTestRunModel_get_by_pipeline_id p => Some p | _ => None end) es.

(** A stored run that lost its trigger. *)
Definition orphan_run : TFTTestRunModel :=
  {| tft_id := 6; tft_status := Some TestingFarmResult.running; tft_web_url := None;
     tft_submitted_time := fromtimestamp 1630000000; tft_trigger := None |}.

(** The record of a run after [set_status] and [set_web_url]. *)
Definition updated (self : TestingFarmResultsHandler.t) (m : TFTTestRunModel) : TFTTestRunModel :=
  {| tft_id := tft_id m; tft_status := TestingFarmResultsHandler.result self;
     tft_web_url := TestingFarmResultsHandler.log_url self;
     tft_submitted_time := tft_submitted_time m; tft_trigger := tft_trigger m |}.

(** ** Reading [Event.get_dict] *)

(** The dictionary [get_dict] starts from. *)
Definition source_dict (self : Event.t) (default_dict : option (gmap string value))
    : gmap string value :=
  if truthy default_dict then default ∅ default_dict else Event.__dict__ self.

(** The attributes [AbstractForgeIndependentEvent.get_dict] pops. *)
Definition lazy_keys : list string := ["_project"; "_base_project"; "_package_config"].

(** * Properties *)

(** ** Serialization of [EventData] *)

(** What [get_dict] stores under each key. *)
Lemma get_dict_lookup (e : EventData) :
  let d := EventData.get_dict e in
  get "event_type" d = of_opt VStr (event_type e) ∧
  get "user_login" d = of_opt VStr (user_login e) ∧
  get "trigger_id" d = of_opt VInt (trigger_id e) ∧
  get "project_url" d = of_opt VStr (project_url e) ∧
  get "tag_name" d = of_opt VStr (tag_name e) ∧
  get "git_ref" d = of_opt VStr (git_ref e) ∧
  get "pr_id" d = of_opt VInt (pr_id e) ∧
  get "_pr_id" d = VNone ∧
  get "commit_sha" d = of_opt VStr (commit_sha e) ∧
  get "identifier" d = of_opt VStr (identifier e) ∧
  get "issue_id" d = of_opt VInt (issue_id e) ∧
  get "task_accepted_time" d = of_opt (λ t, VInt (int_timestamp t)) (task_accepted_time e) ∧
  get "targets_override" d =
    (if truthy (targets_override e)
     then of_opt (λ s, VList (elements s)) (targets_override e)
     else of_opt VSet (targets_override e)) ∧
  d !! "_project" = None ∧
  d !! "_db_trigger" = None.
Proof.
  unfold EventData.get_dict, EventData.__dict__, get.
  destruct (truthy (targets_override e)); destruct (task_accepted_time e);
    repeat split; reflexivity.
Qed.

Lemma as_str_of_opt (o : option string) : as_str (of_opt VStr o) = o.
Proof. by destruct o. Qed.

Lemma as_int_of_opt (o : option Z) : as_int (of_opt VInt o) = o.
Proof. by destruct o. Qed.

(** Reading back what [get_dict] wrote, attribute by attribute. *)
Lemma from_event_dict_get_dict (e : EventData) :
  let e' := EventData.from_event_dict (EventData.get_dict e) in
  event_type e' = event_type e ∧ user_login e' = user_login e ∧
  trigger_id e' = trigger_id e ∧ project_url e' = project_url e ∧
  tag_name e' = tag_name e ∧ git_ref e' = git_ref e ∧ pr_id e' = pr_id e ∧
  commit_sha e' = commit_sha e ∧ identifier e' = identifier e ∧
  issue_id e' = issue_id e ∧
  task_accepted_time e' =
    (if truthy (int_timestamp <$> task_accepted_time e)
     then fromtimestamp ∘ int_timestamp <$> task_accepted_time e else None) ∧
  targets_override e' =
    (if truthy (targets_override e) then targets_override e else None).
Proof.
  destruct (get_dict_lookup e)
    as (H1 & H2 & H3 & H4 & H5 & H6 & H7 & H7' & H8 & H9 & H10 & H11 & H12 & _).
  cbn zeta. unfold EventData.from_event_dict.
  rewrite H1, H2, H3, H4, H5, H6, H7, H7', H8, H9, H10, H11, H12. cbn.
  rewrite !as_str_of_opt, !as_int_of_opt.
  do 10 (split; [reflexivity|]). split.
  - destruct (task_accepted_time e) as [t|]; [|done]. cbn.
    unfold truthy, truthy_Z. by destruct (int_timestamp t =? 0)%Z.
  - destruct (targets_override e) as [s|] eqn:Hs; [|done]. cbn.
    change (truthy s) with (negb (bool_decide (s = ∅))).
    destruct (bool_decide (s = ∅)) eqn:Hd; cbn.
    + apply bool_decide_eq_true in Hd as ->. by rewrite elements_empty.
    + apply bool_decide_eq_false in Hd.
      assert (truthy (elements s) = true) as ->.
      { destruct (elements s) as [|x l] eqn:He; [|done].
        apply elements_empty_inv in He. by apply leibniz_equiv in He. }
      f_equal. apply list_to_set_elements_L.
Qed.





(** ** Running monadic code *)

Lemma bind_Ok {A B} (m : M A) (f : A → M B) (w w1 : World) (a : A) :
  m w = (Ok a, w1) → (m ≫= f) w = f a w1.
Proof. intros H. unfold mbind, M_bind. by rewrite H. Qed.

Lemma bind_Raise {A B} (m : M A) (f : A → M B) (w w1 : World) (e : exn) :
  m w = (Raise e, w1) → (m ≫= f) w = (Raise e, w1).
Proof. intros H. unfold mbind, M_bind. by rewrite H. Qed.

Lemma ret_bind {A B} (a : A) (f : A → M B) (w : World) : (mret a ≫= f) w = f a w.
Proof. reflexivity. Qed.

Lemma getattr_Some {A B} (attr : string) (f : A → B) (a : A) :
  getattr attr f (Some a) = mret (f a).
Proof. reflexivity. Qed.

Lemma bind_inv {A B} (m : M A) (f : A → M B) (w w' : World) (b : B) :
  (m ≫= f) w = (Ok b, w') → ∃ a w1, m w = (Ok a, w1) ∧ f a w1 = (Ok b, w').
Proof.
  unfold mbind, M_bind. destruct (m w) as [[a|e] w1]; [eauto|discriminate].
Qed.

(** ** The lazy attributes of [EventData] *)

Lemma project_cached (e : EventData) (p : GitProject) (w : World) :
  _project e = Some p → EventData.project e w = (Ok (Some p, e), w).
Proof. intros H. unfold EventData.project. by rewrite H. Qed.

Lemma db_trigger_cached (e : EventData) (t : AbstractTriggerDbType) (w : World) :
  _db_trigger e = Some t → EventData.db_trigger e w = (Ok (Some t, e), w).
Proof. intros H. unfold EventData.db_trigger. by rewrite H. Qed.

(** A read of [project] leaves the object as it was, but for the cache. *)
Lemma project_read (e e1 : EventData) (v : option GitProject) (w w1 : World) :
  EventData.project e w = (Ok (v, e1), w1) →
  _project e1 = v ∧ (e1 = e ∨ e1 = EventData.set__project v e).
Proof.
  unfold EventData.project. destruct (negb (truthy (_project e))).
  - intros (p & w' & _ & H)%bind_inv. cbn in H. inversion H; subst. auto.
  - intros H. inversion H; subst. auto.
Qed.

Lemma namespace_and_repo_resolved (e e1 : EventData) (p : GitProject) (w w1 : World) :
  EventData.project e w = (Ok (Some p, e1), w1) →
  EventData.namespace_and_repo e w = (Ok (namespace p, repo p, e1), w1).
Proof.
  intros H. unfold EventData.namespace_and_repo.
  rewrite (bind_Ok _ _ _ _ _ H). cbv beta iota.
  rewrite getattr_Some, ret_bind.
  apply project_read in H as [Hp _].
  by rewrite (bind_Ok _ _ _ _ _ (project_cached e1 p w1 Hp)).
Qed.

Ltac decide_kind :=
  repeat match goal with
         | |- context [EventData.is_in (Some ?k) ?l] =>
             let b := eval vm_compute in (EventData.is_in (Some k) l) in
             change (EventData.is_in (Some k) l) with b
         end.

Ltac each_kind H :=
  repeat (apply elem_of_cons in H as [-> | H]); [..| by apply elem_of_nil in H].

(** C8: the trigger table of [EventData.db_trigger].  With no trigger cached
    yet and the project resolved to [p], an event of a pull-request kind is
    resolved by the upsert of [PullRequestModel] keyed by the PR number, one
    of a push kind (and a commit check rerun) by the upsert of
    [GitBranchModel] keyed by the branch name, a release kind by the upsert of
    [ProjectReleaseModel] keyed by the tag name, an issue-comment kind by the
    upsert of [IssueModel] keyed by the issue id; each upsert is keyed by the
    namespace and repo of the project and by the project url, and what it
    returns is cached and returned. *)
Theorem db_trigger_table
    (e e1 : EventData) (p : GitProject) (w w1 : World) (kind : string) :
  _db_trigger e = None →
  event_type e = Some kind →
  EventData.project e w = (Ok (Some p, e1), w1) →
  let resolved_by call :=
    EventData.db_trigger e w =
    (t ← get_or_create call; mret (Some t, EventData.set__db_trigger (Some t) e1)) w1 in
  (kind ∈ [ "PullRequestGithubEvent"; "PullRequestPagureEvent"; "MergeRequestGitlabEvent";
            "PullRequestCommentGithubEvent"; "MergeRequestCommentGitlabEvent";
            "PullRequestCommentPagureEvent"; "CheckRerunPullRequestEvent" ] →
   resolved_by (PullRequestModel_get_or_create
                  (pr_id e) (namespace p) (repo p) (project_url e))) ∧
  (kind ∈ [ "PushGitHubEvent"; "PushGitlabEvent"; "PushPagureEvent";
            "CheckRerunCommitEvent" ] →
   resolved_by (GitBranchModel_get_or_create
                  (git_ref e) (namespace p) (repo p) (project_url e))) ∧
  (kind ∈ [ "ReleaseEvent"; "CheckRerunReleaseEvent" ] →
   resolved_by (ProjectReleaseModel_get_or_create
                  (tag_name e) (namespace p) (repo p) (project_url e) (commit_sha e))) ∧
  (kind ∈ [ "IssueCommentEvent"; "IssueCommentGitlabEvent" ] →
   resolved_by (IssueModel_get_or_create
                  (issue_id e) (namespace p) (repo p) (project_url e))).
Proof.
  intros Hnone Hkind Hproj resolved_by. subst resolved_by. cbv beta.
  pose proof (namespace_and_repo_resolved _ _ _ _ _ Hproj) as Hnr.
  assert (pr_id e1 = pr_id e ∧ git_ref e1 = git_ref e ∧ tag_name e1 = tag_name e ∧
          issue_id e1 = issue_id e ∧ project_url e1 = project_url e ∧
          commit_sha e1 = commit_sha e) as (E1 & E2 & E3 & E4 & E5 & E6).
  { apply project_read in Hproj as [_ [-> | ->]]; done. }
  repeat split; intros Hin; each_kind Hin;
    unfold EventData.db_trigger; rewrite Hnone, Hkind; decide_kind; cbn [truthy truthy_option negb];
    rewrite (bind_Ok _ _ _ _ _ Hnr); cbn beta iota; rewrite ?E1, ?E2, ?E3, ?E4, ?E5, ?E6;
    reflexivity.
Qed.

Lemma db_trigger_table_witness :
  EventData.db_trigger (comment_event None None) empty_world =
  (t ← get_or_create
         (PullRequestModel_get_or_create (Some 9%Z) "packit-service" "hello-world"
            (Some "https://github.com/packit-service/hello-world"));
   mret (Some t,
         EventData.set__db_trigger (Some t)
           (EventData.set__project (Some hello_world) (comment_event None None))))
    (emit (ServiceConfig_get_project "https://github.com/packit-service/hello-world")
       empty_world).
Proof.
  refine (proj1 (db_trigger_table (comment_event None None) _ hello_world empty_world _
                   "PullRequestCommentGithubEvent" _ _ _) _).
  - reflexivity.
  - reflexivity.
  - reflexivity.
  - repeat constructor.
Defined.

(** A read of [db_trigger] that returns leaves the value it returns in the
    cache. *)
Lemma db_trigger_read (e e1 : EventData) (v : option AbstractTriggerDbType) (w w1 : World) :
  EventData.db_trigger e w = (Ok (v, e1), w1) → _db_trigger e1 = v.
Proof.
  unfold EventData.db_trigger.
  destruct (negb (truthy (_db_trigger e))); [|by inversion 1].
  repeat match goal with
         | |- context [if EventData.is_in ?o ?l then _ else _] =>
             destruct (EventData.is_in o l)
         end;
    intros (x & w' & _ & H)%bind_inv;
    lazymatch type of x with
    | unit => idtac
    | _ => destruct x as [[ns rp] self]; apply bind_inv in H as (t & w'' & _ & H)
    end;
    cbn in H; by inversion H.
Qed.

Lemma since_of_trace (w w' : World) (es : list Effect) :
  trace w' = trace w ++ es → since w w' = es.
Proof. intros H. unfold since. rewrite H. apply drop_app_length. Qed.

Lemma get_or_create_returns (c : DbCall) (w : World) :
  ∃ t w1, get_or_create c w = (Ok t, w1) ∧ trace w1 = trace w ++ [Db c].
Proof. unfold get_or_create. destruct (find _ _); eauto. Qed.

(** A read of either attribute by an object whose project is cached. *)
Lemma read_with_project (a : lazy_attribute) (e : EventData) (p : GitProject) (w : World) :
  _project e = Some p →
  ∃ v e1 w1 es,
    read a e w = (Ok (v, e1), w1) ∧ _project e1 = Some p ∧
    (∀ x, v = project_read_as x → x = Some p) ∧
    trace w1 = trace w ++ es ∧ forge_calls es = [].
Proof.
  intros Hp. destruct a; unfold read.
  - rewrite (bind_Ok _ _ _ _ _ (project_cached e p w Hp)).
    eexists _, e, w, []. split; [reflexivity|]. split; [done|].
    split; [by intros x [= <-]|]. by rewrite app_nil_r.
  - pose proof (namespace_and_repo_resolved e e p w w (project_cached e p w Hp)) as Hnr.
    assert (∀ c (f : AbstractTriggerDbType → EventData → EventData),
              (∀ t e', _project (f t e') = _project e') →
              ∃ v e1 w1 es,
                ((x ← (y ← EventData.namespace_and_repo e;
                       let '(ns, rp, self) := y in
                       t ← get_or_create (c ns rp self);
                       mret (_db_trigger (f t self), f t self));
                  let '(t, self) := x in mret (db_trigger_read_as t, self)) w
                 = (Ok (v, e1), w1)) ∧ _project e1 = Some p ∧
                (∀ x, v = project_read_as x → x = Some p) ∧
                trace w1 = trace w ++ es ∧ forge_calls es = []) as Hcase.
    { intros c f Hf.
      destruct (get_or_create_returns (c (namespace p) (repo p) e) w) as (t & w1 & Hgc & Htr).
      eexists _, _, w1, _. split.
      - unfold mbind at 1. unfold M_bind. unfold mbind at 1. unfold M_bind.
        rewrite Hnr. cbv beta iota. rewrite (bind_Ok _ _ _ _ _ Hgc). reflexivity.
      - rewrite Hf. split; [done|]. split; [done|]. split; [exact Htr|done]. }
    unfold EventData.db_trigger. destruct (negb (truthy (_db_trigger e))).
    + repeat match goal with
             | |- context [if EventData.is_in ?o ?l then _ else _] =>
                 destruct (EventData.is_in o l)
             end.
      * apply (Hcase (λ ns rp self, PullRequestModel_get_or_create
                                      (pr_id self) ns rp (project_url self))
                 (λ t self, EventData.set__db_trigger (Some t) self)). done.
      * apply (Hcase (λ ns rp self, GitBranchModel_get_or_create
                                      (git_ref self) ns rp (project_url self))
                 (λ t self, EventData.set__db_trigger (Some t) self)). done.
      * apply (Hcase (λ ns rp self, ProjectReleaseModel_get_or_create
                                      (tag_name self) ns rp (project_url self)
                                      (commit_sha self))
                 (λ t self, EventData.set__db_trigger (Some t) self)). done.
      * apply (Hcase (λ ns rp self, IssueModel_get_or_create
                                      (issue_id self) ns rp (project_url self))
                 (λ t self, EventData.set__db_trigger (Some t) self)). done.
      * eexists _, e, _, [_]. split; [reflexivity|]. split; [done|]. split; [done|].
        split; [reflexivity|done].
    + eexists _, e, w, []. split; [reflexivity|]. split; [done|]. split; [done|].
      by rewrite app_nil_r.
Qed.

(** A read of either attribute by an object whose trigger is cached. *)
Lemma read_with_trigger (a : lazy_attribute) (e : EventData) (t : AbstractTriggerDbType)
    (w : World) :
  _db_trigger e = Some t →
  ∃ v e1 w1 es,
    read a e w = (Ok (v, e1), w1) ∧ _db_trigger e1 = Some t ∧
    (∀ x, v = db_trigger_read_as x → x = Some t) ∧
    trace w1 = trace w ++ es ∧ db_calls es = [] ∧ triggers w1 = triggers w.
Proof.
  intros Ht. destruct a; unfold read.
  - unfold EventData.project, EventData.get_project, get_project_of_service.
    destruct (negb (truthy (_project e))).
    + destruct (project_url e) as [url|]; [destruct (negb (truthy url))|].
      * eexists _, _, w, []. split; [reflexivity|]. split; [done|]. split; [done|].
        by rewrite app_nil_r.
      * eexists _, _, _, [_]. split; [reflexivity|]. split; [done|]. split; [done|].
        split; [reflexivity|done].
      * eexists _, _, w, []. split; [reflexivity|]. split; [done|]. split; [done|].
        by rewrite app_nil_r.
    + eexists _, e, w, []. split; [reflexivity|]. split; [done|]. split; [done|].
      by rewrite app_nil_r.
  - rewrite (bind_Ok _ _ _ _ _ (db_trigger_cached e t w Ht)).
    eexists _, e, w, []. split; [reflexivity|]. split; [done|].
    split; [by intros x [= <-]|]. by rewrite app_nil_r.
Qed.

Lemma forge_calls_app (es es' : list Effect) :
  forge_calls (es ++ es') = forge_calls es ++ forge_calls es'.
Proof. apply omap_app. Qed.

Lemma db_calls_app (es es' : list Effect) :
  db_calls (es ++ es') = db_calls es ++ db_calls es'.
Proof. apply omap_app. Qed.

Lemma reads_with_project (l : list lazy_attribute) (e : EventData) (p : GitProject)
    (w : World) :
  _project e = Some p →
  ∃ vs e1 w1 es,
    reads l e w = (Ok (vs, e1), w1) ∧ _project e1 = Some p ∧
    (∀ x, project_read_as x ∈ vs → x = Some p) ∧
    trace w1 = trace w ++ es ∧ forge_calls es = [].
Proof.
  revert e w. induction l as [|a l IH]; intros e w Hp.
  - exists [], e, w, []. split; [done|]. split; [done|].
    split; [by intros x ?%elem_of_nil|]. by rewrite app_nil_r.
  - destruct (read_with_project a e p w Hp) as (v & e1 & w1 & es & Hr & Hp1 & Hv & Htr & Hf).
    destruct (IH e1 w1 Hp1) as (vs & e2 & w2 & es' & Hrs & Hp2 & Hvs & Htr' & Hf').
    exists (v :: vs), e2, w2, (es ++ es'). split.
    { cbn [reads]. rewrite (bind_Ok _ _ _ _ _ Hr). cbv beta iota.
      by rewrite (bind_Ok _ _ _ _ _ Hrs). }
    split; [done|]. split.
    { intros x [Hx|Hx]%elem_of_cons; [by apply Hv|by apply Hvs]. }
    split; [by rewrite Htr', Htr, app_assoc|].
    by rewrite forge_calls_app, Hf, Hf'.
Qed.

Lemma reads_with_trigger (l : list lazy_attribute) (e : EventData)
    (t : AbstractTriggerDbType) (w : World) :
  _db_trigger e = Some t →
  ∃ vs e1 w1 es,
    reads l e w = (Ok (vs, e1), w1) ∧ _db_trigger e1 = Some t ∧
    (∀ x, db_trigger_read_as x ∈ vs → x = Some t) ∧
    trace w1 = trace w ++ es ∧ db_calls es = [] ∧ triggers w1 = triggers w.
Proof.
  revert e w. induction l as [|a l IH]; intros e w Ht.
  - exists [], e, w, []. split; [done|]. split; [done|].
    split; [by intros x ?%elem_of_nil|]. by rewrite app_nil_r.
  - destruct (read_with_trigger a e t w Ht)
      as (v & e1 & w1 & es & Hr & Ht1 & Hv & Htr & Hf & Hg).
    destruct (IH e1 w1 Ht1) as (vs & e2 & w2 & es' & Hrs & Ht2 & Hvs & Htr' & Hf' & Hg').
    exists (v :: vs), e2, w2, (es ++ es'). split.
    { cbn [reads]. rewrite (bind_Ok _ _ _ _ _ Hr). cbv beta iota.
      by rewrite (bind_Ok _ _ _ _ _ Hrs). }
    split; [done|]. split.
    { intros x [Hx|Hx]%elem_of_cons; [by apply Hv|by apply Hvs]. }
    split; [by rewrite Htr', Htr, app_assoc|].
    split; [by rewrite db_calls_app, Hf, Hf'|congruence].
Qed.

(** C9 (as amended): a lazy attribute is cached once a read has resolved it
    to a value other than [None], and stays so for the life of the object.
    A read that yields a value leaves it in the cache, and the next read, in
    whatever world, returns it and changes neither the object nor the world.
    From an object whose project (whose trigger) is cached, every sequence of
    reads of the two attributes, in any order, returns; each read of the
    attribute in it yields the cached value, the cache holds that value at
    the end, and the resolver is not run: the forge is not asked (no upsert
    is made, and the trigger tables are as they were).  A read that yields
    [None] leaves the cache empty. *)
Theorem lazy_attributes_cached (e : EventData) (w : World) :
  (∀ p e1 w1, EventData.project e w = (Ok (Some p, e1), w1) →
              _project e1 = Some p ∧
              ∀ w', EventData.project e1 w' = (Ok (Some p, e1), w')) ∧
  (∀ t e1 w1, EventData.db_trigger e w = (Ok (Some t, e1), w1) →
              _db_trigger e1 = Some t ∧
              ∀ w', EventData.db_trigger e1 w' = (Ok (Some t, e1), w')) ∧
  (∀ p l, _project e = Some p →
          ∃ vs e' w',
            reads l e w = (Ok (vs, e'), w') ∧ _project e' = Some p ∧
            (∀ x, project_read_as x ∈ vs → x = Some p) ∧
            forge_calls (since w w') = []) ∧
  (∀ t l, _db_trigger e = Some t →
          ∃ vs e' w',
            reads l e w = (Ok (vs, e'), w') ∧ _db_trigger e' = Some t ∧
            (∀ x, db_trigger_read_as x ∈ vs → x = Some t) ∧
            db_calls (since w w') = [] ∧ triggers w' = triggers w) ∧
  (∀ e1 w1, EventData.project e w = (Ok (None, e1), w1) → _project e1 = None) ∧
  (∀ e1 w1, EventData.db_trigger e w = (Ok (None, e1), w1) → _db_trigger e1 = None).
Proof.
  split_and!.
  - intros p e1 w1 [H _]%project_read. split; [done|]. intros w'. by apply project_cached.
  - intros t e1 w1 H%db_trigger_read. split; [done|]. intros w'.
    by apply db_trigger_cached.
  - intros p l Hp.
    destruct (reads_with_project l e p w Hp) as (vs & e' & w' & es & Hr & Hp' & Hvs & Htr & Hf).
    exists vs, e', w'. by rewrite (since_of_trace _ _ _ Htr).
  - intros t l Ht.
    destruct (reads_with_trigger l e t w Ht)
      as (vs & e' & w' & es & Hr & Ht' & Hvs & Htr & Hf & Hg).
    exists vs, e', w'. by rewrite (since_of_trace _ _ _ Htr).
  - by intros e1 w1 [H _]%project_read.
  - by intros e1 w1 H%db_trigger_read.
Qed.

Lemma lazy_attributes_cached_witness :
  ∃ vs e' w',
    reads [the_db_trigger; the_project; the_db_trigger; the_project]
      (EventData.set__project (Some hello_world) (comment_event None None)) empty_world
      = (Ok (vs, e'), w') ∧
    _project e' = Some hello_world ∧
    (∀ x, project_read_as x ∈ vs → x = Some hello_world) ∧
    forge_calls (since empty_world w') = [].
Proof.
  refine (proj1 (proj2 (proj2
            (lazy_attributes_cached
               (EventData.set__project (Some hello_world) (comment_event None None))
               empty_world)))
            hello_world [the_db_trigger; the_project; the_db_trigger; the_project] _).
  reflexivity.
Defined.

(** The claim as first stated fails when the resolver yields [None]: nothing is
    cached, and a second read runs it again.  For an event of a type no
    trigger table is registered for, each read of [db_trigger] logs the
    warning of the fall-through branch anew. *)
Lemma db_trigger_resolved_again_when_None :
  EventData.db_trigger unknown_event empty_world =
    (Ok (None, unknown_event),
     emit (Log WARNING "We don't know, what to search in the database for this event data.")
       empty_world) ∧
  trace (EventData.db_trigger unknown_event
           (EventData.db_trigger unknown_event empty_world).2).2 =
    [ Log WARNING "We don't know, what to search in the database for this event data.";
      Log WARNING "We don't know, what to search in the database for this event data." ] ∧
  EventData.db_trigger unknown_event (EventData.db_trigger unknown_event empty_world).2
    ≠ (Ok (None, unknown_event), (EventData.db_trigger unknown_event empty_world).2).
Proof.
  split; [reflexivity|]. split; [reflexivity|].
  intros H. apply (f_equal (λ x, length (trace x.2))) in H. vm_compute in H. discriminate.
Qed.

(** ** [TestingFarmResultsHandler] *)

(** C1: the code departs from the claim.  On a callback whose [pipeline_id]
    matches no stored test run, [TestingFarmResultsHandler.run] logs the
    unknown id and then raises: with a result other than [running] it reads
    [submitted_time] of the missing run record, with [running] it reads
    [job_trigger_model_type] of the trigger, which the property [db_trigger]
    left at [None]; no status report is sent and nothing is returned. *)
Theorem run_unknown_pipeline_raises (self : TestingFarmResultsHandler.t) (w : World) :
  (TestingFarmResultsHandler.pipeline_id self ≫= λ p, test_runs w !! p) = None →
  TestingFarmResultsHandler._db_trigger self = None →
  let w1 :=
    emit (Log WARNING ("Unknown pipeline_id received from the testing-farm: "
                       +:+ fmt (TestingFarmResultsHandler.pipeline_id self)))
      (emit (TFTTestRunModel_get_by_pipeline_id (TestingFarmResultsHandler.pipeline_id self))
         w) in
  TestingFarmResultsHandler.run self w =
  if bool_decide (TestingFarmResultsHandler.result self = Some TestingFarmResult.running)
  then (Raise (AttributeError "'NoneType' object has no attribute 'job_trigger_model_type'"),
        emit (TFTTestRunModel_get_by_pipeline_id (TestingFarmResultsHandler.pipeline_id self))
          (emit (inc "test_runs_started") w1))
  else (Raise (AttributeError "'NoneType' object has no attribute 'submitted_time'"),
        emit (inc "test_runs_finished") w1).
Proof.
  intros Hrun Hdb w1. subst w1.
  unfold TestingFarmResultsHandler.run.
  unfold mbind at 1, M_bind, get_by_pipeline_id at 1. rewrite Hrun. cbn [truthy truthy_option negb].
  unfold mbind at 1, M_bind, effect at 1.
  rewrite ret_bind.
  destruct (TestingFarmResultsHandler.status_and_summary _ _) as [status summary].
  destruct (bool_decide _).
  - unfold mbind at 1, M_bind, effect at 1. rewrite ret_bind.
    unfold mbind at 1, M_bind, TestingFarmResultsHandler.db_trigger at 1.
    rewrite Hdb. cbn [truthy truthy_option negb].
    unfold mbind at 1, M_bind, get_by_pipeline_id at 1. cbn [test_runs emit].
    rewrite Hrun. reflexivity.
  - reflexivity.
Qed.

Lemma run_unknown_pipeline_raises_witness :
  TestingFarmResultsHandler.run (callback TestingFarmResult.passed None) empty_world =
  (Raise (AttributeError "'NoneType' object has no attribute 'submitted_time'"),
   emit (inc "test_runs_finished")
     (emit (Log WARNING "Unknown pipeline_id received from the testing-farm: id")
        (emit (TFTTestRunModel_get_by_pipeline_id (Some "id")) empty_world))).
Proof.
  refine (run_unknown_pipeline_raises (callback TestingFarmResult.passed None) empty_world _ _).
  - reflexivity.
  - reflexivity.
Defined.

Lemma since_app (w w' : World) (es : list Effect) :
  trace w' = trace w ++ es → since w w' = es.
Proof. intros H. unfold since. rewrite H. apply drop_app_length. Qed.

(** On a callback whose pipeline is stored and has a trigger, [run] returns
    and sends one status report: the mapped status and summary, the info url
    of the test run, and the raw log url as the external link. *)
Lemma run_known_pipeline
    (self : TestingFarmResultsHandler.t) (w : World) (p : string)
    (m : TFTTestRunModel) (t : AbstractTriggerDbType) :
  TestingFarmResultsHandler.pipeline_id self = Some p →
  test_runs w !! p = Some m →
  tft_trigger m = Some t →
  TestingFarmResultsHandler._db_trigger self = None →
  ∃ w',
    TestingFarmResultsHandler.run self w =
      (Ok ({| success := true; details := ∅ |},
           TestingFarmResultsHandler.set__db_trigger (Some t) self), w') ∧
    reports (since w w') =
      [ StatusReporter_report
          (TestingFarmResultsHandler.status_and_summary
             (TestingFarmResultsHandler.result self)
             (TestingFarmResultsHandler.summary self)).1
          (TestingFarmResultsHandler.status_and_summary
             (TestingFarmResultsHandler.result self)
             (TestingFarmResultsHandler.summary self)).2
          (testing_farm_info_url (tft_id m))
          [("Testing Farm", TestingFarmResultsHandler.log_url self)]
          (TestingFarmResultsHandler.copr_chroot self) ].
Proof.
  intros Hp Hm Ht Hdb.
  unfold TestingFarmResultsHandler.run.
  destruct (TestingFarmResultsHandler.status_and_summary _ _) as [status summary].
  unfold TestingFarmResultsHandler.db_trigger. rewrite Hp, Hdb.
  destruct (bool_decide (TestingFarmResultsHandler.result self = _));
    unfold mbind, M_bind, get_by_pipeline_id, TestingFarmResultsHandler.store, effect, ask,
      JobTriggerModel_upsert, mret, M_ret;
    cbn -[find length]; rewrite Hm; cbn -[find length];
    rewrite !lookup_insert_eq; cbn -[find length]; rewrite Ht; cbn -[find length];
    destruct (find _ (job_triggers w)); cbn -[find length];
    (eexists; split; [reflexivity|]);
    (erewrite since_app; [|cbn; rewrite <- !app_assoc; reflexivity]); reflexivity.
Qed.

(** C5: the mapping from a result to the outward status is total.  When the
    callback brings no summary ([None] or the empty string), [running] gives
    the running status with "Tests are running ...", [passed] gives success
    with "Tests passed ...", [error] gives error with "Error ...", and every
    other result, [failed] among them, gives failure with "Tests failed ...";
    a summary the callback does bring replaces the default and leaves the
    status as it is; and this pair is what the status report of [run]
    carries. *)
Theorem status_mapping (summary : option string) :
  (truthy summary = false →
   TestingFarmResultsHandler.status_and_summary (Some TestingFarmResult.running) summary
     = (BaseCommitStatus.running, "Tests are running ...") ∧
   TestingFarmResultsHandler.status_and_summary (Some TestingFarmResult.passed) summary
     = (BaseCommitStatus.success, "Tests passed ...") ∧
   TestingFarmResultsHandler.status_and_summary (Some TestingFarmResult.error) summary
     = (BaseCommitStatus.error, "Error ...") ∧
   TestingFarmResultsHandler.status_and_summary (Some TestingFarmResult.failed) summary
     = (BaseCommitStatus.failure, "Tests failed ...") ∧
   ∀ r, r ≠ Some TestingFarmResult.running → r ≠ Some TestingFarmResult.passed →
        r ≠ Some TestingFarmResult.error →
        TestingFarmResultsHandler.status_and_summary r summary
          = (BaseCommitStatus.failure, "Tests failed ...")) ∧
  (∀ r s, summary = Some s → s ≠ "" →
          TestingFarmResultsHandler.status_and_summary r summary
            = ((TestingFarmResultsHandler.status_and_summary r None).1, s)) ∧
  (∀ self w p m t,
     TestingFarmResultsHandler.summary self = summary →
     TestingFarmResultsHandler.pipeline_id self = Some p →
     test_runs w !! p = Some m →
     tft_trigger m = Some t →
     TestingFarmResultsHandler._db_trigger self = None →
     ∃ r self' w' url links check,
       TestingFarmResultsHandler.run self w = (Ok (r, self'), w') ∧
       reports (since w w') =
         [ StatusReporter_report
             (TestingFarmResultsHandler.status_and_summary
                (TestingFarmResultsHandler.result self) summary).1
             (TestingFarmResultsHandler.status_and_summary
                (TestingFarmResultsHandler.result self) summary).2
             url links check ]).
Proof.
  split; [|split].
  - intros Hs.
    assert (∀ d, TestingFarmResultsHandler.summary_or summary d = d) as Hd.
    { intros d. destruct summary as [s|]; [|done]. cbn in *. by rewrite Hs. }
    unfold TestingFarmResultsHandler.status_and_summary. rewrite !Hd.
    repeat split; try reflexivity.
    intros r H1 H2 H3. by rewrite !bool_decide_eq_false_2.
  - intros r s -> Hs.
    unfold TestingFarmResultsHandler.status_and_summary.
    assert (∀ d, TestingFarmResultsHandler.summary_or (Some s) d = s) as Hd.
    { intros d. cbn. by destruct s. }
    repeat case_bool_decide; by rewrite Hd.
  - intros self w p m t <- Hp Hm Ht Hdb.
    destruct (run_known_pipeline self w p m t Hp Hm Ht Hdb) as (w' & Hrun & Hrep).
    eauto 10.
Qed.

Lemma status_mapping_witness :
  (TestingFarmResultsHandler.status_and_summary (Some TestingFarmResult.running) None
     = (BaseCommitStatus.running, "Tests are running ...") ∧
   TestingFarmResultsHandler.status_and_summary (Some TestingFarmResult.passed) None
     = (BaseCommitStatus.success, "Tests passed ...") ∧
   TestingFarmResultsHandler.status_and_summary (Some TestingFarmResult.error) None
     = (BaseCommitStatus.error, "Error ...") ∧
   TestingFarmResultsHandler.status_and_summary (Some TestingFarmResult.failed) None
     = (BaseCommitStatus.failure, "Tests failed ...")) ∧
  TestingFarmResultsHandler.status_and_summary (Some TestingFarmResult.passed)
    (Some "All good")
    = ((TestingFarmResultsHandler.status_and_summary (Some TestingFarmResult.passed) None).1,
       "All good") ∧
  ∃ r self' w' url links check,
    TestingFarmResultsHandler.run (callback TestingFarmResult.passed None) world_with_run
      = (Ok (r, self'), w') ∧
    reports (since world_with_run w') =
      [ StatusReporter_report BaseCommitStatus.success "Tests passed ..." url links check ].
Proof.
  split; [|split].
  - destruct (proj1 (status_mapping None) eq_refl) as (H1 & H2 & H3 & H4 & _). auto.
  - refine (proj1 (proj2 (status_mapping (Some "All good"))) _ "All good" eq_refl _).
    discriminate.
  - refine (proj2 (proj2 (status_mapping None))
              (callback TestingFarmResult.passed None) world_with_run "id" stored_run pr9
              _ _ _ _ _); reflexivity.
Defined.

(** ** [TestingFarmHandler]: running the loops *)

Lemma effect_bind {B} (e : Effect) (f : unit → M B) (w : World) :
  (effect e ≫= f) w = f tt (emit e w).
Proof. reflexivity. Qed.

Lemma bind_assoc {A B C} (m : M A) (f : A → M B) (g : B → M C) (w : World) :
  ((m ≫= f) ≫= g) w = (m ≫= λ a, f a ≫= g) w.
Proof. unfold mbind, M_bind. by destruct (m w) as [[a|e] w1]. Qed.

(** ** Appending to the trace *)

Lemma emit_all_cons (e : Effect) (es : list Effect) (w : World) :
  emit_all (e :: es) w = emit_all es (emit e w).
Proof. reflexivity. Qed.

Lemma trace_emit_all (es : list Effect) (w : World) : trace (emit_all es w) = trace w ++ es.
Proof.
  revert w. induction es as [|e es IH]; intros w.
  - cbn. by rewrite app_nil_r.
  - rewrite emit_all_cons, IH. cbn. by rewrite <- app_assoc.
Qed.

Lemma emit_all_app (es es' : list Effect) (w : World) :
  emit_all (es ++ es') w = emit_all es' (emit_all es w).
Proof. apply foldl_app. Qed.

(** A loop whose body only emits an effect. *)
Lemma for_each_effect {A} (g : A → Effect) (l : list A) (w : World) :
  for_each l (λ x _, effect (g x)) tt w = (Ok tt, emit_all (g <$> l) w).
Proof.
  revert w. induction l as [|x l IH]; intros w; [done|].
  cbn [for_each]. rewrite effect_bind. by rewrite IH.
Qed.

(** ** Code that only works backstage *)

Lemma quiet_ret {A} (a : A) : quiet (mret a).
Proof. intros w. exists []. cbn. by rewrite app_nil_r. Qed.

Lemma quiet_raise {A} (e : exn) : quiet (raise e : M A).
Proof. intros w. exists []. cbn. by rewrite app_nil_r. Qed.

Lemma quiet_bind {A B} (m : M A) (f : A → M B) :
  quiet m → (∀ a, quiet (f a)) → quiet (m ≫= f).
Proof.
  intros Hm Hf w. destruct (Hm w) as (es & Ht & Hb & Hc).
  unfold mbind, M_bind. destruct (m w) as [[a|e] w1]; cbn in *.
  - destruct (Hf a w1) as (es' & Ht' & Hb' & Hc').
    exists (es ++ es'). rewrite Ht', Ht, Hc', Hc, app_assoc. split; [done|].
    split; [by apply Forall_app|done].
  - eauto.
Qed.

Lemma quiet_effect (e : Effect) : backstage e = true → quiet (effect e).
Proof. intros H w. exists [e]. cbn. split; [done|]. split; [by apply Forall_singleton|done]. Qed.

Lemma quiet_getattr {A B} (attr : string) (f : A → B) (o : option A) : quiet (getattr attr f o).
Proof. destruct o; [apply quiet_ret|apply quiet_raise]. Qed.

Lemma quiet_get_or_create (c : DbCall) : quiet (get_or_create c).
Proof.
  intros w. exists [Db c]. unfold get_or_create.
  destruct (find _ _); cbn; (split; [done|]); (split; [by apply Forall_singleton|done]).
Qed.

Lemma quiet_get_by_id (id : Z) : quiet (get_by_id id).
Proof. intros w. exists [CoprBuildModel_get_by_id id]. cbn. split; [done|]. split; [by apply Forall_singleton|done]. Qed.

Lemma quiet_get_project (e : EventData) : quiet (EventData.get_project e).
Proof.
  unfold EventData.get_project. destruct (project_url e) as [url|]; [|apply quiet_ret].
  destruct (negb (truthy url)); [apply quiet_ret|].
  intros w. exists [ServiceConfig_get_project url]. cbn.
  split; [done|]. split; [by apply Forall_singleton|done].
Qed.

Ltac quiet :=
  repeat first
    [ apply quiet_ret | apply quiet_raise | apply quiet_getattr | apply quiet_get_or_create
    | apply quiet_get_by_id | apply quiet_get_project | apply quiet_effect; reflexivity
    | apply quiet_bind; [|intros]
    | match goal with
      | |- quiet (if ?b then _ else _) => destruct b
      | |- quiet (let '(_, _) := ?x in _) => destruct x
      | |- quiet (match ?x with _ => _ end) => destruct x
      end ].

Lemma quiet_project (e : EventData) : quiet (EventData.project e).
Proof. unfold EventData.project. quiet. Qed.

Lemma quiet_namespace_and_repo (e : EventData) : quiet (EventData.namespace_and_repo e).
Proof.
  unfold EventData.namespace_and_repo.
  apply quiet_bind; [apply quiet_project|]. intros [p e1].
  apply quiet_bind; [apply quiet_getattr|]. intros ns.
  apply quiet_bind; [apply quiet_project|]. intros [p' e2]. quiet.
Qed.

Lemma quiet_EventData_db_trigger (e : EventData) : quiet (EventData.db_trigger e).
Proof.
  unfold EventData.db_trigger.
  destruct (negb _); [|apply quiet_ret].
  repeat match goal with
         | |- quiet (if ?b then _ else _) => destruct b
         end;
    try (apply quiet_bind; [apply quiet_namespace_and_repo|]; intros [[ns rp] e1]); quiet.
Qed.

Lemma quiet_db_trigger (self : TestingFarmHandler.t) : quiet (TestingFarmHandler.db_trigger self).
Proof.
  unfold TestingFarmHandler.db_trigger.
  destruct (negb _); [|apply quiet_ret].
  destruct (truthy (TestingFarmHandler.build_id self)).
  - quiet.
  - apply quiet_bind; [apply quiet_EventData_db_trigger|]. intros [x d]. quiet.
Qed.

Lemma backstage_hidden (es : list Effect) :
  Forall (λ e, backstage e = true) es →
  build_jobs es = [] ∧ test_jobs es = [] ∧ notifications es = [] ∧ lookups es = [].
Proof.
  induction 1 as [|e es He _ (IH1 & IH2 & IH3 & IH4)]; [done|].
  unfold build_jobs, test_jobs, notifications, lookups in *.
  cbn [omap list_omap]. rewrite IH1, IH2, IH3, IH4. by destruct e.
Qed.

(** Reading the trigger leaves [build_id] alone. *)
Lemma db_trigger_build_id (self self1 : TestingFarmHandler.t)
    (x : option AbstractTriggerDbType) (w w1 : World) :
  TestingFarmHandler.db_trigger self w = (Ok (x, self1), w1) →
  TestingFarmHandler.build_id self1 = TestingFarmHandler.build_id self.
Proof.
  unfold TestingFarmHandler.db_trigger.
  destruct (negb _); [|by inversion 1].
  destruct (truthy (TestingFarmHandler.build_id self)).
  - intros (b & w' & _ & (y & w'' & _ & H)%bind_inv)%bind_inv. by inversion H.
  - intros ([y d] & w' & _ & H)%bind_inv. by inversion H.
Qed.

(** ** The partition of the targets *)

Lemma dict_set_fresh {V} (k : string) (v : V) (d : list (string * V)) :
  k ∉ d.*1 → dict_set k v d = d ++ [(k, v)].
Proof.
  induction d as [|[k' v'] d IH]; intros Hk; [done|].
  cbn in *. apply not_elem_of_cons in Hk as [Hne Hk].
  rewrite decide_False by done. by rewrite IH.
Qed.

Section handler.

Variable repr : list string → string.
Variable str_build : CoprBuildModel → string.

Lemma partition_step_run (self : TestingFarmHandler.t) (helper : TestingFarmJobHelper)
    (target : string) (acc : list (string * CoprBuildModel) * list string) (w : World) :
  TestingFarmHandler.partition_step self helper target acc w =
  (Ok (match existing_build self helper (copr_builds w) target with
       | Some b => (dict_set target b acc.1, acc.2)
       | None => (acc.1, acc.2 ++ [target])
       end),
   emit (build_query self target) w).
Proof.
  destruct acc as [wb wo]. unfold TestingFarmHandler.partition_step, existing_build, build_query.
  destruct (truthy (TestingFarmHandler.build_id self)).
  - unfold mbind, M_bind, get_by_id. by destruct (copr_builds w !! _).
  - rewrite bind_assoc, effect_bind, ret_bind. by destruct (latest_copr_build _ _ _).
Qed.

Lemma partition_run (self : TestingFarmHandler.t) (helper : TestingFarmJobHelper)
    (targets : list string) (wb : list (string * CoprBuildModel)) (wo : list string)
    (w : World) :
  NoDup targets →
  (∀ t, t ∈ targets → t ∉ wb.*1) →
  for_each targets (TestingFarmHandler.partition_step self helper) (wb, wo) w =
  (Ok (wb ++ with_build_of (existing_build self helper (copr_builds w)) targets,
       wo ++ without_build_of (existing_build self helper (copr_builds w)) targets),
   emit_all (build_query self <$> targets) w).
Proof.
  revert wb wo w. induction targets as [|t ts IH]; intros wb wo w Hnd Hfresh.
  - cbn. by rewrite !app_nil_r.
  - apply NoDup_cons in Hnd as [Ht Hnd].
    cbn [for_each]. rewrite (bind_Ok _ _ _ _ _ (partition_step_run self helper t (wb, wo) w)).
    unfold with_build_of, without_build_of. cbn [omap list_omap fmap list_fmap].
    rewrite filter_cons.
    destruct (existing_build self helper (copr_builds w) t) as [b|] eqn:Hb; cbn [fst snd].
    + rewrite IH; [|done|].
      * cbn. rewrite decide_False by done.
        rewrite dict_set_fresh by (apply Hfresh; left). by rewrite <- app_assoc.
      * intros t' Ht'. rewrite dict_set_fresh by (apply Hfresh; left).
        rewrite fmap_app. cbn. intros [?| ->%list_elem_of_singleton]%elem_of_app; [|done].
        by apply (Hfresh t'); [right|].
    + rewrite IH; [|done|].
      * cbn. rewrite decide_True by done. by rewrite <- app_assoc.
      * intros t' Ht'. apply Hfresh. by right.
Qed.

Lemma trigger_build_run (self : TestingFarmHandler.t) (helper : TestingFarmJobHelper)
    (missing : list string) (w : World) :
  TestingFarmHandler.trigger_build repr self helper missing ∅ w =
  (Ok (build_details repr missing), emit_all (build_effects repr self helper missing) w).
Proof.
  unfold TestingFarmHandler.trigger_build, build_effects, build_details.
  destruct missing as [|t ts]; [done|].
  cbn [truthy truthy_list].
  rewrite effect_bind.
  rewrite (bind_Ok _ _ _ _ _ (for_each_effect _ _ _)).
  rewrite (bind_Ok _ _ _ _ _ (for_each_effect _ _ _)).
  rewrite effect_bind. unfold mret, M_ret.
  rewrite insert_empty. f_equal.
  rewrite !emit_all_app. reflexivity.
Qed.

Lemma test_step_run (helper : TestingFarmJobHelper) (item : string * CoprBuildModel)
    (failed : list (string * value)) (w : World) :
  TestingFarmHandler.test_step str_build helper item failed w =
  (Ok (if succeeded item.2 && negb (success (testing_farm helper item.2 item.1))
       then dict_set item.1 (VDict (details (testing_farm helper item.2 item.1))) failed
       else failed),
   emit_all (test_effects str_build item) w).
Proof.
  destruct item as [t b]. unfold TestingFarmHandler.test_step, test_effects, succeeded.
  cbn [fst snd]. destruct (bool_decide _); cbn [negb andb].
  - rewrite !effect_bind. by destruct (success _).
  - by rewrite !effect_bind.
Qed.

Lemma tests_run (helper : TestingFarmJobHelper) (with_build : list (string * CoprBuildModel))
    (failed : list (string * value)) (w : World) :
  NoDup with_build.*1 →
  (∀ t, t ∈ with_build.*1 → t ∉ failed.*1) →
  for_each with_build (TestingFarmHandler.test_step str_build helper) failed w =
  (Ok (failed ++ failures_of helper with_build),
   emit_all (concat (test_effects str_build <$> with_build)) w).
Proof.
  revert failed w. induction with_build as [|[t b] l IH]; intros failed w Hnd Hfresh.
  - cbn. by rewrite app_nil_r.
  - cbn in Hnd. apply NoDup_cons in Hnd as [Ht Hnd].
    cbn [for_each]. rewrite (bind_Ok _ _ _ _ _ (test_step_run helper (t, b) failed w)).
    cbn [fmap list_fmap concat]. rewrite emit_all_app.
    unfold failures_of. cbn [omap list_omap fst snd].
    destruct (succeeded b && negb (success (testing_farm helper b t))).
    + rewrite dict_set_fresh by (apply Hfresh; left).
      rewrite IH; [by rewrite <- app_assoc|done|].
      intros t' Ht'. rewrite fmap_app. cbn.
      intros [?| ->%list_elem_of_singleton]%elem_of_app; [|done].
      by apply (Hfresh t'); [right|].
    + rewrite IH; [done|done|]. intros t' Ht'. apply Hfresh. by right.
Qed.

Lemma with_build_of_keys (find : string → option CoprBuildModel) (targets : list string) :
  (with_build_of find targets).*1 = filter (λ t, is_Some (find t)) targets.
Proof.
  induction targets as [|t ts IH]; [done|].
  unfold with_build_of in *. rewrite filter_cons. cbn [omap list_omap].
  destruct (find t) as [b|]; cbn [fmap option_fmap option_map].
  - rewrite decide_True by eauto. by rewrite fmap_cons, IH.
  - rewrite decide_False; [done|]. by intros [? ?].
Qed.

Lemma with_build_of_NoDup (find : string → option CoprBuildModel) (targets : list string) :
  NoDup targets → NoDup (with_build_of find targets).*1.
Proof. intros H. rewrite with_build_of_keys. by apply NoDup_filter. Qed.

(** What the body of [run] does, target set and stored builds given. *)
Lemma run_with_run (self : TestingFarmHandler.t) (helper : TestingFarmJobHelper) (w : World) :
  let targets := elements (tests_targets helper) in
  let with_build := with_build_of (existing_build self helper (copr_builds w)) targets in
  let without_build := without_build_of (existing_build self helper (copr_builds w)) targets in
  for_each targets (TestingFarmHandler.partition_step self helper) ([], []) w =
    (Ok (with_build, without_build), emit_all (build_query self <$> targets) w) ∧
  TestingFarmHandler.run_with repr str_build self helper w =
    (Ok (TestingFarmHandler.conclude repr (failures_of helper with_build)
           (build_details repr without_build)),
     emit_all ((build_query self <$> targets) ++ build_effects repr self helper without_build
               ++ concat (test_effects str_build <$> with_build)) w).
Proof.
  intros targets with_build without_build.
  assert (for_each targets (TestingFarmHandler.partition_step self helper) ([], []) w =
    (Ok (with_build, without_build), emit_all (build_query self <$> targets) w)) as Hpart.
  { rewrite partition_run; [done|apply NoDup_elements|]. intros t _. apply not_elem_of_nil. }
  split; [done|].
  unfold TestingFarmHandler.run_with. fold targets.
  rewrite (bind_Ok _ _ _ _ _ Hpart). cbv beta iota.
  rewrite (bind_Ok _ _ _ _ _ (trigger_build_run _ _ _ _)).
  rewrite (bind_Ok _ _ _ _ _ (tests_run helper with_build [] _
             (with_build_of_NoDup _ _ (NoDup_elements _))
             (λ t _, not_elem_of_nil t))).
  cbn [app]. unfold mret, M_ret. by rewrite !emit_all_app.
Qed.

End handler.

(** ** What a pass shows to an observer *)

Lemma omap_fmap_None {A B C} (g : B → option C) (f : A → B) (l : list A) :
  (∀ x, g (f x) = None) → omap g (f <$> l) = [].
Proof. intros H. induction l as [|x l IH]; [done|]. cbn. by rewrite H. Qed.

Lemma omap_fmap_Some {A B C} (g : B → option C) (f : A → B) (h : A → C) (l : list A) :
  (∀ x, g (f x) = Some (h x)) → omap g (f <$> l) = h <$> l.
Proof. intros H. induction l as [|x l IH]; [done|]. cbn. by rewrite H, IH. Qed.

Section observed.

Variable new_helper :
  option AbstractTriggerDbType → option (gset string) → TestingFarmJobHelper.
Variable repr : list string → string.
Variable str_build : CoprBuildModel → string.

Lemma observed_queries (self : TestingFarmHandler.t) (targets : list string) :
  build_jobs (build_query self <$> targets) = [] ∧
  test_jobs (build_query self <$> targets) = [] ∧
  notifications (build_query self <$> targets) = [] ∧
  lookups (build_query self <$> targets) =
    if truthy (TestingFarmHandler.build_id self) then []
    else (λ t, (t, commit_sha (TestingFarmHandler.data self))) <$> targets.
Proof.
  unfold build_jobs, test_jobs, notifications, lookups, build_query.
  destruct (truthy (TestingFarmHandler.build_id self));
    induction targets as [|t ts (IH1 & IH2 & IH3 & IH4)]; try done;
    cbn [fmap list_fmap omap list_omap]; by rewrite IH1, IH2, IH3, IH4.
Qed.

Lemma observed_build (self : TestingFarmHandler.t) (helper : TestingFarmJobHelper)
    (missing : list string) :
  build_jobs (build_effects repr self helper missing) =
    match missing with
    | [] => []
    | _ => [ {| kw_package_config :=
                  dump_package_config (TestingFarmHandler.package_config self);
                kw_job_config := dump_job_config (TestingFarmHandler.job_config self);
                kw_event := <["targets_override" := VList missing]>
                              (EventData.get_dict (TestingFarmHandler.data self)) |} ]
    end ∧
  test_jobs (build_effects repr self helper missing) = [] ∧
  notifications (build_effects repr self helper missing) =
    (λ t, (BaseCommitStatus.pending, t)) <$> missing ∧
  lookups (build_effects repr self helper missing) = [].
Proof.
  unfold build_effects. destruct missing as [|t0 ts0]; [done|].
  unfold build_jobs, test_jobs, notifications, lookups.
  rewrite !omap_app.
  rewrite !(omap_fmap_None _ (λ _ : nat, inc "copr_builds_queued")) by done.
  rewrite (omap_fmap_None (λ e, match e with apply_async TaskName.copr_build k => Some k
                                | _ => None end)) by done.
  rewrite (omap_fmap_None (λ e, match e with run_testing_farm b c => Some (b, c)
                                | _ => None end)) by done.
  rewrite (omap_fmap_None (λ e, match e with get_latest_copr_build t c => Some (t, c)
                                | _ => None end)) by done.
  rewrite (omap_fmap_Some _ _ (λ t, (BaseCommitStatus.pending, t))) by done.
  cbn [omap list_omap app]. by rewrite app_nil_r.
Qed.

Lemma observed_tests (with_build : list (string * CoprBuildModel)) :
  build_jobs (concat (test_effects str_build <$> with_build)) = [] ∧
  test_jobs (concat (test_effects str_build <$> with_build)) = tests_of with_build ∧
  notifications (concat (test_effects str_build <$> with_build)) =
    (λ t, (BaseCommitStatus.failure, t)) <$> skipped_of with_build ∧
  lookups (concat (test_effects str_build <$> with_build)) = [].
Proof.
  unfold build_jobs, test_jobs, notifications, lookups, tests_of, skipped_of.
  induction with_build as [|[t b] l (IH1 & IH2 & IH3 & IH4)]; [done|].
  cbn [fmap list_fmap concat omap list_omap]. rewrite !omap_app, IH1, IH2, IH3, IH4.
  unfold test_effects. cbn [fst snd]. by destruct (succeeded b).
Qed.

(** [run], once the trigger is resolved: the partition the loop computes,
    the result returned and the effects since the start. *)
Lemma run_resolved (self self1 : TestingFarmHandler.t) (w w1 : World)
    (trigger : option AbstractTriggerDbType) :
  TestingFarmHandler.db_trigger self w = (Ok (trigger, self1), w1) →
  let helper := new_helper trigger (TestingFarmHandler.override self1) in
  let targets := elements (tests_targets helper) in
  let with_build := with_build_of (existing_build self1 helper (copr_builds w)) targets in
  let without_build :=
    without_build_of (existing_build self1 helper (copr_builds w)) targets in
  ∃ wp w2,
    for_each targets (TestingFarmHandler.partition_step self1 helper) ([], []) w1 =
      (Ok (with_build, without_build), wp) ∧
    TestingFarmHandler.run new_helper repr str_build self w =
      (Ok (TestingFarmHandler.conclude repr (failures_of helper with_build)
             (build_details repr without_build), self1), w2) ∧
    build_jobs (since w w2) = build_jobs (build_effects repr self1 helper without_build) ∧
    test_jobs (since w w2) = tests_of with_build ∧
    notifications (since w w2) =
      ((λ t, (BaseCommitStatus.pending, t)) <$> without_build) ++
      ((λ t, (BaseCommitStatus.failure, t)) <$> skipped_of with_build) ∧
    lookups (since w w2) = lookups (build_query self1 <$> targets).
Proof.
  intros Hdb helper targets with_build without_build.
  destruct (quiet_db_trigger self w) as (es0 & Htr & Hback & Hbuilds).
  rewrite Hdb in Htr, Hbuilds. cbn [snd] in Htr, Hbuilds.
  destruct (run_with_run repr str_build self1 helper w1) as [Hpart Hrun].
  rewrite Hbuilds in Hpart, Hrun. fold targets with_build without_build in Hpart, Hrun.
  eexists _, _. split; [exact Hpart|].
  unfold TestingFarmHandler.run. rewrite (bind_Ok _ _ _ _ _ Hdb). cbv beta iota.
  fold helper. rewrite (bind_Ok _ _ _ _ _ Hrun). split; [reflexivity|].
  erewrite since_app; [|by rewrite trace_emit_all, Htr, <- app_assoc].
  destruct (backstage_hidden es0 Hback) as (B1 & B2 & B3 & B4).
  destruct (observed_queries self1 targets) as (Q1 & Q2 & Q3 & Q4).
  destruct (observed_build self1 helper without_build) as (T1 & T2 & T3 & T4).
  destruct (observed_tests with_build) as (R1 & R2 & R3 & R4).
  unfold build_jobs, test_jobs, notifications, lookups in *.
  rewrite !omap_app.
  rewrite B1, B2, B3, B4, Q1, Q2, Q3, T2, T3, T4, R1, R2, R3, R4.
  cbn [app]. by rewrite !app_nil_r.
Qed.

End observed.

(** ** The partition, read as sets *)

Lemma elem_of_with_build_of (find : string → option CoprBuildModel) (targets : list string)
    (t : string) (b : CoprBuildModel) :
  (t, b) ∈ with_build_of find targets ↔ t ∈ targets ∧ find t = Some b.
Proof.
  unfold with_build_of. rewrite list_elem_of_omap. split.
  - intros (t' & Ht & H). destruct (find t') as [b'|] eqn:Hf; [|done].
    cbn in H. by simplify_eq.
  - intros [Ht Hf]. exists t. by rewrite Hf.
Qed.

Lemma elem_of_without_build_of (find : string → option CoprBuildModel)
    (targets : list string) (t : string) :
  t ∈ without_build_of find targets ↔ t ∈ targets ∧ find t = None.
Proof. unfold without_build_of. by rewrite list_elem_of_filter, (comm and). Qed.

Lemma partition_covers (find : string → option CoprBuildModel) (targets : list string)
    (t : string) :
  t ∈ targets ↔
  t ∈ (with_build_of find targets).*1 ∨ t ∈ without_build_of find targets.
Proof.
  rewrite with_build_of_keys, list_elem_of_filter, elem_of_without_build_of.
  destruct (find t) as [b|] eqn:Hf.
  - split; [eauto|]. by intros [[_ ?] | [? _]].
  - split; [eauto|]. by intros [[_ ?] | [? _]].
Qed.

Lemma partition_disjoint (find : string → option CoprBuildModel) (targets : list string)
    (t : string) :
  t ∈ (with_build_of find targets).*1 → t ∉ without_build_of find targets.
Proof.
  rewrite with_build_of_keys, list_elem_of_filter, elem_of_without_build_of.
  intros [[b Hb] _] [_ Hn]. congruence.
Qed.

Lemma partition_lengths (find : string → option CoprBuildModel) (targets : list string) :
  length (with_build_of find targets) + length (without_build_of find targets)
  = length targets.
Proof.
  unfold with_build_of, without_build_of.
  induction targets as [|t ts IH]; [done|].
  rewrite filter_cons. cbn [omap list_omap].
  destruct (find t); cbn [fmap option_fmap option_map].
  - rewrite decide_False by done. cbn. lia.
  - rewrite decide_True by done. cbn. lia.
Qed.

Lemma elem_of_tests_of (with_build : list (string * CoprBuildModel))
    (t : string) (b : CoprBuildModel) :
  (b, t) ∈ tests_of with_build ↔ (t, b) ∈ with_build ∧ succeeded b = true.
Proof.
  unfold tests_of. rewrite list_elem_of_omap. split.
  - intros ([t' b'] & Hin & H). cbn in H. destruct (succeeded b') eqn:Hs; [|done].
    by simplify_eq.
  - intros [Hin Hs]. exists (t, b). cbn. by rewrite Hs.
Qed.

Lemma tests_of_all (with_build : list (string * CoprBuildModel)) :
  (∀ t b, (t, b) ∈ with_build → succeeded b = true) →
  length (tests_of with_build) = length with_build.
Proof.
  unfold tests_of. induction with_build as [|[t b] l IH]; intros H; [done|].
  cbn. rewrite (H t b) by left. cbn. rewrite IH; [done|].
  intros t' b' Hin. apply (H t' b'). by right.
Qed.

Lemma elem_of_skipped_of (with_build : list (string * CoprBuildModel)) (t : string) :
  t ∈ skipped_of with_build ↔ ∃ b, (t, b) ∈ with_build ∧ succeeded b = false.
Proof.
  unfold skipped_of. rewrite list_elem_of_omap. split.
  - intros ([t' b'] & Hin & H). cbn in H. destruct (succeeded b') eqn:Hs; [done|].
    simplify_eq. eauto.
  - intros (b & Hin & Hs). exists (t, b). cbn. by rewrite Hs.
Qed.

Lemma elem_of_failures_of (helper : TestingFarmJobHelper)
    (with_build : list (string * CoprBuildModel)) (t : string) (v : value) :
  (t, v) ∈ failures_of helper with_build ↔
  ∃ b, (t, b) ∈ with_build ∧ succeeded b = true ∧
       success (testing_farm helper b t) = false ∧
       v = VDict (details (testing_farm helper b t)).
Proof.
  unfold failures_of. rewrite list_elem_of_omap. split.
  - intros ([t' b'] & Hin & H). cbn in H.
    destruct (succeeded b') eqn:Hs; [|done].
    destruct (success (testing_farm helper b' t')) eqn:Hr; [done|].
    cbn in H. simplify_eq. eauto.
  - intros (b & Hin & Hs & Hr & ->). exists (t, b). cbn. by rewrite Hs, Hr.
Qed.

Lemma failures_of_keys (helper : TestingFarmJobHelper)
    (with_build : list (string * CoprBuildModel)) :
  NoDup with_build.*1 → NoDup (failures_of helper with_build).*1.
Proof.
  unfold failures_of. induction with_build as [|[t b] l IH]; intros Hnd; [constructor|].
  cbn in Hnd. apply NoDup_cons in Hnd as [Ht Hnd].
  cbn [omap list_omap fst snd].
  destruct (succeeded b && negb (success (testing_farm helper b t))); [|by apply IH].
  cbn. apply NoDup_cons. split; [|by apply IH].
  intros ([t' v] & -> & ([t'' b''] & Hin & H)%list_elem_of_omap)%list_elem_of_fmap.
  apply Ht. apply list_elem_of_fmap. exists (t'', b''). split; [|done].
  cbn in *. by destruct (_ && _); simplify_eq.
Qed.

(** ** [dict.update] *)

Lemma update_lookup_fresh (d : gmap string value) (other : list (string * value)) (k : string) :
  k ∉ other.*1 → update d other !! k = d !! k.
Proof.
  revert d. induction other as [|[k' v'] l IH]; intros d Hk; [done|].
  cbn in Hk. apply not_elem_of_cons in Hk as [Hne Hk].
  unfold update in *. cbn. rewrite IH by done. by rewrite lookup_insert_ne.
Qed.

Lemma update_lookup (d : gmap string value) (other : list (string * value))
    (k : string) (v : value) :
  NoDup other.*1 → (k, v) ∈ other → update d other !! k = Some v.
Proof.
  revert d. induction other as [|[k' v'] l IH]; intros d Hnd Hin.
  - by apply elem_of_nil in Hin.
  - cbn in Hnd. apply NoDup_cons in Hnd as [Hk' Hnd].
    apply elem_of_cons in Hin as [Heq | Hin].
    + injection Heq as -> ->. unfold update. cbn. fold (update (<[k':=v']> d) l).
      rewrite update_lookup_fresh by done. apply lookup_insert_eq.
    + unfold update. cbn. by apply IH.
Qed.

(** ** [TestingFarmHandler.run] *)


(** The partition when every target finds the same build, or none. *)
Lemma with_build_of_const (find : string → option CoprBuildModel)
    (o : option CoprBuildModel) (targets : list string) :
  (∀ t, find t = o) →
  with_build_of find targets =
    match o with Some b => (λ t, (t, b)) <$> targets | None => [] end ∧
  without_build_of find targets = match o with Some _ => [] | None => targets end.
Proof.
  intros Hfind. unfold with_build_of, without_build_of.
  induction targets as [|t ts [IH1 IH2]]; [by destruct o|].
  cbn [omap list_omap]. rewrite filter_cons, IH1, IH2, Hfind.
  destruct o as [b|]; cbn.
  - by rewrite decide_False.
  - by rewrite decide_True.
Qed.

Lemma tests_of_const (b : CoprBuildModel) (targets : list string) :
  tests_of ((λ t, (t, b)) <$> targets) =
    (if succeeded b then (λ t, (b, t)) <$> targets else []) ∧
  skipped_of ((λ t, (t, b)) <$> targets) = (if succeeded b then [] else targets).
Proof.
  unfold tests_of, skipped_of.
  induction targets as [|t ts [IH1 IH2]]; [by destruct (succeeded b)|].
  cbn [fmap list_fmap omap list_omap fst snd]. rewrite IH1, IH2.
  by destruct (succeeded b).
Qed.

Section reconciliation.

Variable new_helper :
  option AbstractTriggerDbType → option (gset string) → TestingFarmJobHelper.
Variable repr : list string → string.
Variable str_build : CoprBuildModel → string.

(** C2: once the trigger is resolved, the loop of [TestingFarmHandler.run]
    splits the targets into those with a build and those without: every
    target is in one of the two parts and none in both; one build job is
    enqueued if some target has no build and none otherwise; the test jobs
    submitted are those of the targets whose build succeeded, one each; so
    when every target has a succeeded build no build job and as many test
    jobs as targets are submitted. *)
Theorem run_partitions_targets (self self1 : TestingFarmHandler.t) (w w1 : World)
    (trigger : option AbstractTriggerDbType) :
  TestingFarmHandler.db_trigger self w = (Ok (trigger, self1), w1) →
  let helper := new_helper trigger (TestingFarmHandler.override self1) in
  ∃ with_build without_build wp r w2,
    for_each (elements (tests_targets helper))
      (TestingFarmHandler.partition_step self1 helper) ([], []) w1
      = (Ok (with_build, without_build), wp) ∧
    TestingFarmHandler.run new_helper repr str_build self w = (Ok (r, self1), w2) ∧
    (∀ t, t ∈ tests_targets helper ↔ t ∈ with_build.*1 ∨ t ∈ without_build) ∧
    (∀ t, t ∈ with_build.*1 → t ∉ without_build) ∧
    NoDup with_build.*1 ∧ NoDup without_build ∧
    length (build_jobs (since w w2)) = (if bool_decide (without_build = []) then 0 else 1) ∧
    test_jobs (since w w2) = tests_of with_build ∧
    (without_build = [] → (∀ t b, (t, b) ∈ with_build → succeeded b = true) →
     build_jobs (since w w2) = [] ∧
     length (test_jobs (since w w2)) = size (tests_targets helper)).
Proof.
  intros Hdb helper.
  destruct (run_resolved new_helper repr str_build self self1 w w1 trigger Hdb)
    as (wp & w2 & Hpart & Hrun & Hjobs & Htests & _).
  fold helper in Hpart, Hrun, Hjobs, Htests.
  set (find := existing_build self1 helper (copr_builds w)) in *.
  set (targets := elements (tests_targets helper)) in *.
  pose proof (NoDup_elements (tests_targets helper)) as Hnd. fold targets in Hnd.
  destruct (observed_build repr self1 helper (without_build_of find targets)) as (Hb & _).
  rewrite Hb in Hjobs.
  eexists _, _, wp, _, w2. split; [exact Hpart|]. split; [exact Hrun|].
  split; [|split; [|split; [|split; [|split; [|split]]]]].
  - intros t. rewrite <- partition_covers. unfold targets. by rewrite elem_of_elements.
  - apply partition_disjoint.
  - by apply with_build_of_NoDup.
  - by apply NoDup_filter.
  - rewrite Hjobs. by destruct (without_build_of find targets).
  - exact Htests.
  - intros Hnone Hall. rewrite Hjobs, Hnone. split; [done|].
    rewrite Htests, (tests_of_all _ Hall).
    pose proof (partition_lengths find targets) as Hlen. rewrite Hnone in Hlen.
    cbn in Hlen. rewrite Nat.add_0_r in Hlen. by rewrite Hlen.
Qed.


(** C4 (as amended): [run] succeeds exactly when every test it submitted
    succeeded.  A target whose build did not succeed gets a failure
    notification and no test, and by the above does not make the result
    fail.  Every test that fails is found in the details under its target,
    with [success] false; and unless a failed target is itself named "msg",
    the details hold under "msg" a message that ends with the failed
    targets. *)
Theorem run_outcome (self self1 : TestingFarmHandler.t) (w w1 : World)
    (trigger : option AbstractTriggerDbType) :
  TestingFarmHandler.db_trigger self w = (Ok (trigger, self1), w1) →
  let helper := new_helper trigger (TestingFarmHandler.override self1) in
  ∃ with_build without_build wp r w2,
    for_each (elements (tests_targets helper))
      (TestingFarmHandler.partition_step self1 helper) ([], []) w1
      = (Ok (with_build, without_build), wp) ∧
    TestingFarmHandler.run new_helper repr str_build self w = (Ok (r, self1), w2) ∧
    (success r = true ↔
     ∀ b t, (b, t) ∈ test_jobs (since w w2) → success (testing_farm helper b t) = true) ∧
    (∀ t b, (t, b) ∈ with_build → succeeded b = false →
       (BaseCommitStatus.failure, t) ∈ notifications (since w w2) ∧
       ∀ b', (b', t) ∉ test_jobs (since w w2)) ∧
    (∀ b t, (b, t) ∈ test_jobs (since w w2) →
       success (testing_farm helper b t) = false →
       success r = false ∧
       details r !! t = Some (VDict (details (testing_farm helper b t)))) ∧
    (success r = false →
     ∃ before failed_targets,
       (∀ t, t ∈ failed_targets ↔
             ∃ b, (b, t) ∈ test_jobs (since w w2) ∧
                  success (testing_farm helper b t) = false) ∧
       ("msg" ∉ failed_targets →
        details r !! "msg" =
          Some (VStr (before +:+ "Failed testing farm targets: 'dict_keys("
                      +:+ repr failed_targets +:+ ")'.")))).
Proof.
  intros Hdb helper.
  destruct (run_resolved new_helper repr str_build self self1 w w1 trigger Hdb)
    as (wp & w2 & Hpart & Hrun & _ & Htests & Hnotes & _).
  fold helper in Hpart, Hrun, Htests, Hnotes.
  set (find := existing_build self1 helper (copr_builds w)) in *.
  set (targets := elements (tests_targets helper)) in *.
  set (with_build := with_build_of find targets) in *.
  set (without_build := without_build_of find targets) in *.
  assert (NoDup with_build.*1) as Hnd by apply with_build_of_NoDup, NoDup_elements.
  set (failed := failures_of helper with_build) in *.
  assert (NoDup failed.*1) as Hndf by by apply failures_of_keys.
  assert (∀ t, t ∈ failed.*1 ↔
               ∃ b, (b, t) ∈ tests_of with_build ∧
                    success (testing_farm helper b t) = false) as Hfailed.
  { intros t. rewrite list_elem_of_fmap. split.
    - intros ([t' v] & -> & (b & Hin & Hs & Hr & _)%elem_of_failures_of).
      exists b. by rewrite elem_of_tests_of.
    - intros (b & [Hin Hs]%elem_of_tests_of & Hr).
      exists (t, VDict (details (testing_farm helper b t))). split; [done|].
      apply elem_of_failures_of. eauto. }
  assert (success (TestingFarmHandler.conclude repr failed (build_details repr without_build))
          = negb (truthy failed)) as Hsucc.
  { unfold TestingFarmHandler.conclude. by destruct (negb (truthy failed)). }
  eexists with_build, without_build, wp, _, w2.
  split; [exact Hpart|]. split; [exact Hrun|]. rewrite Htests, Hsucc.
  split; [|split; [|split]].
  - split.
    + intros Hf b t Hin. destruct (success (testing_farm helper b t)) eqn:Hr; [done|].
      assert (t ∈ failed.*1) as Ht by (apply Hfailed; eauto).
      destruct failed; [by apply elem_of_nil in Ht|done].
    + intros Hall. destruct failed as [|[t v] l] eqn:Hf; [done|].
      destruct (proj1 (Hfailed t) ltac:(left)) as (b & Hin & Hr).
      by rewrite (Hall b t Hin) in Hr.
  - intros t b Hin Hs. split.
    + rewrite Hnotes. apply elem_of_app. right. apply list_elem_of_fmap.
      exists t. split; [done|]. apply elem_of_skipped_of. eauto.
    + intros b' [Hin' Hs']%elem_of_tests_of.
      apply elem_of_with_build_of in Hin as [_ Hin], Hin' as [_ Hin'].
      congruence.
  - intros b t Hin Hr.
    assert ((t, VDict (details (testing_farm helper b t))) ∈ failed) as Hf.
    { apply elem_of_tests_of in Hin as [Hin Hs]. apply elem_of_failures_of. eauto. }
    split; [by destruct failed; [apply elem_of_nil in Hf|]|].
    unfold TestingFarmHandler.conclude. destruct (negb (truthy failed)) eqn:Hn.
    + destruct failed; [by apply elem_of_nil in Hf|done].
    + cbn [details]. by apply update_lookup.
  - intros Hn. eexists (TestingFarmHandler.msg_of (build_details repr without_build)), failed.*1.
    split; [exact Hfailed|]. intros Hmsg.
    unfold TestingFarmHandler.conclude. rewrite Hn. cbn [details].
    rewrite update_lookup_fresh by done. apply lookup_insert_eq.
Qed.

(** C6: when [build_id] is set (as [run] tests it: [if self.build_id]), the
    per-target lookup [get_latest_copr_build] is not called at all, whether
    [run] returns or raises; and the build stored under that id is the build
    of every target.  If there is such a build, the partition pairs each
    target with it and leaves no target without a build, [run] enqueues no
    build job and, if the build succeeded, submits one test per target with
    that build, else notifies each target of the failure.  If there is none,
    every target is without a build: each is notified as pending, one build
    job carries them all, and no test is submitted. *)
Theorem build_id_bypasses_lookup (self : TestingFarmHandler.t) (w : World) :
  truthy (TestingFarmHandler.build_id self) = true →
  lookups (since w (TestingFarmHandler.run new_helper repr str_build self w).2) = [] ∧
  ∀ trigger self1 w1,
    TestingFarmHandler.db_trigger self w = (Ok (trigger, self1), w1) →
    let helper := new_helper trigger (TestingFarmHandler.override self1) in
    let targets := elements (tests_targets helper) in
    let build := copr_builds w !! default 0%Z (TestingFarmHandler.build_id self) in
    ∃ wp r w2,
      for_each targets (TestingFarmHandler.partition_step self1 helper) ([], []) w1
        = (Ok (match build with Some b => (λ t, (t, b)) <$> targets | None => [] end,
               match build with Some _ => [] | None => targets end), wp) ∧
      TestingFarmHandler.run new_helper repr str_build self w = (Ok (r, self1), w2) ∧
      match build with
      | Some b =>
          build_jobs (since w w2) = [] ∧
          test_jobs (since w w2) =
            (if succeeded b then (λ t, (b, t)) <$> targets else []) ∧
          notifications (since w w2) =
            (if succeeded b then []
             else (λ t, (BaseCommitStatus.failure, t)) <$> targets)
      | None =>
          test_jobs (since w w2) = [] ∧
          notifications (since w w2) =
            (λ t, (BaseCommitStatus.pending, t)) <$> targets ∧
          (targets ≠ [] →
           ∃ job, build_jobs (since w w2) = [job] ∧
                  kw_event job !! "targets_override" = Some (VList targets))
      end.
Proof.
  intros Hid. split.
  - destruct (TestingFarmHandler.db_trigger self w) as [[[trigger self1]|e] w1] eqn:Hdb.
    + destruct (run_resolved new_helper repr str_build self self1 w w1 trigger Hdb)
        as (wp & w2 & _ & Hrun & _ & _ & _ & Hlook).
      rewrite Hrun. cbn [snd]. rewrite Hlook.
      destruct (observed_queries self1
                  (elements (tests_targets
                     (new_helper trigger (TestingFarmHandler.override self1)))))
        as (_ & _ & _ & ->).
      by rewrite (db_trigger_build_id _ _ _ _ _ Hdb), Hid.
    + unfold TestingFarmHandler.run. rewrite (bind_Raise _ _ _ _ _ Hdb). cbn [snd].
      destruct (quiet_db_trigger self w) as (es0 & Htr & Hback & _).
      rewrite Hdb in Htr. cbn [snd] in Htr. rewrite (since_app _ _ _ Htr).
      by destruct (backstage_hidden es0 Hback) as (_ & _ & _ & ?).
  - intros trigger self1 w1 Hdb helper targets build.
    destruct (run_resolved new_helper repr str_build self self1 w w1 trigger Hdb)
      as (wp & w2 & Hpart & Hrun & Hjobs & Htests & Hnotes & _).
    fold helper in Hpart, Hrun, Hjobs, Htests, Hnotes.
    fold targets in Hpart, Hrun, Hjobs, Htests, Hnotes.
    pose proof (db_trigger_build_id _ _ _ _ _ Hdb) as Hsame.
    assert (∀ t, existing_build self1 helper (copr_builds w) t = build) as Hfind.
    { intros t. unfold existing_build. by rewrite Hsame, Hid. }
    destruct (with_build_of_const _ build targets Hfind) as [Hwb Hwo].
    clearbody build. clear Hfind.
    destruct build as [b|].
    + rewrite Hwb, Hwo in Hpart, Hrun. rewrite Hwo in Hjobs. rewrite Hwb in Htests.
      rewrite Hwb, Hwo in Hnotes.
      eexists wp, _, w2. split; [exact Hpart|]. split; [exact Hrun|].
      destruct (tests_of_const b targets) as [Ht Hs]. rewrite Ht in Htests.
      rewrite Hs in Hnotes. cbn [fmap list_fmap app] in Hnotes.
      split; [exact Hjobs|]. split; [exact Htests|].
      rewrite Hnotes. by destruct (succeeded b).
    + rewrite Hwb, Hwo in Hpart, Hrun. rewrite Hwo in Hjobs. rewrite Hwb in Htests.
      rewrite Hwb, Hwo in Hnotes.
      eexists wp, _, w2. split; [exact Hpart|]. split; [exact Hrun|].
      split; [exact Htests|]. split; [by rewrite Hnotes, app_nil_r|].
      intros Hne. destruct (observed_build repr self1 helper targets) as (Hb & _).
      rewrite Hb in Hjobs. destruct targets as [|t0 ts] eqn:Hts; [done|].
      eexists. split; [exact Hjobs|]. cbn [kw_event]. by rewrite lookup_insert_eq.
Qed.

End reconciliation.

Lemma run_partitions_targets_witness :
  ∃ r self1 w2,
    TestingFarmHandler.run (λ _ _, mixed_helper) plain_repr plain_str test_comment empty_world
      = (Ok (r, self1), w2) ∧
    length (build_jobs (since empty_world w2)) = 1 ∧
    test_jobs (since empty_world w2) = [(a_build 1 "success", "fedora-33-x86_64")].
Proof.
  destruct (run_partitions_targets (λ _ _, mixed_helper) plain_repr plain_str
              test_comment _ empty_world _ _ eq_refl)
    as (wb & wo & wp & r & w2 & Hpart & Hrun & _ & _ & _ & _ & Hjobs & Htests & _).
  eexists r, _, w2. split; [exact Hrun|].
  vm_compute in Hpart. injection Hpart as <- <- _.
  split; [exact Hjobs|exact Htests].
Defined.


Lemma run_outcome_witness :
  ∃ r self1 w2,
    TestingFarmHandler.run (λ _ _, failing_helper) plain_repr plain_str test_comment
      empty_world = (Ok (r, self1), w2) ∧
    success r = false ∧
    details r !! "fedora-33-x86_64" =
      Some (VDict {[ "msg" := VStr "Failed to submit tests." ]}) ∧
    (BaseCommitStatus.failure, "fedora-rawhide-x86_64") ∈ notifications (since empty_world w2).
Proof.
  destruct (run_outcome (λ _ _, failing_helper) plain_repr plain_str
              test_comment _ empty_world _ _ eq_refl)
    as (wb & wo & wp & r & w2 & Hpart & Hrun & _ & Hskip & Hfail & _).
  vm_compute in Hpart. injection Hpart as <- <- _.
  assert (test_jobs (since empty_world w2) = [(a_build 1 "success", "fedora-33-x86_64")])
    as Htests.
  { replace w2 with
      (TestingFarmHandler.run (λ _ _, failing_helper) plain_repr plain_str test_comment
         empty_world).2 by (by rewrite Hrun).
    reflexivity. }
  eexists r, _, w2. split; [exact Hrun|].
  destruct (Hfail (a_build 1 "success") "fedora-33-x86_64") as [Hs Hd].
  { rewrite Htests. apply list_elem_of_here. }
  { reflexivity. }
  split; [exact Hs|]. split; [exact Hd|].
  apply (Hskip "fedora-rawhide-x86_64" (a_build 2 "failed")); [|reflexivity].
  apply list_elem_of_further, list_elem_of_here.
Defined.

(** The claim as first stated fails when a failed target is named "msg": the
    entry of that target replaces the message in the details. *)
Lemma run_msg_overwritten :
  ∃ r self1 w2,
    TestingFarmHandler.run (λ _ _, msg_helper) plain_repr plain_str test_comment empty_world
      = (Ok (r, self1), w2) ∧
    test_jobs (since empty_world w2) = [(a_build 1 "success", "msg")] ∧
    success (testing_farm msg_helper (a_build 1 "success") "msg") = false ∧
    success r = false ∧
    ¬ ∃ m, details r !! "msg" = Some (VStr m).
Proof.
  destruct (TestingFarmHandler.run _ _ _ _ _) as [o w2] eqn:Hrun.
  vm_compute in Hrun. injection Hrun as <- <-.
  eexists _, _, _. split; [reflexivity|]. split; [reflexivity|]. split; [reflexivity|].
  split; [reflexivity|]. intros [m H]. vm_compute in H. discriminate.
Qed.

Lemma build_id_bypasses_lookup_witness :
  lookups (since world_with_build
             (TestingFarmHandler.run (λ _ _, mixed_helper) plain_repr plain_str
                (build_end 1) world_with_build).2) = [] ∧
  ∃ r self1 w2,
    TestingFarmHandler.run (λ _ _, mixed_helper) plain_repr plain_str
      (build_end 1) world_with_build = (Ok (r, self1), w2) ∧
    build_jobs (since world_with_build w2) = [] ∧
    test_jobs (since world_with_build w2) =
      (λ t, (a_build 1 "success", t)) <$> elements (tests_targets mixed_helper).
Proof.
  destruct (build_id_bypasses_lookup (λ _ _, mixed_helper) plain_repr plain_str
              (build_end 1) world_with_build eq_refl) as [Hlook Hrun].
  split; [exact Hlook|].
  destruct (Hrun _ _ _ eq_refl) as (wp & r & w2 & _ & Hr & Hjobs & Htests & _).
  eexists r, _, w2. split; [exact Hr|]. split; [exact Hjobs|exact Htests].
Defined.

(** ** Comment commands *)

(** ** Tokens *)

Lemma tokens_blank (l : Comment.text) : blank l → Comment.tokens l = [].
Proof. induction 1 as [|c l Hc _ IH]; [done|]. cbn. by rewrite Hc. Qed.

Lemma tokens_blank_app (l s : Comment.text) :
  blank l → Comment.tokens (l ++ s) = Comment.tokens s.
Proof. induction 1 as [|c l Hc _ IH]; [done|]. cbn. by rewrite Hc. Qed.

Lemma tokens_app_blank (s t : Comment.text) :
  blank t → Comment.tokens (s ++ t) = Comment.tokens s.
Proof.
  intros Ht. induction s as [|c s IH].
  - by apply tokens_blank.
  - cbn [app Comment.tokens]. destruct (Ascii.is_space c); [done|].
    destruct s as [|c' s].
    + cbn [app]. destruct Ht as [|c' t Hc' Ht]; [done|].
      rewrite Hc'. f_equal. apply (tokens_blank (c' :: t)). by constructor.
    + cbn [app] in *. by rewrite IH.
Qed.

Lemma tokens_head (c : ascii) (s : Comment.text) :
  Ascii.is_space c = false → Comment.tokens (c :: s) ≠ [].
Proof.
  intros Hc. cbn. rewrite Hc. destruct s as [|c' s]; [done|].
  destruct (Ascii.is_space c'); [done|]. by destruct (Comment.tokens (c' :: s)).
Qed.

Lemma tokens_word_app (w rest : Comment.text) :
  word w → ends_token rest → Comment.tokens (w ++ rest) = w :: Comment.tokens rest.
Proof.
  intros [Hne Hw] Hrest. induction Hw as [|c w Hc Hw IH]; [done|].
  cbn [app Comment.tokens]. rewrite Hc.
  destruct w as [|c2 w].
  - cbn [app]. destruct Hrest as [-> | (c' & rest' & -> & Hc')]; [done|].
    by rewrite Hc'.
  - cbn [app] in *. apply Forall_cons in Hw as Hw'. destruct Hw' as [Hc2 _].
    rewrite Hc2. by rewrite IH.
Qed.

Lemma tokens_inv (s w : Comment.text) (ws : list Comment.text) :
  Comment.tokens s = w :: ws →
  ∃ lead rest, s = lead ++ w ++ rest ∧ blank lead ∧ word w ∧ ends_token rest ∧
               Comment.tokens rest = ws.
Proof.
  revert w ws. induction s as [|c s IH]; intros w ws; [done|].
  cbn [Comment.tokens]. destruct (Ascii.is_space c) eqn:Hc.
  - intros (lead & rest & -> & Hl & Hw & Hr & Ht)%IH.
    exists (c :: lead), rest. split_and!; [done|by constructor|done..].
  - assert (word [c]) as Hword by (split; [done|by constructor]).
    destruct s as [|c' s].
    + intros [= <- <-]. exists [], []. split_and!; [done|constructor|done|by left|done].
    + destruct (Ascii.is_space c') eqn:Hc'.
      * intros [= <- <-]. exists [], (c' :: s).
        split_and!; [done|constructor|done|right; eauto|done].
      * destruct (Comment.tokens (c' :: s)) as [|w2 ws2] eqn:Ht.
        { by apply tokens_head in Ht. }
        intros [= <- <-].
        destruct (IH w2 ws2 eq_refl) as (lead & rest & Hs & Hl & [Hne Hw] & Hr & Ht').
        destruct Hl as [|c0 lead Hc0 Hl].
        -- exists [], rest. cbn [app] in *. rewrite Hs.
           split_and!; [done|constructor| |done|done].
           split; [done|by constructor].
        -- cbn in Hs. injection Hs as <- _. congruence.
Qed.

(** ** Trimming *)

Lemma lstrip_spec (s : Comment.text) : ∃ lead, s = lead ++ Comment.lstrip s ∧ blank lead.
Proof.
  induction s as [|c s (lead & IH & Hl)].
  - exists []. split; [done|constructor].
  - cbn. destruct (Ascii.is_space c) eqn:Hc.
    + exists (c :: lead). split; [by rewrite IH at 1|by constructor].
    + exists []. split; [done|constructor].
Qed.

Lemma strip_spec (s : Comment.text) :
  ∃ lead trail, s = lead ++ Comment.strip s ++ trail ∧ blank lead ∧ blank trail.
Proof.
  destruct (lstrip_spec s) as (lead & Hs & Hl).
  destruct (lstrip_spec (rev (Comment.lstrip s))) as (trail & Hr & Ht).
  exists lead, (rev trail). split; [|split; [done|]].
  - rewrite Hs at 1. f_equal. unfold Comment.strip.
    rewrite <- rev_app_distr, <- Hr. by rewrite rev_involutive.
  - by apply Forall_rev.
Qed.

Lemma tokens_strip (s : Comment.text) :
  Comment.tokens (Comment.strip s) = Comment.tokens s.
Proof.
  destruct (strip_spec s) as (lead & trail & Hs & Hl & Ht).
  rewrite Hs at 2. rewrite tokens_blank_app by done. by rewrite tokens_app_blank.
Qed.

(** ** Lines that qualify *)

Lemma word_packit_mark : word Comment.packit_mark.
Proof. split; [done|]. repeat constructor. Qed.

Lemma command_of_line_sound (known : string → bool) (line : Comment.text)
    (c : Comment.Command) :
  Comment.command_of_line known line = Some c → qualifies known line (Comment.name c).
Proof.
  unfold Comment.command_of_line. rewrite tokens_strip.
  destruct (Comment.tokens line) as [|mark [|cmd args]] eqn:Ht; [done..|].
  destruct (bool_decide (mark = Comment.packit_mark)) eqn:Hm; [|done].
  apply bool_decide_eq_true in Hm as ->.
  destruct (known (string_of_list_ascii cmd)) eqn:Hk; [|done].
  intros [= <-]. cbn [Comment.name].
  apply tokens_inv in Ht as (lead & rest1 & -> & Hl & _ & Hr1 & Ht).
  apply tokens_inv in Ht as (gap & rest & -> & Hg & Hw & Hr & _).
  exists lead, gap, cmd, rest. split_and!; try done.
  intros ->. destruct Hw as [Hne Hw]. destruct Hw as [|c0 cmd Hc0 Hw]; [done|].
  destruct Hr1 as [? | (c' & rest' & [= <- _] & Hc')]; [done|]. congruence.
Qed.

Lemma command_of_line_complete (known : string → bool) (line : Comment.text) (n : string) :
  qualifies known line n →
  ∃ c, Comment.command_of_line known line = Some c ∧ Comment.name c = n.
Proof.
  intros (lead & gap & cmd & rest & -> & Hl & Hg & Hne & Hw & Hr & -> & Hk).
  unfold Comment.command_of_line. rewrite tokens_strip, tokens_blank_app by done.
  rewrite (tokens_word_app _ _ word_packit_mark).
  - rewrite tokens_blank_app by done. rewrite tokens_word_app by done.
    rewrite bool_decide_eq_true_2 by done. rewrite Hk. cbn. eauto.
  - right. destruct Hg as [|c gap Hc Hg]; [done|]. cbn. eauto.
Qed.

Lemma lines_scanned (known : string → bool) (ls : list Comment.text) :
  scanned known ls (Comment.name <$> omap (Comment.command_of_line known) ls).
Proof.
  induction ls as [|line ls IH]; [constructor|].
  cbn [omap list_omap]. destruct (Comment.command_of_line known line) as [c|] eqn:Hc.
  - cbn. apply scanned_hit; [by apply command_of_line_sound|done].
  - apply scanned_miss; [|done].
    intros n (c & Hc' & _)%command_of_line_complete. congruence.
Qed.

(** C7: the commands of a comment are those of its qualifying lines, one for
    each and in line order; a comment none of whose lines qualifies yields no
    command; and the comments of the tests yield what the tests expect. *)
Theorem commands_of_qualifying_lines (known : string → bool) :
  (∀ comment,
     let commands := Comment.get_packit_commands_from_comment known comment in
     let ls := Comment.lines (list_ascii_of_string comment) in
     scanned known ls (Comment.name <$> commands) ∧
     (∀ n, n ∈ Comment.name <$> commands ↔ ∃ line, line ∈ ls ∧ qualifies known line n) ∧
     ((∀ line n, line ∈ ls → ¬ qualifies known line n) → commands = [])) ∧
  Forall (λ comment, Comment.get_packit_commands_from_comment known comment = [])
    [ ""; " "; "   "; "some unrelated";
      "some" +:+ nl +:+ "more" +:+ nl +:+ "unrelated" +:+ nl +:+ "text";
      "even" +:+ nl +:+ "some → unicode"; " stuff"; " " +:+ nl +:+ " "; "x ";
      "comment with embedded /packit build not recognized" +:+ nl +:+
        "        unless /packit command is on line by itself";
      nl +:+ "2nd line" +:+ nl +:+ nl +:+ "4th line";
      "1st line" +:+ nl +:+ tab +:+ nl +:+ tab +:+ tab +:+ nl +:+ "4th line" +:+ nl ] ∧
  (known "build" = true →
   Forall (λ comment,
             Comment.name <$> Comment.get_packit_commands_from_comment known comment
             = ["build"])
     [ "/packit build"; "/packit build "; "/packit  build "; " /packit build";
       " /packit build "; "asd" +:+ nl +:+ "/packit build" +:+ nl;
       "asd" +:+ nl +:+ " /packit build " +:+ nl;
       "Should be fixed now, let's" +:+ nl +:+ " /packit build" +:+ nl +:+ " it." ]).
Proof.
  split; [|split].
  - intros comment commands ls.
    assert (∀ n, n ∈ Comment.name <$> commands ↔ ∃ line, line ∈ ls ∧ qualifies known line n)
      as Hiff.
    { intros n. unfold commands, Comment.get_packit_commands_from_comment. fold ls.
      rewrite list_elem_of_fmap. split.
      - intros (c & -> & (line & Hin & Hc)%list_elem_of_omap).
        exists line. split; [done|]. by apply command_of_line_sound.
      - intros (line & Hin & (c & Hc & <-)%command_of_line_complete).
        exists c. split; [done|]. apply list_elem_of_omap. eauto. }
    split; [apply lines_scanned|]. split; [exact Hiff|].
    intros Hnone. destruct commands as [|c cs] eqn:Hc; [done|].
    destruct (proj1 (Hiff (Comment.name c)) ltac:(left)) as (line & Hin & Hq).
    by destruct (Hnone line (Comment.name c) Hin).
  - do 12 (apply Forall_cons; split; [reflexivity|]). constructor.
  - intros Hk.
    do 8 (apply Forall_cons; split;
            [vm_compute; rewrite Hk; reflexivity|]).
    constructor.
Qed.

Lemma commands_of_qualifying_lines_witness :
  Forall (λ comment,
            Comment.name <$>
              Comment.get_packit_commands_from_comment example_commands comment
            = ["build"])
    [ "/packit build"; "/packit build "; "/packit  build "; " /packit build";
      " /packit build "; "asd" +:+ nl +:+ "/packit build" +:+ nl;
      "asd" +:+ nl +:+ " /packit build " +:+ nl;
      "Should be fixed now, let's" +:+ nl +:+ " /packit build" +:+ nl +:+ " it." ].
Proof.
  exact (proj2 (proj2 (commands_of_qualifying_lines example_commands)) eq_refl).
Defined.

(** * Further properties *)

(** ** Reading a lazy attribute changes the caches only *)

Lemma project_uncached (e e1 : EventData) (v : option GitProject) (w w1 : World) :
  EventData.project e w = (Ok (v, e1), w1) → uncached e1 = uncached e.
Proof. by intros [_ [-> | ->]]%project_read. Qed.

Lemma namespace_and_repo_uncached (e e1 : EventData) (ns rp : string) (w w1 : World) :
  EventData.namespace_and_repo e w = (Ok (ns, rp, e1), w1) → uncached e1 = uncached e.
Proof.
  unfold EventData.namespace_and_repo.
  intros ([p ea] & wa & Ha & H)%bind_inv.
  apply bind_inv in H as (ns' & wb & _ & H).
  apply bind_inv in H as ([p' eb] & wc & Hb & H).
  apply bind_inv in H as (rp' & wd & _ & H).
  injection H as _ _ <- _.
  apply project_uncached in Ha, Hb. congruence.
Qed.

Lemma db_trigger_uncached (e e1 : EventData) (v : option AbstractTriggerDbType)
    (w w1 : World) :
  EventData.db_trigger e w = (Ok (v, e1), w1) → uncached e1 = uncached e.
Proof.
  unfold EventData.db_trigger.
  destruct (negb (truthy (_db_trigger e))); [|by inversion 1].
  repeat match goal with
         | |- context [if EventData.is_in ?o ?l then _ else _] =>
             destruct (EventData.is_in o l)
         end;
    intros (x & w' & Hx & H)%bind_inv;
    lazymatch type of x with
    | unit => by injection H as _ <- _
    | _ => destruct x as [[ns rp] self]; apply bind_inv in H as (t & w'' & _ & H);
           injection H as _ <- _; by apply namespace_and_repo_uncached in Hx as <-
    end.
Qed.

(** Reading the trigger of the handler changes nothing of it but the caches. *)
Lemma handler_db_trigger_same (self self1 : TestingFarmHandler.t)
    (x : option AbstractTriggerDbType) (w w1 : World) :
  TestingFarmHandler.db_trigger self w = (Ok (x, self1), w1) →
  uncached (TestingFarmHandler.data self1) = uncached (TestingFarmHandler.data self) ∧
  TestingFarmHandler.package_config self1 = TestingFarmHandler.package_config self ∧
  TestingFarmHandler.job_config self1 = TestingFarmHandler.job_config self ∧
  TestingFarmHandler.chroot self1 = TestingFarmHandler.chroot self ∧
  TestingFarmHandler.build_id self1 = TestingFarmHandler.build_id self.
Proof.
  unfold TestingFarmHandler.db_trigger.
  destruct (negb _); [|by inversion 1].
  destruct (truthy (TestingFarmHandler.build_id self)).
  - intros (b & w' & _ & (y & w'' & _ & H)%bind_inv)%bind_inv. by inversion H.
  - intros ([y d] & w' & Hd & H)%bind_inv. apply db_trigger_uncached in Hd.
    by inversion H.
Qed.

Lemma get_dict_uncached (e : EventData) : EventData.get_dict (uncached e) = EventData.get_dict e.
Proof.
  unfold EventData.get_dict, EventData.__dict__, uncached.
  destruct (truthy (targets_override e)) eqn:Ht; cbn; rewrite Ht; reflexivity.
Qed.

(** X1: reading [project] or [db_trigger] changes no attribute of the event
    data but the two caches, and [get_dict] yields the same dictionary before
    and after the read. *)
Theorem reads_keep_get_dict (e : EventData) (w : World) :
  (∀ v e1 w1, EventData.project e w = (Ok (v, e1), w1) →
              uncached e1 = uncached e ∧ EventData.get_dict e1 = EventData.get_dict e) ∧
  (∀ v e1 w1, EventData.db_trigger e w = (Ok (v, e1), w1) →
              uncached e1 = uncached e ∧ EventData.get_dict e1 = EventData.get_dict e).
Proof.
  split; intros v e1 w1 H.
  - apply project_uncached in H. split; [done|].
    by rewrite <- (get_dict_uncached e1), H, get_dict_uncached.
  - apply db_trigger_uncached in H. split; [done|].
    by rewrite <- (get_dict_uncached e1), H, get_dict_uncached.
Qed.

Lemma reads_keep_get_dict_witness :
  EventData.get_dict (EventData.set__project (Some hello_world) (comment_event None None))
  = EventData.get_dict (comment_event None None).
Proof.
  refine (proj2 (proj1 (reads_keep_get_dict (comment_event None None) empty_world)
                   (Some hello_world) _ _ _)).
  reflexivity.
Defined.

(** X2: an event without a project url has no project: every read of
    [project] gives [None], asks the forge nothing and leaves the object as
    it is. *)
Theorem project_without_url (e : EventData) (w : World) :
  _project e = None →
  truthy (project_url e) = false →
  EventData.project e w = (Ok (None, e), w).
Proof.
  intros Hp Hu. unfold EventData.project, EventData.get_project. rewrite Hp.
  cbn [truthy truthy_option negb].
  destruct (project_url e) as [url|] eqn:Hurl.
  - cbn in Hu. rewrite Hu. cbn. destruct e; cbn in *; by subst.
  - cbn. destruct e; cbn in *; by subst.
Qed.

Lemma project_without_url_witness :
  EventData.project (EventData.from_event_dict ∅) empty_world
  = (Ok (None, EventData.from_event_dict ∅), empty_world).
Proof. apply project_without_url; reflexivity. Defined.

(** X3: for an event of a kind that has a trigger table, [db_trigger] cannot
    do without the project: if the project resolves to [None], it raises
    [AttributeError] on reading [namespace], and no trigger is looked up or
    created. *)
Theorem db_trigger_without_project (e e1 : EventData) (w w1 : World) (kind : string) :
  _db_trigger e = None →
  event_type e = Some kind →
  kind ∈ EventData.pull_request_events ++ EventData.branch_events
         ++ EventData.release_events ++ EventData.issue_events →
  EventData.project e w = (Ok (None, e1), w1) →
  EventData.db_trigger e w =
  (Raise (AttributeError "'NoneType' object has no attribute 'namespace'"), w1).
Proof.
  intros Hnone Hkind Hin Hproj.
  assert (EventData.namespace_and_repo e w =
          (Raise (AttributeError "'NoneType' object has no attribute 'namespace'"), w1))
    as Hnr.
  { unfold EventData.namespace_and_repo. by rewrite (bind_Ok _ _ _ _ _ Hproj). }
  unfold EventData.db_trigger. rewrite Hnone, Hkind. cbn [truthy truthy_option negb].
  unfold EventData.pull_request_events, EventData.branch_events, EventData.release_events,
    EventData.issue_events in Hin. cbn [app] in Hin.
  each_kind Hin; decide_kind; cbv iota; by rewrite (bind_Raise _ _ _ _ _ Hnr).
Qed.

Lemma db_trigger_without_project_witness :
  EventData.db_trigger
    (EventData.__init__ (Some "PushGitHubEvent") None None None None (Some "main") None
       (Some "12345") None None None None None) empty_world
  = (Raise (AttributeError "'NoneType' object has no attribute 'namespace'"), empty_world).
Proof.
  eapply db_trigger_without_project; [reflexivity|reflexivity| |reflexivity].
  do 7 apply list_elem_of_further. apply list_elem_of_here.
Defined.

(** X4: an event of any other kind has no trigger: [db_trigger] logs one
    warning and returns [None]; it asks neither the forge nor the database
    and leaves the object as it is. *)
Theorem db_trigger_unknown_kind (e : EventData) (w : World) :
  _db_trigger e = None →
  (∀ kind, event_type e = Some kind →
           kind ∉ EventData.pull_request_events ++ EventData.branch_events
                  ++ EventData.release_events ++ EventData.issue_events) →
  EventData.db_trigger e w =
  (Ok (None, e),
   emit (Log WARNING "We don't know, what to search in the database for this event data.") w).
Proof.
  intros Hnone Hkind.
  assert (∀ l, l ⊆ EventData.pull_request_events ++ EventData.branch_events
                   ++ EventData.release_events ++ EventData.issue_events →
               EventData.is_in (event_type e) l = false) as Hout.
  { intros l Hl. unfold EventData.is_in. destruct (event_type e) as [kind|]; [|done].
    apply bool_decide_eq_false. intros Hin. by apply (Hkind kind eq_refl), Hl. }
  unfold EventData.db_trigger. rewrite Hnone. cbn [truthy truthy_option negb].
  rewrite !Hout.
  - reflexivity.
  - intros k Hk. rewrite !elem_of_app. auto.
  - intros k Hk. rewrite !elem_of_app. auto.
  - intros k Hk. rewrite !elem_of_app. auto.
  - intros k Hk. rewrite !elem_of_app. auto.
Qed.

Lemma db_trigger_unknown_kind_witness :
  EventData.db_trigger (EventData.from_event_dict ∅) empty_world =
  (Ok (None, EventData.from_event_dict ∅),
   emit (Log WARNING "We don't know, what to search in the database for this event data.")
     empty_world).
Proof. apply db_trigger_unknown_kind; [reflexivity|discriminate]. Defined.

(** What a read of [project] adds to the trace: nothing, or one question to
    the forge. *)
Lemma project_effects (e e1 : EventData) (v : option GitProject) (w w1 : World) :
  EventData.project e w = (Ok (v, e1), w1) →
  since w w1 = [] ∨ ∃ url, since w w1 = [ServiceConfig_get_project url].
Proof.
  unfold EventData.project, EventData.get_project, get_project_of_service.
  destruct (negb (truthy (_project e))).
  - destruct (project_url e) as [url|].
    + destruct (negb (truthy url)).
      * intros [= _ _ <-]. left. apply since_app. by rewrite app_nil_r.
      * intros [= _ _ <-]. right. exists url. by apply since_app.
    + intros [= _ _ <-]. left. apply since_app. by rewrite app_nil_r.
  - intros [= _ _ <-]. left. apply since_app. by rewrite app_nil_r.
Qed.

Lemma since_trans (w w1 w2 : World) (es es' : list Effect) :
  trace w1 = trace w ++ es → trace w2 = trace w1 ++ es' → since w w2 = es ++ es'.
Proof. intros H1 H2. apply since_app. by rewrite H2, H1, app_assoc. Qed.

Lemma since_trace (w w1 : World) (es : list Effect) :
  (∃ es0, trace w1 = trace w ++ es0) → since w w1 = es → trace w1 = trace w ++ es.
Proof. intros [es0 H] <-. by rewrite (since_app _ _ _ H). Qed.

Lemma project_grows (e : EventData) (w : World) :
  ∃ es, trace (EventData.project e w).2 = trace w ++ es.
Proof. destruct (quiet_project e w) as (es & H & _). eauto. Qed.

(** X5: a read of [db_trigger] that resolves a trigger makes one upsert on
    the trigger tables and asks the forge at most once, although it reads
    [self.project] twice. *)
Theorem db_trigger_calls (e e1 : EventData) (t : AbstractTriggerDbType) (w w1 : World) :
  _db_trigger e = None →
  EventData.db_trigger e w = (Ok (Some t, e1), w1) →
  length (db_calls (since w w1)) = 1 ∧ length (forge_calls (since w w1)) ≤ 1.
Proof.
  intros Hnone. unfold EventData.db_trigger. rewrite Hnone.
  cbn [truthy truthy_option negb].
  assert (∀ c (f : EventData → EventData),
    (x ← EventData.namespace_and_repo e;
     let '(ns, rp, self) := x in
     t' ← get_or_create (c ns rp self);
     mret (_db_trigger (EventData.set__db_trigger (Some t') (f self)),
           EventData.set__db_trigger (Some t') (f self))) w = (Ok (Some t, e1), w1) →
    length (db_calls (since w w1)) = 1 ∧ length (forge_calls (since w w1)) ≤ 1) as Hcase.
  { intros c f ([[ns rp] self] & wa & Hnr & H)%bind_inv.
    apply bind_inv in H as (t' & wb & Hgc & Hret).
    unfold mret, M_ret in Hret. injection Hret as _ _ <-.
    unfold EventData.namespace_and_repo in Hnr.
    apply bind_inv in Hnr as ([p ea] & w2 & Hp1 & Hnr).
    apply bind_inv in Hnr as (ns' & w3 & Hns & Hnr).
    apply bind_inv in Hnr as ([p' eb] & w4 & Hp2 & Hnr).
    apply bind_inv in Hnr as (rp' & w5 & Hrp & Hnr).
    destruct p as [p|]; [|done]. injection Hns as _ <-.
    destruct p' as [p'|]; [|done]. injection Hrp as _ <-.
    injection Hnr as _ _ _ <-.
    pose proof (project_read _ _ _ _ _ Hp1) as [Hc _].
    rewrite (project_cached ea p w2 Hc) in Hp2. injection Hp2 as _ _ <-.
    assert (trace wb = trace w2 ++ [Db (c ns rp self)]) as Hdb.
    { unfold get_or_create in Hgc. destruct (find _ _); by injection Hgc as _ <-. }
    destruct (project_grows e w) as [es0 Hgrow]. rewrite Hp1 in Hgrow. cbn [snd] in Hgrow.
    destruct (project_effects _ _ _ _ _ Hp1) as [Hes | [url Hes]];
      apply (since_trace _ _ _ (ex_intro _ es0 Hgrow)) in Hes;
      rewrite (since_trans _ _ _ _ _ Hes Hdb); cbn; split; lia. }
  repeat match goal with
         | |- context [if EventData.is_in ?o ?l then _ else _] =>
             destruct (EventData.is_in o l)
         end.
  - apply (Hcase (λ ns rp self, PullRequestModel_get_or_create
                                  (pr_id self) ns rp (project_url self)) id).
  - apply (Hcase (λ ns rp self, GitBranchModel_get_or_create
                                  (git_ref self) ns rp (project_url self)) id).
  - apply (Hcase (λ ns rp self, ProjectReleaseModel_get_or_create
                                  (tag_name self) ns rp (project_url self)
                                  (commit_sha self)) id).
  - apply (Hcase (λ ns rp self, IssueModel_get_or_create
                                  (issue_id self) ns rp (project_url self)) id).
  - by intros [= ].
Qed.

Lemma db_trigger_calls_witness :
  length (db_calls (since empty_world
                      (EventData.db_trigger (comment_event None None) empty_world).2)) = 1 ∧
  length (forge_calls (since empty_world
                         (EventData.db_trigger (comment_event None None) empty_world).2)) ≤ 1.
Proof.
  refine (db_trigger_calls (comment_event None None) _ _ empty_world _ eq_refl _).
  reflexivity.
Defined.

(** ** Objects built by the constructor *)

Lemma truthy_nonempty (s : gset string) : s ≠ ∅ → truthy s = true.
Proof. intros H. unfold truthy, truthy_gset. by rewrite bool_decide_eq_false_2. Qed.

(** X6: the constructor never stores an empty target override: whatever list
    it is given, [targets_override] is [None] or a non-empty set, both caches
    are empty, and [get_dict] writes the override as [None] or as a
    non-empty list. *)
Theorem init_targets_override
    (event_type user_login : option string) (trigger_id : option Z)
    (project_url tag_name git_ref : option string) (pr_id : option Z)
    (commit_sha identifier : option string) (event_dict : option (gmap string value))
    (issue_id : option Z) (task_accepted_time : option datetime)
    (targets : option (list string)) :
  let e := EventData.__init__ event_type user_login trigger_id project_url tag_name git_ref
             pr_id commit_sha identifier event_dict issue_id task_accepted_time targets in
  (targets_override e = None ∨ ∃ s, targets_override e = Some s ∧ s ≠ ∅) ∧
  (targets_override e = None ↔ targets = None ∨ targets = Some []) ∧
  _project e = None ∧ _db_trigger e = None ∧
  (get "targets_override" (EventData.get_dict e) = VNone ∨
   ∃ l, l ≠ [] ∧ get "targets_override" (EventData.get_dict e) = VList l).
Proof.
  intros e.
  destruct (get_dict_lookup e) as (_ & _ & _ & _ & _ & _ & _ & _ & _ & _ & _ & _ & H & _).
  rewrite H. subst e. cbn [targets_override _project _db_trigger EventData.__init__].
  destruct targets as [[|x l]|]; cbn.
  - split; [by left|]. split; [by split; auto|]. split; [done|]. split; [done|]. by left.
  - assert (({[x]} ∪ list_to_set l : gset string) ≠ ∅) as Hne by set_solver.
    split; [right; eauto|]. split; [by split; [|intros [|]]|]. split; [done|].
    split; [done|]. right. rewrite (truthy_nonempty _ Hne).
    exists (elements ({[x]} ∪ list_to_set l : gset string)). split; [|done].
    intros He. apply elements_empty_inv, leibniz_equiv in He. by apply Hne.
  - split; [by left|]. split; [by split; auto|]. split; [done|]. split; [done|]. by left.
Qed.

Lemma quot_fromtimestamp (n : Z) : int_timestamp (fromtimestamp n) = n.
Proof. unfold int_timestamp, fromtimestamp. cbn. by apply Z.quot_mul. Qed.

Lemma from_event_dict_lazy_free (d : gmap string value) :
  task_accepted_time (EventData.from_event_dict d) =
    (if truthy (get "task_accepted_time" d)
     then fromtimestamp <$> as_int (get "task_accepted_time" d) else None) ∧
  targets_override (EventData.from_event_dict d) =
    (if truthy (as_strs (get "targets_override" d))
     then list_to_set <$> as_strs (get "targets_override" d) else None).
Proof. split; reflexivity. Qed.

(** X7: serialization is stable on what deserialization builds.  For a
    dictionary [d] whose acceptance time is [None] or a timestamp and whose
    target override is [None], a list or a set, the object
    [from_event_dict d] comes back from its own [get_dict] with the same
    twelve attributes. *)
Theorem from_event_dict_stable (d : gmap string value) :
  (get "task_accepted_time" d = VNone ∨
   ∃ n, get "task_accepted_time" d = VInt n ∧ datetime_range n) →
  (get "targets_override" d = VNone ∨ (∃ l, get "targets_override" d = VList l)
   ∨ ∃ s, get "targets_override" d = VSet s) →
  agree (EventData.from_event_dict (EventData.get_dict (EventData.from_event_dict d)))
        (EventData.from_event_dict d).
Proof.
  intros _ _.
  destruct (from_event_dict_get_dict (EventData.from_event_dict d))
    as (H1 & H2 & H3 & H4 & H5 & H6 & H7 & H8 & H9 & H10 & H11 & H12).
  unfold agree. split_and!; try done.
  - rewrite H11. rewrite (proj1 (from_event_dict_lazy_free d)).
    destruct (truthy (get "task_accepted_time" d)) eqn:Ht; [|done].
    destruct (get "task_accepted_time" d) as [| |n| | | | | | |]; try done.
    cbn. rewrite quot_fromtimestamp. cbn in Ht. by rewrite Ht.
  - rewrite H12. rewrite (proj2 (from_event_dict_lazy_free d)).
    destruct (as_strs (get "targets_override" d)) as [[|x l]|]; try done.
    cbn. assert (({[x]} ∪ list_to_set l : gset string) ≠ ∅) as Hne by set_solver.
    by rewrite (truthy_nonempty _ Hne).
Qed.

Lemma from_event_dict_stable_witness :
  agree
    (EventData.from_event_dict
       (EventData.get_dict
          (EventData.from_event_dict
             {[ "task_accepted_time" := VInt 1630000000;
                "targets_override" := VList ["fedora-33-x86_64"] ]})))
    (EventData.from_event_dict
       {[ "task_accepted_time" := VInt 1630000000;
          "targets_override" := VList ["fedora-33-x86_64"] ]}).
Proof.
  apply from_event_dict_stable.
  - right. exists 1630000000%Z. split; [done|]. unfold datetime_range. lia.
  - right. left. by exists ["fedora-33-x86_64"].
Defined.

(** An event dictionary whose target override is replaced, read back. *)
Lemma from_event_dict_override (e : EventData) (l : list string) :
  l ≠ [] →
  let e' := EventData.from_event_dict
              (<["targets_override" := VList l]> (EventData.get_dict e)) in
  targets_override e' = Some (list_to_set l) ∧
  event_type e' = event_type e ∧ user_login e' = user_login e ∧
  trigger_id e' = trigger_id e ∧ project_url e' = project_url e ∧
  tag_name e' = tag_name e ∧ git_ref e' = git_ref e ∧ pr_id e' = pr_id e ∧
  commit_sha e' = commit_sha e ∧ identifier e' = identifier e ∧
  issue_id e' = issue_id e.
Proof.
  intros Hl.
  destruct (get_dict_lookup e)
    as (H1 & H2 & H3 & H4 & H5 & H6 & H7 & H7' & H8 & H9 & H10 & _).
  cbn zeta. unfold EventData.from_event_dict.
  assert (∀ k, k ≠ "targets_override" →
               get k (<["targets_override" := VList l]> (EventData.get_dict e))
               = get k (EventData.get_dict e)) as Hget.
  { intros k Hk. unfold get. by rewrite lookup_insert_ne. }
  rewrite !Hget by done.
  rewrite H1, H2, H3, H4, H5, H6, H7, H7', H8, H9, H10.
  unfold get at 1 2 3 4. rewrite lookup_insert_eq.
  cbn. rewrite !as_str_of_opt, !as_int_of_opt.
  split; [by destruct l|]. by split_and!.
Qed.

Lemma failures_of_filter (helper : TestingFarmJobHelper)
    (with_build : list (string * CoprBuildModel)) :
  (failures_of helper with_build).*1 =
  (filter (λ bt, success (testing_farm helper bt.1 bt.2) = false) (tests_of with_build)).*2.
Proof.
  unfold failures_of, tests_of. induction with_build as [|[t b] l IH]; [done|].
  cbn [omap list_omap fst snd]. destruct (succeeded b); cbn [andb]; [|done].
  rewrite filter_cons. cbn [fst snd].
  destruct (success (testing_farm helper b t)) eqn:Hs; cbn [negb].
  - by rewrite decide_False.
  - rewrite decide_True by done. cbn [fmap list_fmap fst snd]. by rewrite <- IH.
Qed.

(** ** [TestingFarmHandler]: the trigger of a finished build *)

(** X8: when [build_id] is set and a trigger is not cached yet, the trigger
    is the one of the build stored under that id: [db_trigger] reads the
    build, caches its trigger when there is one, and asks neither the forge
    nor the trigger tables nor the event data. *)
Theorem db_trigger_of_build (self : TestingFarmHandler.t) (w : World) (b : CoprBuildModel) :
  TestingFarmHandler._db_trigger self = None →
  truthy (TestingFarmHandler.build_id self) = true →
  copr_builds w !! default 0%Z (TestingFarmHandler.build_id self) = Some b →
  TestingFarmHandler.db_trigger self w =
  (Ok (cb_trigger b, TestingFarmHandler.set__db_trigger (cb_trigger b) self),
   emit (CoprBuildModel_get_by_id (default 0%Z (TestingFarmHandler.build_id self))) w).
Proof.
  intros Hnone Hid Hb. unfold TestingFarmHandler.db_trigger. rewrite Hnone, Hid.
  cbn [truthy truthy_option negb]. unfold mbind, M_bind, get_by_id. by rewrite Hb.
Qed.

Lemma db_trigger_of_build_witness :
  TestingFarmHandler.db_trigger (build_end 1) world_with_build =
  (Ok (Some pr9, TestingFarmHandler.set__db_trigger (Some pr9) (build_end 1)),
   emit (CoprBuildModel_get_by_id 1) world_with_build).
Proof.
  exact (db_trigger_of_build (build_end 1) world_with_build (a_build 1 "success")
           eq_refl eq_refl eq_refl).
Defined.

(** ** [TestingFarmHandler]: the whole pass *)

Section pass.

Variable new_helper :
  option AbstractTriggerDbType → option (gset string) → TestingFarmJobHelper.
Variable repr : list string → string.
Variable str_build : CoprBuildModel → string.

(** X9: the calls of one pass, in order.  Once the trigger is read, [run]
    asks for the build of each target; then, if some target has none, logs
    that, notifies each such target as pending, counts each on
    [copr_builds_queued] and enqueues the build job; then goes through the
    targets that have a build, and either notifies the failure of the build or
    counts the test on [test_runs_queued] and submits it. *)
Theorem run_trace (self self1 : TestingFarmHandler.t) (w w1 : World)
    (trigger : option AbstractTriggerDbType) :
  TestingFarmHandler.db_trigger self w = (Ok (trigger, self1), w1) →
  let helper := new_helper trigger (TestingFarmHandler.override self1) in
  let targets := elements (tests_targets helper) in
  let with_build := with_build_of (existing_build self1 helper (copr_builds w1)) targets in
  let without_build :=
    without_build_of (existing_build self1 helper (copr_builds w1)) targets in
  ∃ r w2,
    TestingFarmHandler.run new_helper repr str_build self w = (Ok (r, self1), w2) ∧
    since w1 w2 =
      (build_query self1 <$> targets)
      ++ build_effects repr self1 helper without_build
      ++ concat (test_effects str_build <$> with_build).
Proof.
  intros Hdb helper targets with_build without_build.
  destruct (run_with_run repr str_build self1 helper w1) as [_ Hrun].
  fold targets with_build without_build in Hrun.
  eexists _, _. unfold TestingFarmHandler.run.
  rewrite (bind_Ok _ _ _ _ _ Hdb). cbv beta iota. fold helper.
  rewrite (bind_Ok _ _ _ _ _ Hrun). split; [reflexivity|].
  apply since_app, trace_emit_all.
Qed.

(** [run] once the trigger is read: result and effects since the start. *)
Lemma run_full (self self1 : TestingFarmHandler.t) (w w1 : World)
    (trigger : option AbstractTriggerDbType) :
  TestingFarmHandler.db_trigger self w = (Ok (trigger, self1), w1) →
  let helper := new_helper trigger (TestingFarmHandler.override self1) in
  let targets := elements (tests_targets helper) in
  let with_build := with_build_of (existing_build self1 helper (copr_builds w)) targets in
  let without_build :=
    without_build_of (existing_build self1 helper (copr_builds w)) targets in
  ∃ es0 w2,
    Forall (λ e, backstage e = true) es0 ∧
    TestingFarmHandler.run new_helper repr str_build self w =
      (Ok (TestingFarmHandler.conclude repr (failures_of helper with_build)
             (build_details repr without_build), self1), w2) ∧
    since w w2 =
      es0 ++ (build_query self1 <$> targets)
      ++ build_effects repr self1 helper without_build
      ++ concat (test_effects str_build <$> with_build).
Proof.
  intros Hdb helper targets with_build without_build.
  destruct (quiet_db_trigger self w) as (es0 & Htr & Hback & Hbuilds).
  rewrite Hdb in Htr, Hbuilds. cbn [snd] in Htr, Hbuilds.
  destruct (run_with_run repr str_build self1 helper w1) as [_ Hrun].
  rewrite Hbuilds in Hrun. fold targets with_build without_build in Hrun.
  exists es0. eexists. split; [done|].
  unfold TestingFarmHandler.run. rewrite (bind_Ok _ _ _ _ _ Hdb). cbv beta iota.
  fold helper. rewrite (bind_Ok _ _ _ _ _ Hrun). split; [reflexivity|].
  apply since_app. by rewrite trace_emit_all, Htr, <- app_assoc.
Qed.

(** X10: with no target at all, [run] succeeds with empty details and, past
    reading the trigger, calls no collaborator. *)
Theorem run_no_targets (self self1 : TestingFarmHandler.t) (w w1 : World)
    (trigger : option AbstractTriggerDbType) :
  TestingFarmHandler.db_trigger self w = (Ok (trigger, self1), w1) →
  tests_targets (new_helper trigger (TestingFarmHandler.override self1)) = ∅ →
  TestingFarmHandler.run new_helper repr str_build self w =
  (Ok ({| success := true; details := ∅ |}, self1), w1).
Proof.
  intros Hdb Hempty.
  destruct (run_with_run repr str_build self1
              (new_helper trigger (TestingFarmHandler.override self1)) w1) as [_ Hrun].
  rewrite Hempty, elements_empty in Hrun.
  unfold TestingFarmHandler.run. rewrite (bind_Ok _ _ _ _ _ Hdb). cbv beta iota.
  by rewrite (bind_Ok _ _ _ _ _ Hrun).
Qed.

Lemma increments_app (c : string) (es es' : list Effect) :
  increments c (es ++ es') = increments c es + increments c es'.
Proof. unfold increments. by rewrite omap_app, length_app. Qed.

Lemma increments_backstage (c : string) (es : list Effect) :
  Forall (λ e, backstage e = true) es → increments c es = 0.
Proof.
  unfold increments. induction 1 as [|e es He _ IH]; [done|].
  cbn [omap list_omap]. by destruct e.
Qed.

Lemma increments_queries (c : string) (self : TestingFarmHandler.t) (targets : list string) :
  increments c (build_query self <$> targets) = 0.
Proof.
  unfold increments, build_query.
  rewrite (omap_fmap_None _ _ targets); [done|].
  intros t. by destruct (truthy (TestingFarmHandler.build_id self)).
Qed.

Lemma increments_build (self : TestingFarmHandler.t) (helper : TestingFarmJobHelper)
    (missing : list string) :
  increments "copr_builds_queued" (build_effects repr self helper missing) = length missing ∧
  increments "test_runs_queued" (build_effects repr self helper missing) = 0.
Proof.
  unfold build_effects. destruct missing as [|t0 ts0]; [done|].
  rewrite !increments_app. unfold increments at 1 4 5 8.
  cbn [omap list_omap length].
  unfold increments.
  rewrite !(omap_fmap_None _ (λ t : string, report_status_to_test_for_chroot _ _ _ t)) by done.
  rewrite (omap_fmap_Some _ (λ _ : nat, inc "copr_builds_queued") (λ _, tt)) by done.
  rewrite (omap_fmap_None _ (λ _ : nat, inc "copr_builds_queued")) by done.
  rewrite length_fmap, length_seq. cbn. split; lia.
Qed.

Lemma increments_tests (with_build : list (string * CoprBuildModel)) :
  increments "copr_builds_queued" (concat (test_effects str_build <$> with_build)) = 0 ∧
  increments "test_runs_queued" (concat (test_effects str_build <$> with_build))
  = length (tests_of with_build).
Proof.
  unfold tests_of.
  induction with_build as [|[t b] l [IH1 IH2]]; [done|].
  cbn [fmap list_fmap concat omap list_omap]. rewrite !increments_app, IH1, IH2.
  unfold test_effects. cbn [fst snd]. by destruct (succeeded b).
Qed.

(** X11: the two queue counters follow the submissions: [copr_builds_queued]
    is incremented once per target without a build, [test_runs_queued] once
    per test job submitted. *)
Theorem run_counts_what_it_queues (self self1 : TestingFarmHandler.t) (w w1 : World)
    (trigger : option AbstractTriggerDbType) :
  TestingFarmHandler.db_trigger self w = (Ok (trigger, self1), w1) →
  let helper := new_helper trigger (TestingFarmHandler.override self1) in
  ∃ with_build without_build wp r w2,
    for_each (elements (tests_targets helper))
      (TestingFarmHandler.partition_step self1 helper) ([], []) w1
      = (Ok (with_build, without_build), wp) ∧
    TestingFarmHandler.run new_helper repr str_build self w = (Ok (r, self1), w2) ∧
    increments "copr_builds_queued" (since w w2) = length without_build ∧
    increments "test_runs_queued" (since w w2) = length (test_jobs (since w w2)).
Proof.
  intros Hdb helper.
  destruct (run_resolved new_helper repr str_build self self1 w w1 trigger Hdb)
    as (wp & w2 & Hpart & Hrun & _ & Htests & _).
  destruct (run_full self self1 w w1 trigger Hdb) as (es0 & w2' & Hback & Hrun' & Hsince).
  fold helper in Hpart, Hrun, Htests, Hrun', Hsince.
  rewrite Hrun in Hrun'. injection Hrun' as <-.
  eexists _, _, wp, _, w2. split; [exact Hpart|]. split; [exact Hrun|].
  rewrite Htests, Hsince, !increments_app.
  rewrite (increments_backstage "copr_builds_queued"),
    (increments_backstage "test_runs_queued"), !increments_queries by done.
  destruct (increments_build self1 helper
              (without_build_of (existing_build self1 helper (copr_builds w))
                 (elements (tests_targets helper)))) as [-> ->].
  destruct (increments_tests
              (with_build_of (existing_build self1 helper (copr_builds w))
                 (elements (tests_targets helper)))) as [-> ->].
  split; lia.
Qed.

(** X12: the build job carries the event of the handler with the targets
    without a build as its target override: read back by
    [EventData.from_event_dict], the event of the job has exactly those
    targets as [targets_override] and the attributes of the handler's event
    data otherwise; the configurations it carries are what
    [dump_package_config] and [dump_job_config] make of the package and job
    configuration of the handler. *)
Theorem build_job_event (self self1 : TestingFarmHandler.t) (w w1 : World)
    (trigger : option AbstractTriggerDbType) :
  TestingFarmHandler.db_trigger self w = (Ok (trigger, self1), w1) →
  let helper := new_helper trigger (TestingFarmHandler.override self1) in
  ∃ with_build without_build wp r w2,
    for_each (elements (tests_targets helper))
      (TestingFarmHandler.partition_step self1 helper) ([], []) w1
      = (Ok (with_build, without_build), wp) ∧
    TestingFarmHandler.run new_helper repr str_build self w = (Ok (r, self1), w2) ∧
    (without_build ≠ [] →
     ∃ job,
       build_jobs (since w w2) = [job] ∧
       kw_package_config job = dump_package_config (TestingFarmHandler.package_config self) ∧
       kw_job_config job = dump_job_config (TestingFarmHandler.job_config self) ∧
       let e := TestingFarmHandler.data self in
       let e' := EventData.from_event_dict (kw_event job) in
       targets_override e' = Some (list_to_set without_build) ∧
       event_type e' = event_type e ∧ user_login e' = user_login e ∧
       trigger_id e' = trigger_id e ∧ project_url e' = project_url e ∧
       tag_name e' = tag_name e ∧ git_ref e' = git_ref e ∧ pr_id e' = pr_id e ∧
       commit_sha e' = commit_sha e ∧ identifier e' = identifier e ∧
       issue_id e' = issue_id e).
Proof.
  intros Hdb helper.
  destruct (run_resolved new_helper repr str_build self self1 w w1 trigger Hdb)
    as (wp & w2 & Hpart & Hrun & Hjobs & _).
  fold helper in Hpart, Hrun, Hjobs.
  set (missing := without_build_of _ _) in *.
  destruct (handler_db_trigger_same _ _ _ _ _ Hdb) as (Hdata & Hpc & Hjc & _).
  eexists _, missing, wp, _, w2. split; [exact Hpart|]. split; [exact Hrun|].
  intros Hne. destruct (observed_build repr self1 helper missing) as (Hb & _).
  rewrite Hb in Hjobs. destruct missing as [|t0 ts0] eqn:Hm; [done|]. rewrite <- Hm in *.
  eexists. split; [exact Hjobs|]. cbn [kw_package_config kw_job_config kw_event].
  split; [by rewrite Hpc|]. split; [by rewrite Hjc|]. cbn zeta.
  rewrite <- (get_dict_uncached (TestingFarmHandler.data self1)), Hdata, get_dict_uncached.
  apply from_event_dict_override. by rewrite Hm.
Qed.

(** X13: when [build_id] is set, no trigger is cached and no build is stored
    under that id, [run] raises [AttributeError] on [get_trigger_object]
    right after reading the build: nothing is notified, enqueued or
    submitted. *)
Theorem run_missing_build_raises (self : TestingFarmHandler.t) (w : World) :
  TestingFarmHandler._db_trigger self = None →
  truthy (TestingFarmHandler.build_id self) = true →
  copr_builds w !! default 0%Z (TestingFarmHandler.build_id self) = None →
  TestingFarmHandler.run new_helper repr str_build self w =
  (Raise (AttributeError "'NoneType' object has no attribute 'get_trigger_object'"),
   emit (CoprBuildModel_get_by_id (default 0%Z (TestingFarmHandler.build_id self))) w).
Proof.
  intros Hnone Hid Hb. unfold TestingFarmHandler.run.
  apply bind_Raise. unfold TestingFarmHandler.db_trigger. rewrite Hnone, Hid.
  cbn [truthy truthy_option negb]. unfold mbind, M_bind, get_by_id. by rewrite Hb.
Qed.

(** X14: what the details of the result hold.  With [built] the sentence
    about the build that was triggered (empty when every target has a
    build) and [failed_targets] the targets of the submitted tests that
    failed, in the order of submission: if no test fails the details hold
    that sentence under "msg" and nothing else, or nothing at all when there
    is no sentence; if tests fail the details hold, unless one of the failed
    targets is named "msg", under "msg" the sentence followed by the one that
    lists the failed targets; and no key beside "msg" and the failed targets
    is ever set. *)
Theorem run_details (self self1 : TestingFarmHandler.t) (w w1 : World)
    (trigger : option AbstractTriggerDbType) :
  TestingFarmHandler.db_trigger self w = (Ok (trigger, self1), w1) →
  let helper := new_helper trigger (TestingFarmHandler.override self1) in
  ∃ with_build without_build wp r w2,
    for_each (elements (tests_targets helper))
      (TestingFarmHandler.partition_step self1 helper) ([], []) w1
      = (Ok (with_build, without_build), wp) ∧
    TestingFarmHandler.run new_helper repr str_build self w = (Ok (r, self1), w2) ∧
    let failed_targets :=
      (filter (λ bt, success (testing_farm helper bt.1 bt.2) = false)
         (test_jobs (since w w2))).*2 in
    let built :=
      if bool_decide (without_build = []) then ""
      else "Build triggered for targets " +:+ repr without_build
           +:+ " missing a Copr build. " in
    (failed_targets = [] →
     details r = if bool_decide (without_build = []) then ∅
                 else {[ "msg" := VStr built ]}) ∧
    (failed_targets ≠ [] → "msg" ∉ failed_targets →
     details r !! "msg" =
       Some (VStr (built +:+ "Failed testing farm targets: 'dict_keys("
                   +:+ repr failed_targets +:+ ")'."))) ∧
    (∀ k, k ≠ "msg" → k ∉ failed_targets → details r !! k = None).
Proof.
  intros Hdb helper.
  destruct (run_resolved new_helper repr str_build self self1 w w1 trigger Hdb)
    as (wp & w2 & Hpart & Hrun & _ & Htests & _).
  fold helper in Hpart, Hrun, Htests.
  set (with_build := with_build_of _ _) in *.
  set (missing := without_build_of _ _) in *.
  eexists with_build, missing, wp, _, w2.
  split; [exact Hpart|]. split; [exact Hrun|].
  rewrite Htests, <- failures_of_filter.
  set (failed := failures_of helper with_build).
  assert (∀ k, k ≠ "msg" → build_details repr missing !! k = None) as Hother.
  { intros k Hk. unfold build_details. destruct missing; [done|].
    by rewrite lookup_singleton_ne. }
  assert (TestingFarmHandler.msg_of (build_details repr missing) =
          if bool_decide (missing = []) then ""
          else "Build triggered for targets " +:+ repr missing
               +:+ " missing a Copr build. ") as Hmsg.
  { unfold TestingFarmHandler.msg_of, build_details. destruct missing as [|t0 ts0]; [done|].
    by rewrite lookup_singleton_eq. }
  cbn zeta. unfold TestingFarmHandler.conclude. split_and!.
  - intros Hf. apply fmap_nil_inv in Hf. rewrite Hf. cbn [truthy truthy_list negb details].
    unfold build_details. by destruct missing.
  - intros Hf Hm. destruct failed as [|f0 fs] eqn:Hfailed; [done|].
    cbn [truthy truthy_list negb details]. rewrite update_lookup_fresh by done.
    rewrite lookup_insert_eq. by rewrite Hmsg.
  - intros k Hk Hf. destruct failed as [|f0 fs] eqn:Hfailed.
    + cbn [truthy truthy_list negb details]. by apply Hother.
    + cbn [truthy truthy_list negb details]. rewrite update_lookup_fresh by done.
      rewrite lookup_insert_ne by done. by apply Hother.
Qed.

End pass.

Lemma run_trace_witness :
  ∃ r self1 w1 w2,
    TestingFarmHandler.run (λ _ _, mixed_helper) plain_repr plain_str test_comment empty_world
      = (Ok (r, self1), w2) ∧
    since w1 w2 =
      [ get_latest_copr_build "fedora-33-x86_64" (Some "12345");
        get_latest_copr_build "fedora-rawhide-x86_64" (Some "12345") ]
      ++ build_effects plain_repr self1 mixed_helper ["fedora-rawhide-x86_64"]
      ++ test_effects plain_str ("fedora-33-x86_64", a_build 1 "success").
Proof.
  destruct (run_trace (λ _ _, mixed_helper) plain_repr plain_str
              test_comment _ empty_world _ _ eq_refl) as (r & w2 & Hrun & Htrace).
  eexists r, _, _, w2. split; [exact Hrun|]. rewrite Htrace. reflexivity.
Defined.

Lemma run_no_targets_witness :
  ∃ self1 w1,
    TestingFarmHandler.run (λ _ _, a_helper ∅ (λ _, None) (λ _, true)) plain_repr plain_str
      test_comment empty_world
    = (Ok ({| success := true; details := ∅ |}, self1), w1) ∧
    since empty_world w1 =
      [ ServiceConfig_get_project "https://github.com/packit-service/hello-world";
        Db (PullRequestModel_get_or_create (Some 9%Z) "packit-service" "hello-world"
              (Some "https://github.com/packit-service/hello-world")) ].
Proof.
  eexists _, _. split.
  - exact (run_no_targets (λ _ _, a_helper ∅ (λ _, None) (λ _, true)) plain_repr plain_str
             test_comment _ empty_world _ _ eq_refl eq_refl).
  - reflexivity.
Defined.

Lemma run_counts_what_it_queues_witness :
  ∃ r self1 w2,
    TestingFarmHandler.run (λ _ _, mixed_helper) plain_repr plain_str test_comment empty_world
      = (Ok (r, self1), w2) ∧
    increments "copr_builds_queued" (since empty_world w2) = 1 ∧
    increments "test_runs_queued" (since empty_world w2) = length (test_jobs (since empty_world w2)).
Proof.
  destruct (run_counts_what_it_queues (λ _ _, mixed_helper) plain_repr plain_str
              test_comment _ empty_world _ _ eq_refl)
    as (wb & wo & wp & r & w2 & Hpart & Hrun & Hb & Ht).
  vm_compute in Hpart. injection Hpart as <- <- _.
  eexists r, _, w2. split; [exact Hrun|]. split; [exact Hb|exact Ht].
Defined.

Lemma build_job_event_witness :
  ∃ r self1 w2 job,
    TestingFarmHandler.run (λ _ _, mixed_helper) plain_repr plain_str test_comment empty_world
      = (Ok (r, self1), w2) ∧
    build_jobs (since empty_world w2) = [job] ∧
    kw_package_config job = dump_package_config VNone ∧
    kw_job_config job = dump_job_config VNone ∧
    targets_override (EventData.from_event_dict (kw_event job)) =
      Some (list_to_set ["fedora-rawhide-x86_64"]) ∧
    commit_sha (EventData.from_event_dict (kw_event job)) = Some "12345".
Proof.
  destruct (build_job_event (λ _ _, mixed_helper) plain_repr plain_str
              test_comment _ empty_world _ _ eq_refl)
    as (wb & wo & wp & r & w2 & Hpart & Hrun & Hjob).
  vm_compute in Hpart. injection Hpart as <- <- _.
  destruct Hjob as (job & Hjobs & Hpc & Hjc & Hov & H); [done|].
  eexists r, _, w2, job. split; [exact Hrun|]. split; [exact Hjobs|].
  split; [exact Hpc|]. split; [exact Hjc|].
  split; [exact Hov|]. by destruct H as (_ & _ & _ & _ & _ & _ & _ & -> & _).
Defined.

Lemma run_missing_build_raises_witness :
  TestingFarmHandler.run (λ _ _, mixed_helper) plain_repr plain_str (build_end 7) world_with_build =
  (Raise (AttributeError "'NoneType' object has no attribute 'get_trigger_object'"),
   emit (CoprBuildModel_get_by_id 7) world_with_build).
Proof.
  exact (run_missing_build_raises (λ _ _, mixed_helper) plain_repr plain_str
           (build_end 7) world_with_build eq_refl eq_refl eq_refl).
Defined.

Lemma run_details_witness :
  ∃ r self1 w2,
    TestingFarmHandler.run (λ _ _, failing_helper) plain_repr plain_str test_comment empty_world
      = (Ok (r, self1), w2) ∧
    details r !! "msg" =
      Some (VStr "Failed testing farm targets: 'dict_keys(['fedora-33-x86_64'])'.") ∧
    details r !! "fedora-rawhide-x86_64" = None.
Proof.
  destruct (run_details (λ _ _, failing_helper) plain_repr plain_str
              test_comment _ empty_world _ _ eq_refl)
    as (wb & wo & wp & r & w2 & Hpart & Hrun & _ & Hmsg & Hother).
  vm_compute in Hpart. injection Hpart as <- <- _.
  assert (test_jobs (since empty_world w2) = [(a_build 1 "success", "fedora-33-x86_64")])
    as Htests.
  { replace w2 with
      (TestingFarmHandler.run (λ _ _, failing_helper) plain_repr plain_str test_comment
         empty_world).2 by (by rewrite Hrun).
    reflexivity. }
  rewrite Htests in Hmsg, Hother.
  eexists r, _, w2. split; [exact Hrun|]. split.
  - apply Hmsg; [done|]. by intros [=]%list_elem_of_singleton.
  - apply Hother; [done|]. by intros [=]%list_elem_of_singleton.
Defined.

Lemma init_targets_override_witness :
  targets_override (comment_event None (Some [])) = None ∧
  ∃ s, targets_override (comment_event None (Some ["fedora-33-x86_64"])) = Some s ∧ s ≠ ∅.
Proof.
  split.
  - apply (proj1 (proj2 (init_targets_override
             (Some "PullRequestCommentGithubEvent") (Some "phracek") (Some 9%Z)
             (Some "https://github.com/packit-service/hello-world") None None (Some 9%Z)
             (Some "12345") None None None None (Some [])))).
    by right.
  - destruct (proj1 (init_targets_override
             (Some "PullRequestCommentGithubEvent") (Some "phracek") (Some 9%Z)
             (Some "https://github.com/packit-service/hello-world") None None (Some 9%Z)
             (Some "12345") None None None None (Some ["fedora-33-x86_64"]))) as [H|H].
    + discriminate H.
    + exact H.
Defined.

(** ** [TestingFarmResultsHandler]: storage and metrics *)

Lemma find_app_None {A} (f : A → bool) (l l' : list A) :
  find f l = None → find f (l ++ l') = find f l'.
Proof. induction l as [|a l IH]; [done|]. cbn. by destruct (f a). Qed.

(** The row of the job-trigger table for a trigger: the stored one, or a new
    one with the next id. *)
Lemma upsert_run (type : TriggerModel) (trigger_id : Z) (w : World) :
  ∃ jt w',
    JobTriggerModel_upsert type trigger_id w = (Ok (Some jt), w') ∧
    jt_type jt = type ∧ jt_trigger_id jt = trigger_id ∧
    jt ∈ job_triggers w' ∧
    find (λ r, bool_decide (jt_type r = type ∧ jt_trigger_id r = trigger_id))
      (job_triggers w') = Some jt ∧
    trace w' = trace w ++ [JobTriggerModel_get_or_create type trigger_id] ∧
    test_runs w' = test_runs w ∧ triggers w' = triggers w ∧
    copr_builds w' = copr_builds w ∧ now w' = now w ∧
    (∀ jt', jt' ∈ job_triggers w → jt_type jt' = type → jt_trigger_id jt' = trigger_id →
            job_triggers w' = job_triggers w).
Proof.
  unfold JobTriggerModel_upsert. cbn [job_triggers emit].
  destruct (find _ (job_triggers w)) as [r|] eqn:Hfind.
  - pose proof Hfind as Hfound.
    apply find_some in Hfind as [Hin [Ht Hi]%bool_decide_eq_true].
    exists r. eexists. split; [reflexivity|]. cbn. rewrite <- list_elem_of_In in Hin. done.
  - exists {| jt_id := Z.of_nat (S (length (job_triggers w))); jt_type := type;
             jt_trigger_id := trigger_id |}. eexists. split; [reflexivity|]. cbn.
    split_and!; try done.
    + apply elem_of_app. right. apply list_elem_of_here.
    + rewrite (find_app_None _ _ _ Hfind). cbn. by rewrite bool_decide_eq_true_2.
    + intros jt' Hin Ht Hi. rewrite list_elem_of_In in Hin.
      apply (find_none _ _ Hfind) in Hin. by rewrite bool_decide_eq_true_2 in Hin.
Qed.

Lemma run_stored_pipeline
    (self : TestingFarmResultsHandler.t) (w : World) (p : string)
    (m : TFTTestRunModel) (t : AbstractTriggerDbType) :
  TestingFarmResultsHandler.pipeline_id self = Some p →
  test_runs w !! p = Some m →
  tft_trigger m = Some t →
  TestingFarmResultsHandler._db_trigger self = None →
  ∃ jt w',
    TestingFarmResultsHandler.run self w =
      (Ok ({| success := true; details := ∅ |},
           TestingFarmResultsHandler.set__db_trigger (Some t) self), w') ∧
    jt_type jt = job_trigger_model_type t ∧ jt_trigger_id jt = tr_id t ∧
    jt ∈ job_triggers w' ∧
    find (λ r, bool_decide (jt_type r = job_trigger_model_type t ∧ jt_trigger_id r = tr_id t))
      (job_triggers w') = Some jt ∧
    (∀ jt', jt' ∈ job_triggers w → jt_type jt' = job_trigger_model_type t →
            jt_trigger_id jt' = tr_id t → job_triggers w' = job_triggers w) ∧
    test_runs w' = <[p := updated self m]> (test_runs w) ∧
    triggers w' = triggers w ∧ copr_builds w' = copr_builds w ∧ now w' = now w ∧
    since w w' =
      record_effects self (now w) m ++
      [ TFTTestRunModel_get_by_pipeline_id (Some p);
        JobTriggerModel_get_or_create (job_trigger_model_type t) (tr_id t);
        StatusReporter_get_instance (commit_sha (TestingFarmResultsHandler.data self))
          (Some (jt_id jt)) (pr_id (TestingFarmResultsHandler.data self));
        StatusReporter_report
          (TestingFarmResultsHandler.status_and_summary
             (TestingFarmResultsHandler.result self)
             (TestingFarmResultsHandler.summary self)).1
          (TestingFarmResultsHandler.status_and_summary
             (TestingFarmResultsHandler.result self)
             (TestingFarmResultsHandler.summary self)).2
          (testing_farm_info_url (tft_id m))
          [("Testing Farm", TestingFarmResultsHandler.log_url self)]
          (TestingFarmResultsHandler.copr_chroot self) ].
Proof.
  intros Hp Hm Ht Hdb.
  unfold TestingFarmResultsHandler.run, record_effects.
  destruct (TestingFarmResultsHandler.status_and_summary _ _) as [status summary].
  unfold TestingFarmResultsHandler.db_trigger. rewrite Hp, Hdb.
  destruct (bool_decide (TestingFarmResultsHandler.result self = _));
    unfold mbind, M_bind, get_by_pipeline_id, TestingFarmResultsHandler.store, effect, ask,
      mret, M_ret;
    cbn -[JobTriggerModel_upsert]; rewrite Hm; cbn -[JobTriggerModel_upsert];
    rewrite !lookup_insert_eq; cbn -[JobTriggerModel_upsert]; rewrite Ht;
    cbn -[JobTriggerModel_upsert];
    match goal with
    | |- context [JobTriggerModel_upsert ?ty ?id ?w0] =>
        destruct (upsert_run ty id w0)
          as (jt & w' & -> & Hty & Hid & Hin & Hfind & Htr & Hruns & Htrig & Hb & Hnow & Hsame)
    end;
    (exists jt; eexists; split; [reflexivity|]); cbn in *;
    rewrite Hruns, Htrig, Hb, Hnow, insert_insert_eq;
    (split_and!; try done);
    apply since_app; cbn; rewrite Htr, <- !app_assoc; reflexivity.
Qed.

Lemma observations_app (h : string) (es es' : list Effect) :
  observations h (es ++ es') = observations h es ++ observations h es'.
Proof. apply omap_app. Qed.

(** X15: a callback on a stored pipeline updates the record of that pipeline
    and nothing else in the tables of test runs, builds and triggers: the
    record gets the reported result as status and the log url as web url,
    and keeps its id, submission time and trigger. *)
Theorem run_updates_record
    (self : TestingFarmResultsHandler.t) (w : World) (p : string)
    (m : TFTTestRunModel) (t : AbstractTriggerDbType) :
  TestingFarmResultsHandler.pipeline_id self = Some p →
  test_runs w !! p = Some m →
  tft_trigger m = Some t →
  TestingFarmResultsHandler._db_trigger self = None →
  ∃ r self1 w',
    TestingFarmResultsHandler.run self w = (Ok (r, self1), w') ∧
    test_runs w' !! p =
      Some {| tft_id := tft_id m; tft_status := TestingFarmResultsHandler.result self;
              tft_web_url := TestingFarmResultsHandler.log_url self;
              tft_submitted_time := tft_submitted_time m; tft_trigger := tft_trigger m |} ∧
    (∀ q, q ≠ p → test_runs w' !! q = test_runs w !! q) ∧
    copr_builds w' = copr_builds w ∧ triggers w' = triggers w.
Proof.
  intros Hp Hm Ht Hdb.
  destruct (run_stored_pipeline self w p m t Hp Hm Ht Hdb)
    as (jt & w' & Hrun & _ & _ & _ & _ & _ & Hruns & Htrig & Hb & _).
  eexists _, _, w'. split; [exact Hrun|]. rewrite Hruns. split_and!; try done.
  - by rewrite lookup_insert_eq.
  - intros q Hq. by rewrite lookup_insert_ne.
Qed.

Lemma run_updates_record_witness :
  ∃ r self1 w',
    TestingFarmResultsHandler.run (callback TestingFarmResult.passed None) world_with_run
      = (Ok (r, self1), w') ∧
    test_runs w' !! "id" =
      Some {| tft_id := 5; tft_status := Some TestingFarmResult.passed;
              tft_web_url := Some "some url";
              tft_submitted_time := fromtimestamp 1630000000; tft_trigger := Some pr9 |}.
Proof.
  destruct (run_updates_record (callback TestingFarmResult.passed None) world_with_run
              "id" stored_run pr9 eq_refl eq_refl eq_refl eq_refl)
    as (r & self1 & w' & Hrun & Hrec & _).
  exists r, self1, w'. split; [exact Hrun|exact Hrec].
Defined.

(** X16: the metrics of a callback on a stored pipeline.  A [running] result
    counts once on [test_runs_started] and observes no duration; every other
    result counts once on [test_runs_finished] and observes one duration,
    the time from the submission of the run to now. *)
Theorem run_metrics
    (self : TestingFarmResultsHandler.t) (w : World) (p : string)
    (m : TFTTestRunModel) (t : AbstractTriggerDbType) :
  TestingFarmResultsHandler.pipeline_id self = Some p →
  test_runs w !! p = Some m →
  tft_trigger m = Some t →
  TestingFarmResultsHandler._db_trigger self = None →
  ∃ r self1 w',
    TestingFarmResultsHandler.run self w = (Ok (r, self1), w') ∧
    let running :=
      bool_decide (TestingFarmResultsHandler.result self = Some TestingFarmResult.running) in
    increments "test_runs_started" (since w w') = (if running then 1 else 0) ∧
    increments "test_runs_finished" (since w w') = (if running then 0 else 1) ∧
    observations "test_run_finished_time" (since w w') =
      (if running then []
       else [(since_epoch_us (now w) - since_epoch_us (tft_submitted_time m))%Z]).
Proof.
  intros Hp Hm Ht Hdb.
  destruct (run_stored_pipeline self w p m t Hp Hm Ht Hdb)
    as (jt & w' & Hrun & _ & _ & _ & _ & _ & _ & _ & _ & _ & Hsince).
  eexists _, _, w'. split; [exact Hrun|]. cbn zeta. rewrite Hsince.
  unfold record_effects. by destruct (bool_decide _).
Qed.

Lemma run_metrics_witness :
  ∃ r self1 w',
    TestingFarmResultsHandler.run (callback TestingFarmResult.passed None) world_with_run
      = (Ok (r, self1), w') ∧
    increments "test_runs_started" (since world_with_run w') = 0 ∧
    increments "test_runs_finished" (since world_with_run w') = 1 ∧
    observations "test_run_finished_time" (since world_with_run w') = [600000000%Z].
Proof.
  destruct (run_metrics (callback TestingFarmResult.passed None) world_with_run
              "id" stored_run pr9 eq_refl eq_refl eq_refl eq_refl)
    as (r & self1 & w' & Hrun & H).
  exists r, self1, w'. split; [exact Hrun|exact H].
Defined.

(** X17: the status reporter of a callback is created for the row of the
    job-trigger table that belongs to the trigger of the test run: [run]
    upserts the pair (table of the trigger, id of the trigger), the row is
    stored afterwards, and its id is the [trigger_id] the reporter gets,
    along with the commit and the pull-request id of the event data.  The
    record of the run is read twice, once by [run] and once by the property
    [db_trigger], whose second read in [run] finds the trigger cached. *)
Theorem run_reports_for_trigger
    (self : TestingFarmResultsHandler.t) (w : World) (p : string)
    (m : TFTTestRunModel) (t : AbstractTriggerDbType) :
  TestingFarmResultsHandler.pipeline_id self = Some p →
  test_runs w !! p = Some m →
  tft_trigger m = Some t →
  TestingFarmResultsHandler._db_trigger self = None →
  ∃ r self1 w' jt,
    TestingFarmResultsHandler.run self w = (Ok (r, self1), w') ∧
    TestingFarmResultsHandler._db_trigger self1 = Some t ∧
    jt ∈ job_triggers w' ∧
    jt_type jt = job_trigger_model_type t ∧ jt_trigger_id jt = tr_id t ∧
    StatusReporter_get_instance (commit_sha (TestingFarmResultsHandler.data self))
      (Some (jt_id jt)) (pr_id (TestingFarmResultsHandler.data self)) ∈ since w w' ∧
    record_reads (since w w') = [Some p; Some p].
Proof.
  intros Hp Hm Ht Hdb.
  destruct (run_stored_pipeline self w p m t Hp Hm Ht Hdb)
    as (jt & w' & Hrun & Hty & Hid & Hin & _ & _ & _ & _ & _ & _ & Hsince).
  eexists _, _, w', jt. split; [exact Hrun|]. split; [done|].
  split; [done|]. split; [done|]. split; [done|].
  rewrite Hsince. unfold record_effects. rewrite Hp. split.
  - apply elem_of_app. right. do 2 apply list_elem_of_further. apply list_elem_of_here.
  - by destruct (bool_decide _).
Qed.

Lemma run_reports_for_trigger_witness :
  ∃ r self1 w' jt,
    TestingFarmResultsHandler.run (callback TestingFarmResult.passed None) world_with_run
      = (Ok (r, self1), w') ∧
    jt ∈ job_triggers w' ∧ jt_type jt = PullRequestModel ∧ jt_trigger_id jt = 9%Z ∧
    StatusReporter_get_instance (Some "12345") (Some (jt_id jt)) (Some 9%Z)
      ∈ since world_with_run w' ∧
    record_reads (since world_with_run w') = [Some "id"; Some "id"].
Proof.
  destruct (run_reports_for_trigger (callback TestingFarmResult.passed None) world_with_run
              "id" stored_run pr9 eq_refl eq_refl eq_refl eq_refl)
    as (r & self1 & w' & jt & Hrun & _ & H).
  exists r, self1, w', jt. split; [exact Hrun|exact H].
Defined.

(** X18: a callback that is delivered again changes nothing in storage.
    After one run on a stored pipeline, a second run of the same callback, in
    any world whose test runs and job triggers are those the first run left,
    leaves both tables as they are and sends the same status report. *)
Theorem run_replay
    (self : TestingFarmResultsHandler.t) (w : World) (p : string)
    (m : TFTTestRunModel) (t : AbstractTriggerDbType) :
  TestingFarmResultsHandler.pipeline_id self = Some p →
  test_runs w !! p = Some m →
  tft_trigger m = Some t →
  TestingFarmResultsHandler._db_trigger self = None →
  ∃ r self1 w1,
    TestingFarmResultsHandler.run self w = (Ok (r, self1), w1) ∧
    ∀ v, test_runs v = test_runs w1 → job_triggers v = job_triggers w1 →
      ∃ w2,
        TestingFarmResultsHandler.run self v = (Ok (r, self1), w2) ∧
        test_runs w2 = test_runs w1 ∧ job_triggers w2 = job_triggers w1 ∧
        reports (since v w2) = reports (since w w1) ∧
        ∀ c i q, StatusReporter_get_instance c i q ∈ since v w2 →
                 StatusReporter_get_instance c i q ∈ since w w1.
Proof.
  intros Hp Hm Ht Hdb.
  destruct (run_stored_pipeline self w p m t Hp Hm Ht Hdb)
    as (jt & w1 & Hrun & Hty & Hid & Hin & Hfind & _ & Hruns & _ & _ & _ & Hsince).
  eexists _, _, w1. split; [exact Hrun|]. intros v Hv Hj.
  assert (test_runs v !! p = Some (updated self m)) as Hm'.
  { by rewrite Hv, Hruns, lookup_insert_eq. }
  destruct (run_stored_pipeline self v p (updated self m) t Hp Hm' Ht Hdb)
    as (jt' & w2 & Hrun' & _ & _ & _ & Hfind' & Hsame & Hruns' & _ & _ & _ & Hsince').
  assert (job_triggers w2 = job_triggers w1) as Hj2.
  { rewrite <- Hj. apply (Hsame jt); by rewrite ?Hj. }
  assert (jt' = jt) as -> by (rewrite Hj2 in Hfind'; congruence).
  exists w2. split; [exact Hrun'|]. split_and!.
  - rewrite Hruns', Hv, Hruns. by rewrite insert_insert_eq.
  - done.
  - rewrite Hsince, Hsince'. unfold record_effects, reports. rewrite !omap_app.
    by destruct (bool_decide _).
  - intros c i q. rewrite Hsince, Hsince'. intros [H|H]%elem_of_app.
    + exfalso. unfold record_effects in H.
      destruct (bool_decide _);
        repeat (apply elem_of_cons in H as [H|H]; [discriminate|]);
        by apply elem_of_nil in H.
    + apply elem_of_app. by right.
Qed.

Lemma run_replay_witness :
  ∃ r self1 w1 w2,
    TestingFarmResultsHandler.run (callback TestingFarmResult.passed None) world_with_run
      = (Ok (r, self1), w1) ∧
    TestingFarmResultsHandler.run (callback TestingFarmResult.passed None) w1
      = (Ok (r, self1), w2) ∧
    test_runs w2 = test_runs w1 ∧ job_triggers w2 = job_triggers w1.
Proof.
  destruct (run_replay (callback TestingFarmResult.passed None) world_with_run
              "id" stored_run pr9 eq_refl eq_refl eq_refl eq_refl)
    as (r & self1 & w1 & Hrun & Hagain).
  destruct (Hagain w1 eq_refl eq_refl) as (w2 & Hrun' & Hruns & Hjobs & _).
  exists r, self1, w1, w2. split; [exact Hrun|]. split; [exact Hrun'|]. split; [exact Hruns|exact Hjobs].
Defined.

(** X19: a stored run without a trigger.  When the record of the pipeline
    has no trigger, [run] raises [AttributeError] on
    [job_trigger_model_type], after it has updated the record and the
    metrics: the record holds the reported result and the log url, no row is
    added to the job triggers and no status report is sent. *)
Theorem run_without_trigger_raises
    (self : TestingFarmResultsHandler.t) (w : World) (p : string) (m : TFTTestRunModel) :
  TestingFarmResultsHandler.pipeline_id self = Some p →
  test_runs w !! p = Some m →
  tft_trigger m = None →
  TestingFarmResultsHandler._db_trigger self = None →
  ∃ w',
    TestingFarmResultsHandler.run self w =
      (Raise (AttributeError "'NoneType' object has no attribute 'job_trigger_model_type'"), w') ∧
    test_runs w' = <[p := updated self m]> (test_runs w) ∧
    job_triggers w' = job_triggers w ∧
    since w w' = record_effects self (now w) m ++ [TFTTestRunModel_get_by_pipeline_id (Some p)].
Proof.
  intros Hp Hm Ht Hdb.
  unfold TestingFarmResultsHandler.run, record_effects.
  destruct (TestingFarmResultsHandler.status_and_summary _ _) as [status summary].
  unfold TestingFarmResultsHandler.db_trigger. rewrite Hp, Hdb.
  destruct (bool_decide (TestingFarmResultsHandler.result self = _));
    unfold mbind, M_bind, get_by_pipeline_id, TestingFarmResultsHandler.store, effect, ask,
      mret, M_ret;
    cbn -[JobTriggerModel_upsert]; rewrite Hm; cbn -[JobTriggerModel_upsert];
    rewrite !lookup_insert_eq; cbn -[JobTriggerModel_upsert]; rewrite Ht;
    cbn -[JobTriggerModel_upsert];
    (eexists; split; [reflexivity|]); cbn; rewrite insert_insert_eq;
    (split_and!; try done);
    apply since_app; cbn; rewrite <- !app_assoc; reflexivity.
Qed.

Lemma run_without_trigger_raises_witness :
  ∃ w',
    TestingFarmResultsHandler.run (callback TestingFarmResult.passed None)
      (set_test_runs {[ "id" := orphan_run ]} empty_world) =
      (Raise (AttributeError "'NoneType' object has no attribute 'job_trigger_model_type'"), w') ∧
    test_runs w' !! "id" =
      Some (updated (callback TestingFarmResult.passed None) orphan_run) ∧
    reports (since (set_test_runs {[ "id" := orphan_run ]} empty_world) w') = [].
Proof.
  destruct (run_without_trigger_raises (callback TestingFarmResult.passed None)
              (set_test_runs {[ "id" := orphan_run ]} empty_world) "id" orphan_run)
    as (w' & Hrun & Hruns & _ & Hsince); [reflexivity..|].
  exists w'. split; [exact Hrun|]. rewrite Hruns, Hsince. split; reflexivity.
Defined.

(** X20: a handler whose trigger is already cached.  On a [running] callback
    for a pipeline that is not stored, [run] logs the unknown pipeline,
    reads the record once, stores nothing in the test runs, and returns
    after a status report whose url is the raw log url. *)
Theorem run_cached_trigger
    (self : TestingFarmResultsHandler.t) (w : World) (t : AbstractTriggerDbType) :
  TestingFarmResultsHandler._db_trigger self = Some t →
  (TestingFarmResultsHandler.pipeline_id self ≫= λ p, test_runs w !! p) = None →
  TestingFarmResultsHandler.result self = Some TestingFarmResult.running →
  ∃ w',
    TestingFarmResultsHandler.run self w = (Ok ({| success := true; details := ∅ |}, self), w') ∧
    test_runs w' = test_runs w ∧
    record_reads (since w w') = [TestingFarmResultsHandler.pipeline_id self] ∧
    reports (since w w') =
      [ StatusReporter_report BaseCommitStatus.running
          (TestingFarmResultsHandler.summary_or (TestingFarmResultsHandler.summary self)
             "Tests are running ...")
          (plain_url (TestingFarmResultsHandler.log_url self))
          [("Testing Farm", TestingFarmResultsHandler.log_url self)]
          (TestingFarmResultsHandler.copr_chroot self) ].
Proof.
  intros Hdb Hnone Hres.
  unfold TestingFarmResultsHandler.run, TestingFarmResultsHandler.status_and_summary.
  unfold TestingFarmResultsHandler.db_trigger. rewrite Hres, Hdb.
  rewrite bool_decide_eq_true_2 by done.
  unfold mbind, M_bind, get_by_pipeline_id, TestingFarmResultsHandler.store, effect, ask,
    mret, M_ret.
  cbn -[JobTriggerModel_upsert]. rewrite Hnone. cbn -[JobTriggerModel_upsert].
  rewrite Hdb. cbn -[JobTriggerModel_upsert].
  match goal with
  | |- context [JobTriggerModel_upsert ?ty ?id ?w0] =>
      destruct (upsert_run ty id w0)
        as (jt & w' & -> & Hty & Hid & Hin & Hfind & Htr & Hruns & Htrig & Hb & Hnow & Hsame)
  end.
  eexists. split; [reflexivity|]. cbn in *. split; [done|].
  erewrite since_app; [|cbn; rewrite Htr, <- !app_assoc; reflexivity]. done.
Qed.

Lemma run_cached_trigger_witness :
  ∃ w',
    TestingFarmResultsHandler.run
      (TestingFarmResultsHandler.set__db_trigger (Some pr9)
         (callback TestingFarmResult.running None)) empty_world =
      (Ok ({| success := true; details := ∅ |},
           TestingFarmResultsHandler.set__db_trigger (Some pr9)
             (callback TestingFarmResult.running None)), w') ∧
    reports (since empty_world w') =
      [ StatusReporter_report BaseCommitStatus.running "Tests are running ..."
          (plain_url (Some "some url")) [("Testing Farm", Some "some url")]
          (Some "fedora-rawhide-x86_64") ].
Proof.
  destruct (run_cached_trigger
              (TestingFarmResultsHandler.set__db_trigger (Some pr9)
                 (callback TestingFarmResult.running None)) empty_world pr9
              eq_refl eq_refl eq_refl) as (w' & Hrun & _ & _ & Hrep).
  exists w'. split; [exact Hrun|exact Hrep].
Defined.

(** ** [Event.get_dict] *)

(** What a successful [get_dict] has done to the dictionary it starts from. *)
Lemma event_get_dict_inr (self : Event.t) (default_dict : option (gmap string value))
    (d' : gmap string value) :
  Event.get_dict self default_dict = inr d' →
  let d := source_dict self default_dict in
  ∃ t accepted,
    Event.db_trigger_property self = inr (Event.db_trigger self) ∧
    d !! "created_at" = Some (VDatetime t) ∧
    (if truthy (get "task_accepted_time" d)
     then ∃ a, d !! "task_accepted_time" = Some (VDatetime a) ∧ accepted = VInt (int_timestamp a)
     else accepted = VNone) ∧
    let d1 :=
      <["project_url" :=
          if truthy (get "project_url" d) then get "project_url" d
          else of_opt VStr (Event.db_trigger self ≫= Event.trigger_project_url)]>
        (<["task_accepted_time" := accepted]>
           (<["created_at" := VInt (int_timestamp t)]>
              (<["trigger_id" := of_opt (λ t, VInt (tr_id t)) (Event.db_trigger self)]>
                 (<["event_type" := VStr (Event.class_name self)]> d)))) in
    d' = if truthy (Event.targets_override self)
         then <["targets_override" :=
                 of_opt (λ s, VList (elements s)) (Event.targets_override self)]> d1
         else d1.
Proof.
  unfold Event.get_dict, Event.db_trigger. fold (source_dict self default_dict).
  set (d := source_dict self default_dict). cbn zeta.
  destruct (Event.db_trigger_property self) as [e|x]; [done|].
  rewrite !lookup_insert_ne by done.
  destruct (d !! "created_at") as [c|] eqn:Hc; [|done].
  destruct c; try done. cbn [Event.int_timestamp_of].
  unfold get. rewrite ?lookup_insert_eq, ?lookup_insert_ne by done.
  destruct (truthy (default VNone (d !! "task_accepted_time"))) eqn:Hta.
  - destruct (d !! "task_accepted_time") as [a|] eqn:Ha; [|done].
    destruct a; try done. cbn [default from_option id Event.int_timestamp_of].
    rewrite ?lookup_insert_eq, ?lookup_insert_ne by done. intros [= <-].
    eexists t, _. split; [done|]. split; [done|]. split; [by eauto|].
    by destruct x.
  - rewrite ?lookup_insert_eq, ?lookup_insert_ne by done. intros [= <-].
    eexists t, _. split; [done|]. split; [done|]. split; [done|].
    by destruct x.
Qed.

Lemma get_insert_eq (k : string) (v : value) (d : gmap string value) :
  get k (<[k := v]> d) = v.
Proof. unfold get. by rewrite lookup_insert_eq. Qed.

Lemma get_insert_ne (k k' : string) (v : value) (d : gmap string value) :
  k' ≠ k → get k (<[k' := v]> d) = get k d.
Proof. intros. unfold get. by rewrite lookup_insert_ne. Qed.

Lemma truthy_elements (s : gset string) : truthy s = true → truthy (elements s) = true.
Proof.
  unfold truthy, truthy_gset, truthy_list. intros H%negb_true_iff%bool_decide_eq_false.
  destruct (elements s) eqn:He; [|done]. by apply elements_empty_inv, leibniz_equiv in He.
Qed.

Lemma from_event_dict_of_get_dict (self : Event.t) (default_dict : option (gmap string value))
    (d' : gmap string value) :
  Event.get_dict self default_dict = inr d' →
  let d := if truthy default_dict then default ∅ default_dict else Event.__dict__ self in
  let e := EventData.from_event_dict d' in
  event_type e = Some (Event.class_name self) ∧
  trigger_id e = tr_id <$> Event.db_trigger self ∧
  project_url e =
    (if truthy (get "project_url" d) then as_str (get "project_url" d)
     else Event.db_trigger self ≫= Event.trigger_project_url) ∧
  (truthy (Event.targets_override self) = true →
   targets_override e = Event.targets_override self) ∧
  (truthy (Event.targets_override self) = false →
   targets_override e = targets_override (EventData.from_event_dict d)) ∧
  user_login e = user_login (EventData.from_event_dict d) ∧
  tag_name e = tag_name (EventData.from_event_dict d) ∧
  git_ref e = git_ref (EventData.from_event_dict d) ∧
  pr_id e = pr_id (EventData.from_event_dict d) ∧
  commit_sha e = commit_sha (EventData.from_event_dict d) ∧
  identifier e = identifier (EventData.from_event_dict d) ∧
  issue_id e = issue_id (EventData.from_event_dict d).
Proof.
  intros Hd. apply event_get_dict_inr in Hd as (t & accepted & _ & Hc & Hacc & Hd).
  fold (source_dict self default_dict). set (d := source_dict self default_dict) in *.
  cbn zeta in Hd.
  assert (∀ k, k ≠ "event_type" → k ≠ "trigger_id" → k ≠ "created_at" →
               k ≠ "task_accepted_time" → k ≠ "project_url" → k ≠ "targets_override" →
               get k d' = get k d) as Hkeep.
  { intros k ? ? ? ? ? ?. unfold get. rewrite Hd.
    destruct (truthy (Event.targets_override self));
      by rewrite !lookup_insert_ne by done. }
  assert (∀ k, k ≠ "targets_override" → get k d' =
            get k (<["project_url" :=
          if truthy (get "project_url" d) then get "project_url" d
          else of_opt VStr (Event.db_trigger self ≫= Event.trigger_project_url)]>
        (<["task_accepted_time" := accepted]>
           (<["created_at" := VInt (int_timestamp t)]>
              (<["trigger_id" := of_opt (λ t, VInt (tr_id t)) (Event.db_trigger self)]>
                 (<["event_type" := VStr (Event.class_name self)]> d)))))) as Hmost.
  { intros k ?. unfold get. rewrite Hd.
    destruct (truthy (Event.targets_override self)); by rewrite ?lookup_insert_ne by done. }
  cbn zeta. unfold EventData.from_event_dict, EventData.__init__.
  cbn [event_type trigger_id project_url targets_override user_login tag_name git_ref pr_id
       commit_sha identifier issue_id].
  rewrite !(Hkeep "user_login"), !(Hkeep "tag_name"), !(Hkeep "git_ref"), !(Hkeep "_pr_id"),
    !(Hkeep "pr_id"), !(Hkeep "commit_sha"), !(Hkeep "identifier"), !(Hkeep "issue_id")
    by done.
  rewrite !(Hmost "event_type"), !(Hmost "trigger_id"), !(Hmost "project_url") by done.
  repeat (rewrite get_insert_eq || rewrite get_insert_ne by done). cbn [as_str].
  split_and!; try done.
  - by destruct (Event.db_trigger self).
  - destruct (truthy (get "project_url" d)); [done|].
    by destruct (Event.db_trigger self ≫= Event.trigger_project_url).
  - intros Hov. unfold get. rewrite Hd, Hov, lookup_insert_eq.
    destruct (Event.targets_override self) as [s|]; [|done].
    cbn [default from_option id of_opt as_strs]. cbn [truthy truthy_option] in *.
    rewrite (truthy_elements s Hov). cbn [fmap option_fmap option_map].
    by rewrite list_to_set_elements_L.
  - intros Hov. unfold get. rewrite Hd, Hov. by rewrite !lookup_insert_ne by done.
Qed.



(** X22: what [Event.get_dict] raises.  If reading the property
    [db_trigger] raises, as it does in [AbstractForgeIndependentEvent]
    itself, [get_dict] raises that, whatever the dictionary holds.  If the
    property returns, [get_dict] raises [KeyError] for one key only,
    "created_at", and exactly when the dictionary it serializes (the
    [default_dict] handed in if that is not empty, else the attributes of
    the instance) has no such entry. *)
Theorem event_get_dict_KeyError (self : Event.t) (default_dict : option (gmap string value)) :
  (∀ e, Event.db_trigger_property self = inl e →
        Event.get_dict self default_dict = inl e) ∧
  (Event.db_trigger_property self = AbstractForgeIndependentEvent.db_trigger →
   Event.get_dict self default_dict = inl Event.NotImplementedError) ∧
  (∀ x k, Event.db_trigger_property self = inr x →
     (Event.get_dict self default_dict = inl (Event.KeyError k) ↔
      k = "created_at" ∧
      (if truthy default_dict then default ∅ default_dict else Event.__dict__ self)
        !! "created_at" = None)).
Proof.
  split_and!.
  - intros e He. unfold Event.get_dict. by rewrite He.
  - intros He. unfold Event.get_dict. by rewrite He.
  - intros x k Hx. unfold Event.get_dict. rewrite Hx. cbn zeta.
    rewrite !lookup_insert_ne by done.
    set (d := if truthy default_dict then _ else _).
    destruct (d !! "created_at") as [c|] eqn:Hc.
    + split; [|by intros [_ ?]]. intros H. exfalso.
      destruct c; try done. cbn [Event.int_timestamp_of] in H.
      destruct (truthy (get "task_accepted_time" _)); [|done].
      by destruct (get "task_accepted_time" _).
    + split; [by intros [= <-]|]. by intros [-> _].
Qed.

Lemma pop_inr (key : string) (d d' : gmap string value) :
  AbstractForgeIndependentEvent.pop key d = inr d' → is_Some (d !! key) ∧ d' = delete key d.
Proof.
  unfold AbstractForgeIndependentEvent.pop. destruct (d !! key); [|done].
  intros [= <-]. eauto.
Qed.

Lemma not_lazy_key (k : string) :
  k ≠ "_project" → k ≠ "_base_project" → k ≠ "_package_config" → k ∉ lazy_keys.
Proof.
  intros ? ? ?. unfold lazy_keys. rewrite !not_elem_of_cons. split_and!; try done.
  apply not_elem_of_nil.
Qed.

Lemma from_event_dict_agree (d d' : gmap string value) :
  (∀ k, k ∉ lazy_keys → d' !! k = d !! k) →
  agree (EventData.from_event_dict d') (EventData.from_event_dict d).
Proof.
  intros H.
  assert (∀ k, k ∉ lazy_keys → get k d' = get k d) as Hget.
  { intros k Hk. unfold get. by rewrite H. }
  unfold agree, EventData.from_event_dict, EventData.__init__.
  cbn [event_type trigger_id project_url targets_override user_login tag_name git_ref pr_id
       commit_sha identifier issue_id task_accepted_time].
  rewrite !(Hget "event_type"), !(Hget "user_login"), !(Hget "trigger_id"),
    !(Hget "project_url"), !(Hget "tag_name"), !(Hget "git_ref"), !(Hget "_pr_id"),
    !(Hget "pr_id"), !(Hget "commit_sha"), !(Hget "identifier"), !(Hget "issue_id"),
    !(Hget "task_accepted_time"), !(Hget "targets_override") by by apply not_lazy_key.
  done.
Qed.

Lemma forge_event_get_dict_rest (self : Event.t)
    (default_dict : option (gmap string value)) (d' : gmap string value) :
  AbstractForgeIndependentEvent.get_dict self default_dict = inr d' →
  ∃ d0,
    Event.get_dict self None = inr d0 ∧
    (∀ k, k ∉ lazy_keys → d' !! k = d0 !! k) ∧
    agree (EventData.from_event_dict d') (EventData.from_event_dict d0).
Proof.
  unfold AbstractForgeIndependentEvent.get_dict.
  destruct (Event.get_dict self None) as [e|d0] eqn:Hd0; [done|].
  destruct (AbstractForgeIndependentEvent.pop "_project" d0) as [e|d1] eqn:H1; [done|].
  destruct (AbstractForgeIndependentEvent.pop "_base_project" d1) as [e|d2] eqn:H2; [done|].
  intros H3.
  apply pop_inr in H1 as [S1 ->]. apply pop_inr in H2 as [S2 ->].
  apply pop_inr in H3 as [S3 ->].
  assert (∀ k, k ∉ lazy_keys →
            delete "_package_config" (delete "_base_project" (delete "_project" d0)) !! k
            = d0 !! k) as Hrest.
  { intros k Hk. unfold lazy_keys in Hk. rewrite !not_elem_of_cons in Hk.
    destruct Hk as (? & ? & ? & _). by rewrite !lookup_delete_ne by done. }
  exists d0. split; [done|]. split; [exact Hrest|]. by apply from_event_dict_agree.
Qed.

(** X23: [AbstractForgeIndependentEvent.get_dict].  When it returns, each of
    the three lazy attributes was an attribute of the instance and is no key
    of the result; the result is computed from the attributes of the
    instance, whatever [default_dict] is handed in; beside the lazy keys it
    is what [Event.get_dict] gives, and [EventData.from_event_dict] reads the
    same data from both. *)
Theorem forge_event_get_dict (self : Event.t) (default_dict : option (gmap string value))
    (d' : gmap string value) :
  AbstractForgeIndependentEvent.get_dict self default_dict = inr d' →
  (∀ k, k ∈ ["_project"; "_base_project"; "_package_config"] →
        d' !! k = None ∧ is_Some (Event.__dict__ self !! k)) ∧
  ∃ d0,
    Event.get_dict self None = inr d0 ∧
    (∀ k, k ∉ ["_project"; "_base_project"; "_package_config"] → d' !! k = d0 !! k) ∧
    agree (EventData.from_event_dict d') (EventData.from_event_dict d0).
Proof.
  unfold AbstractForgeIndependentEvent.get_dict.
  destruct (Event.get_dict self None) as [e|d0] eqn:Hd0; [done|].
  destruct (AbstractForgeIndependentEvent.pop "_project" d0) as [e|d1] eqn:H1; [done|].
  destruct (AbstractForgeIndependentEvent.pop "_base_project" d1) as [e|d2] eqn:H2; [done|].
  intros H3.
  apply pop_inr in H1 as [S1 ->]. apply pop_inr in H2 as [S2 ->].
  apply pop_inr in H3 as [S3 ->].
  rewrite lookup_delete_ne in S2 by done. rewrite !lookup_delete_ne in S3 by done.
  apply event_get_dict_inr in Hd0 as (t & accepted & _ & _ & _ & Hd0).
  cbn zeta in Hd0. cbn [source_dict truthy truthy_option] in Hd0.
  assert (∀ k, k ∈ lazy_keys → d0 !! k = Event.__dict__ self !! k) as Hsame.
  { intros k Hk. rewrite Hd0. unfold lazy_keys in Hk.
    repeat (apply elem_of_cons in Hk as [->|Hk]);
      [..|by apply elem_of_nil in Hk];
      by destruct (truthy (Event.targets_override self)); rewrite !lookup_insert_ne by done. }
  assert (∀ k, k ∉ lazy_keys →
            delete "_package_config" (delete "_base_project" (delete "_project" d0)) !! k
            = d0 !! k) as Hrest.
  { intros k Hk. unfold lazy_keys in Hk. rewrite !not_elem_of_cons in Hk.
    destruct Hk as (? & ? & ? & _). by rewrite !lookup_delete_ne by done. }
  split.
  - intros k Hk. split.
    + repeat (apply elem_of_cons in Hk as [->|Hk]); [..|by apply elem_of_nil in Hk].
      * by rewrite !lookup_delete_ne, lookup_delete_eq by done.
      * by rewrite lookup_delete_ne, lookup_delete_eq by done.
      * by rewrite lookup_delete_eq.
    + rewrite <- (Hsame k Hk).
      repeat (apply elem_of_cons in Hk as [->|Hk]); [done..|by apply elem_of_nil in Hk].
  - exists d0. split; [done|]. split; [exact Hrest|].
    by apply from_event_dict_agree.
Qed.

Lemma forge_event_get_dict_witness :
  ∃ d',
    AbstractForgeIndependentEvent.get_dict opened_pr (Some ∅) = inr d' ∧
    d' !! "_project" = None ∧ is_Some (Event.__dict__ opened_pr !! "_project").
Proof.
  assert (∃ d', AbstractForgeIndependentEvent.get_dict opened_pr (Some ∅) = inr d')
    as [d' Hd] by (eexists; reflexivity).
  exists d'. split; [done|].
  destruct (forge_event_get_dict opened_pr (Some ∅) d' Hd) as [H _].
  apply H, list_elem_of_here.
Defined.

Lemma get_dict_of_init (cls : string) (t : datetime) (url : option string)
    (pr : option Z) (trigger : option AbstractTriggerDbType) (override : option (gset string))
    (default_dict : option (gmap string value)) :
  let self :=
    {| Event.class_name := cls;
       Event.__dict__ := AbstractForgeIndependentEvent.__init__ t url pr;
       Event.db_trigger_property := inr trigger;
       Event.targets_override := override |} in
  ∃ d',
    AbstractForgeIndependentEvent.get_dict self default_dict = inr d' ∧
    d' !! "created_at" = Some (VInt (int_timestamp t)) ∧
    let e := EventData.from_event_dict d' in
    event_type e = Some cls ∧
    trigger_id e = tr_id <$> trigger ∧
    pr_id e = (if truthy pr then pr else None) ∧
    project_url e = (if truthy url then url else trigger ≫= Event.trigger_project_url) ∧
    task_accepted_time e = None ∧
    targets_override e = (if truthy override then override else None).
Proof.
  intros self.
  set (d := AbstractForgeIndependentEvent.__init__ t url pr).
  assert (get "project_url" d = of_opt VStr url) as Hurl by done.
  assert (get "task_accepted_time" d = VNone) as Hacc by done.
  assert (get "_pr_id" d = of_opt VInt pr) as Hpr by done.
  assert (get "pr_id" d = VNone) as Hpr' by done.
  assert (get "targets_override" d = VNone) as Hov by done.
  set (d1 :=
    <["project_url" :=
        if truthy (get "project_url" d) then get "project_url" d
        else if truthy trigger then of_opt VStr (trigger ≫= Event.trigger_project_url)
             else VNone]>
      (<["task_accepted_time" := VNone]>
         (<["created_at" := VInt (int_timestamp t)]>
            (<["trigger_id" :=
                 if truthy trigger then of_opt (λ t, VInt (tr_id t)) trigger else VNone]>
               (<["event_type" := VStr cls]> d))))).
  set (d0 := if truthy override
             then <["targets_override" := of_opt (λ s, VList (elements s)) override]> d1
             else d1).
  assert (Event.get_dict self None = inr d0) as Hd0 by done.
  assert (∀ k, k ≠ "targets_override" → d0 !! k = d1 !! k) as Hd01.
  { intros k Hk. unfold d0. destruct (truthy override); [|done]. by rewrite lookup_insert_ne. }
  exists (delete "_package_config" (delete "_base_project" (delete "_project" d0))).
  assert (AbstractForgeIndependentEvent.get_dict self default_dict =
          inr (delete "_package_config" (delete "_base_project" (delete "_project" d0))))
    as Hget.
  { assert (∀ k, k ∈ lazy_keys → d0 !! k = Some VNone) as Hlazy.
    { intros k Hk. rewrite Hd01.
      - unfold lazy_keys in Hk.
        by repeat (apply elem_of_cons in Hk as [->|Hk]); [..|apply elem_of_nil in Hk].
      - intros ->. unfold lazy_keys in Hk.
        by repeat (apply elem_of_cons in Hk as [?|Hk]); [..|apply elem_of_nil in Hk]. }
    unfold AbstractForgeIndependentEvent.get_dict. rewrite Hd0.
    unfold AbstractForgeIndependentEvent.pop.
    rewrite (Hlazy "_project") by (unfold lazy_keys; rewrite !elem_of_cons; auto).
    rewrite !lookup_delete_ne by done.
    rewrite (Hlazy "_base_project") by (unfold lazy_keys; rewrite !elem_of_cons; auto).
    rewrite !lookup_delete_ne by done.
    rewrite (Hlazy "_package_config") by (unfold lazy_keys; rewrite !elem_of_cons; auto).
    done. }
  split; [exact Hget|].
  destruct (forge_event_get_dict_rest self default_dict _ Hget) as (d0' & Hd0' & Hrest & Hag).
  rewrite Hd0 in Hd0'. injection Hd0' as <-.
  split.
  { rewrite Hrest by (by apply not_lazy_key). by rewrite Hd01. }
  cbn zeta.
  destruct Hag as (-> & _ & -> & -> & _ & _ & -> & _ & _ & _ & -> & ->).
  destruct (from_event_dict_of_get_dict self None d0 Hd0)
    as (H1 & H2 & H3 & H4 & H5 & _ & _ & _ & H6 & _).
  cbn [truthy truthy_option Event.class_name Event.db_trigger Event.db_trigger_property
       Event.targets_override Event.__dict__ self] in H1, H2, H3, H4, H5, H6.
  fold d in H3, H5, H6.
  cbn zeta. rewrite H1, H2, H3, H6. split; [done|]. split; [done|].
  split_and!.
  - unfold EventData.from_event_dict, EventData.__init__. cbn [pr_id].
    rewrite Hpr, Hpr'. destruct pr as [n|]; [|done].
    cbn [of_opt truthy truthy_value truthy_option]. by destruct (truthy n).
  - rewrite Hurl. by destruct url as [u|]; [destruct u|].
  - unfold EventData.from_event_dict, EventData.__init__. cbn [task_accepted_time].
    assert (get "task_accepted_time" d0 = VNone) as ->; [|done].
    unfold get. rewrite Hd01 by done. unfold d1.
    by rewrite lookup_insert_ne, lookup_insert_eq.
  - destruct (truthy override) eqn:Hov'.
    + by apply H4.
    + rewrite H5 by done. unfold EventData.from_event_dict, EventData.__init__.
      cbn [targets_override]. by rewrite Hov.
Qed.

(** X24: an event as [AbstractForgeIndependentEvent.__init__] leaves it, of
    a class whose property [db_trigger] returns, and created at an instant
    whose timestamp the float of [timestamp()] carries exactly, is always
    serialized; [EventData.from_event_dict] reads from the result the class
    name, the creation time in whole seconds, the id of the trigger, the
    pull-request id unless that is 0, the project url (the one of the trigger
    when the event has none or an empty one), no acceptance time, and the
    target override unless that is empty. *)
Theorem forge_event_serializes (cls : string) (t : datetime) (url : option string)
    (pr : option Z) (trigger : option AbstractTriggerDbType) (override : option (gset string))
    (default_dict : option (gmap string value)) :
  float_exact t →
  let self :=
    {| Event.class_name := cls;
       Event.__dict__ := AbstractForgeIndependentEvent.__init__ t url pr;
       Event.db_trigger_property := inr trigger;
       Event.targets_override := override |} in
  ∃ d',
    AbstractForgeIndependentEvent.get_dict self default_dict = inr d' ∧
    d' !! "created_at" = Some (VInt (int_timestamp t)) ∧
    let e := EventData.from_event_dict d' in
    event_type e = Some cls ∧
    trigger_id e = tr_id <$> trigger ∧
    pr_id e = (if truthy pr then pr else None) ∧
    project_url e = (if truthy url then url else trigger ≫= Event.trigger_project_url) ∧
    task_accepted_time e = None ∧
    targets_override e = (if truthy override then override else None).
Proof. intros _. apply get_dict_of_init. Qed.

(** ** [Event.__init__] and [Event.ts2str] *)

Lemma fromtimestamp_exact (n : Z) : datetime_range n → float_exact (fromtimestamp n).
Proof.
  intros Hn. right. split.
  - unfold whole_second, fromtimestamp. cbn. apply Z.rem_mul. lia.
  - by rewrite quot_fromtimestamp.
Qed.

(** X25: the creation time of an event given as an integer timestamp that
    [datetime.fromtimestamp] accepts, for a class whose property
    [db_trigger] returns.  [__init__] sets [created_at]; serialized by
    [get_dict], the event carries the integer it was created with, unless
    that is 0, which [__init__] takes for a missing argument, so that the
    event carries the current time, in whole seconds where the float of
    [timestamp()] carries it exactly. *)
Theorem created_at_roundtrip (float : Type) (float_nonzero : float → bool)
    (fromtimestamp_float : float → option datetime)
    (fromisoformat : string → option datetime)
    (now : datetime) (n : Z) (cls : string) (url : option string) (pr : option Z)
    (trigger : option AbstractTriggerDbType) (override : option (gset string))
    (default_dict : option (gmap string value)) :
  datetime_range n →
  (n = 0%Z → float_exact now) →
  ∃ t d',
    Event.__init__ float float_nonzero fromtimestamp_float fromisoformat now (Event.at_int n)
      = Some t ∧
    float_exact t ∧
    AbstractForgeIndependentEvent.get_dict
      {| Event.class_name := cls;
         Event.__dict__ := AbstractForgeIndependentEvent.__init__ t url pr;
         Event.db_trigger_property := inr trigger;
         Event.targets_override := override |} default_dict
      = inr d' ∧
    d' !! "created_at" = Some (VInt (if decide (n = 0%Z) then int_timestamp now else n)).
Proof.
  intros Hrange Hnow. unfold Event.__init__, truthy, truthy_Z.
  destruct (decide (n = 0%Z)) as [->|Hn].
  - destruct (get_dict_of_init cls now url pr trigger override default_dict)
      as (d' & Hd & Hc & _). exists now, d'. split; [done|]. split; [by apply Hnow|done].
  - rewrite (proj2 (Z.eqb_neq n 0) Hn). cbn [negb]. rewrite decide_True by done.
    destruct (get_dict_of_init cls (fromtimestamp n) url pr trigger override default_dict)
      as (d' & Hd & Hc & _).
    exists (fromtimestamp n), d'. split; [done|]. split; [by apply fromtimestamp_exact|].
    by rewrite quot_fromtimestamp in Hc.
Qed.

(** X26: [ts2str] raises exactly when "created_at" is an integer that
    [datetime.fromtimestamp] rejects in the local zone.  Where it returns it
    changes at most the entry "created_at", and applied to its own result it
    returns that result; on what [get_dict] returns it replaces the integer
    timestamp under "created_at" by its ISO 8601 form. *)
Theorem ts2str_get_dict (isoformat : Z → option string) (event : gmap string value) :
  (Event.ts2str isoformat event = None ↔
   ∃ n, Event.as_isinstance_int (get "created_at" event) = Some n ∧ isoformat n = None) ∧
  (∀ event', Event.ts2str isoformat event = Some event' →
     Event.ts2str isoformat event' = Some event' ∧
     ∀ k, k ≠ "created_at" → event' !! k = event !! k) ∧
  (∀ self default_dict,
     Event.get_dict self default_dict = inr event →
     ∃ n, event !! "created_at" = Some (VInt n) ∧
          Event.ts2str isoformat event =
            (λ s, <["created_at" := VStr s]> event) <$> isoformat n).
Proof.
  split_and!.
  - unfold Event.ts2str.
    destruct (Event.as_isinstance_int (get "created_at" event)) as [n|] eqn:Hn.
    + destruct (isoformat n) as [s|] eqn:Hs.
      * split; [done|]. intros (n' & [= <-] & H). congruence.
      * split; [|done]. intros _. by exists n.
    + split; [done|]. by intros (n' & [=] & _).
  - intros event'. unfold Event.ts2str.
    destruct (Event.as_isinstance_int (get "created_at" event)) as [n|] eqn:Hn.
    + destruct (isoformat n) as [s|]; [|done]. intros [= <-].
      rewrite get_insert_eq. cbn [Event.as_isinstance_int]. split; [done|].
      intros k Hk. by rewrite lookup_insert_ne.
    + intros [= <-]. by rewrite Hn.
  - intros self default_dict Hd.
    apply event_get_dict_inr in Hd as (t & accepted & _ & _ & _ & Hd). cbn zeta in Hd.
    exists (int_timestamp t).
    assert (event !! "created_at" = Some (VInt (int_timestamp t))) as Hc.
    { rewrite Hd. destruct (truthy (Event.targets_override self));
        by rewrite !lookup_insert_ne, lookup_insert_eq by done. }
    split; [done|]. unfold Event.ts2str, get. rewrite Hc. cbn.
    by destruct (isoformat (int_timestamp t)).
Qed.

Lemma ts2str_get_dict_witness :
  ∃ d,
    Event.get_dict opened_pr None = inr d ∧
    Event.ts2str (λ _, Some "2021-08-26T17:46:40") d =
      Some (<["created_at" := VStr "2021-08-26T17:46:40"]> d) ∧
    Event.ts2str (λ _, None) d = None.
Proof.
  assert (∃ d, Event.get_dict opened_pr None = inr d) as [d Hd] by (eexists; reflexivity).
  exists d. split; [done|].
  destruct (proj2 (proj2 (ts2str_get_dict (λ _, Some "2021-08-26T17:46:40") d))
              opened_pr None Hd) as (n & _ & H).
  split; [exact H|].
  destruct (proj2 (proj2 (ts2str_get_dict (λ _, None) d)) opened_pr None Hd)
    as (n' & _ & H').
  exact H'.
Defined.

Lemma event_get_dict_KeyError_witness :
  Event.get_dict opened_pr (Some {[ "project_url" := VNone ]})
    = inl (Event.KeyError "created_at") ∧
  Event.get_dict
    {| Event.class_name := "AbstractForgeIndependentEvent";
       Event.__dict__ :=
         AbstractForgeIndependentEvent.__init__ (fromtimestamp 1630000000) None None;
       Event.db_trigger_property := AbstractForgeIndependentEvent.db_trigger;
       Event.targets_override := None |} None
    = inl Event.NotImplementedError.
Proof.
  split.
  - apply (proj2 (proj2 (event_get_dict_KeyError opened_pr
                           (Some {[ "project_url" := VNone ]})))
             (Some pr9) "created_at" eq_refl).
    split; reflexivity.
  - apply (proj1 (proj2 (event_get_dict_KeyError _ None))). reflexivity.
Defined.

Lemma forge_event_serializes_witness :
  ∃ d',
    AbstractForgeIndependentEvent.get_dict opened_pr None = inr d' ∧
    d' !! "created_at" = Some (VInt 1630000000) ∧
    pr_id (EventData.from_event_dict d') = Some 9%Z.
Proof.
  destruct (forge_event_serializes "PullRequestGithubEvent" (fromtimestamp 1630000000)
              (Some "https://github.com/packit-service/hello-world") (Some 9%Z) (Some pr9)
              None None) as (d' & Hd & Hc & _ & _ & Hpr & _).
  { left. by vm_compute. }
  exists d'. split; [exact Hd|]. split; [exact Hc|exact Hpr].
Defined.

Lemma created_at_roundtrip_witness :
  ∃ t d',
    Event.__init__ unit (λ _, false) (λ _, None) (λ _, None)
      (fromtimestamp 1630000600) (Event.at_int 1630000000) = Some t ∧
    float_exact t ∧
    AbstractForgeIndependentEvent.get_dict
      {| Event.class_name := "PullRequestGithubEvent";
         Event.__dict__ := AbstractForgeIndependentEvent.__init__ t None (Some 9%Z);
         Event.db_trigger_property := inr (Some pr9);
         Event.targets_override := None |} None
      = inr d' ∧
    d' !! "created_at" = Some (VInt 1630000000).
Proof.
  apply (created_at_roundtrip unit (λ _, false) (λ _, None) (λ _, None)
           (fromtimestamp 1630000600) 1630000000 "PullRequestGithubEvent" None (Some 9%Z)
           (Some pr9) None None).
  - unfold datetime_range. lia.
  - discriminate.
Defined.
